(** * Order workflow, payment URL signing and revenue aggregation

    A shallow embedding of the order/payment core of the tutoring-booking
    backend: [services/orderService.js] ([createOrder], [updateOrderStatus]),
    the two dashboard services ([StatsService.getMonthlyRevenue],
    [getRevenueByYear], [getTopAccountByCompletedCourses], [getTopTutor]) and
    the [/revenue/:year] route, over the Mongoose models they use.

    Modelling decisions, fixed here once:
    - A collection is a finite map from [_id] to document ([gmap]); the key
      is the document's [_id], so ids are unique per collection as in the
      store.
    - An [ObjectId] is a number; a request parameter that should carry one is
      an [option ObjectId], where [None] stands for every falsy value
      ([undefined], [null], the empty string) that the service's [!x] guards
      catch.  Strings that Mongoose cannot cast to an ObjectId are not
      represented.
    - A JavaScript [Number] is an exact rational ([Qc]); the rounding error of
      double arithmetic is outside the model.
    - A [Date] is the record of its calendar fields; the process clock is
      taken to run in UTC, so the fields read locally ([getMonth], ...) and
      the ones the store extracts ([$month]) agree.
    - The clock is an input: a call is given the reading [now], which stands
      for each [new Date()] and each timestamp a [save()] sets during it.
    - Store operations do not fail and calls do not interleave. *)

From Stdlib Require Import ZArith QArith Qround Qcanon Lia Lqa.
From Stdlib Require Import Ascii String.
From stdpp Require Import base option list gmap strings sorting pretty.

Local Open Scope string_scope.
Local Open Scope Z_scope.

(** ** Primitive data *)

Abbreviation ObjectId := N (only parsing).
Abbreviation Number := Qc (only parsing).

Inductive Month :=
  Jan | Feb | Mar | Apr | May | Jun | Jul | Aug | Sep | Oct | Nov | Dec.

(** [Date.prototype.getMonth]: zero-based. *)
Definition monthIndex (m : Month) : nat :=
  match m with
  | Jan => 0 | Feb => 1 | Mar => 2 | Apr => 3 | May => 4 | Jun => 5
  | Jul => 6 | Aug => 7 | Sep => 8 | Oct => 9 | Nov => 10 | Dec => 11
  end%nat.

Definition allMonths : list Month :=
  [Jan; Feb; Mar; Apr; May; Jun; Jul; Aug; Sep; Oct; Nov; Dec].

Module Date.
Record t := mk {
  year : Z;
  month : Month;
  date : positive;      (* day of the month, from 1 *)
  hours : N;
  minutes : N;
  seconds : N;
  milliseconds : N
}.

(** Chronological order: lexicographic on the calendar fields. *)
Definition compare (a b : t) : comparison :=
  match Z.compare (year a) (year b) with
  | Eq =>
    match Nat.compare (monthIndex (month a)) (monthIndex (month b)) with
    | Eq =>
      match Pos.compare (date a) (date b) with
      | Eq =>
        match N.compare (hours a) (hours b) with
        | Eq =>
          match N.compare (minutes a) (minutes b) with
          | Eq =>
            match N.compare (seconds a) (seconds b) with
            | Eq => N.compare (milliseconds a) (milliseconds b)
            | c => c
            end
          | c => c
          end
        | c => c
        end
      | c => c
      end
    | c => c
    end
  | c => c
  end.

(** [$gte] and [$lt] on dates. *)
Definition gte (a b : t) : bool :=
  match compare a b with Lt => false | _ => true end.
Definition lt (a b : t) : bool :=
  match compare a b with Lt => true | _ => false end.

(** [new Date(year, 0, 1)]: midnight of January 1st.  As the language
    defines the constructor, a year from 0 to 99 stands for 1900 + year. *)
Definition newYearDay (y : Z) : t :=
  mk (if (0 <=? y) && (y <=? 99) then 1900 + y else y) Jan 1 0 0 0 0.
End Date.

(** ** Documents *)

Inductive Role := Admin | Tutor | User.
Inductive AccountStatus := Active | Inactive.
Inductive OrderStatus := Pending | Completed | Cancelled.
Inductive PaymentMethodName := VNPay | Momo.

Global Instance Role_eq_dec : EqDecision Role.
Proof. solve_decision. Defined.
Global Instance AccountStatus_eq_dec : EqDecision AccountStatus.
Proof. solve_decision. Defined.
Global Instance OrderStatus_eq_dec : EqDecision OrderStatus.
Proof. solve_decision. Defined.
Global Instance PaymentMethodName_eq_dec : EqDecision PaymentMethodName.
Proof. solve_decision. Defined.
Global Instance Month_eq_dec : EqDecision Month.
Proof. solve_decision. Defined.

Module Account.
Record t := mk {
  fullName : string;
  email : string;
  phone : string;
  password : option string;
  balance : Number;
  avatar : string;
  role : Role;
  status : AccountStatus;
  otp : option string;
  otpExpiration : option Date.t;
  createdAt : Date.t;
  updatedAt : Date.t
}.
End Account.

Module Course.
Record t := mk {
  name : string;
  description : string;
  image : string;
  price : Number;
  createdBy : ObjectId;
  isActive : bool;
  createdAt : Date.t;
  updatedAt : Date.t
}.
End Course.

Module PaymentMethod.
Record t := mk { name : PaymentMethodName }.
End PaymentMethod.

Module Order.
Record t := mk {
  account : ObjectId;
  paymentMethod : ObjectId;
  totalAmount : Number;
  status : OrderStatus;
  createdAt : Date.t;
  updatedAt : Date.t
}.

Definition set_status (s : OrderStatus) (now : Date.t) (o : t) : t :=
  mk (account o) (paymentMethod o) (totalAmount o) s (createdAt o) now.
End Order.

Module OrderDetail.
Record t := mk {
  order : ObjectId;
  course : ObjectId;
  quantity : Number;
  price : Number;
  isFinishCourse : bool;
  timeFinishCourse : option Date.t;
  certificateOfCompletion : option string;
  createdAt : Date.t;
  updatedAt : Date.t
}.
End OrderDetail.

(** ** The store: [db] of [models/index.js] *)

Record Db := mkDb {
  accounts : gmap N Account.t;
  courses : gmap N Course.t;
  paymentmethods : gmap N PaymentMethod.t;
  orders : gmap N Order.t;
  orderdetails : gmap N OrderDetail.t
}.

Definition emptyDb : Db := mkDb ∅ ∅ ∅ ∅ ∅.

Definition set_paymentmethods (f : gmap N PaymentMethod.t → gmap N PaymentMethod.t)
    (db : Db) : Db :=
  mkDb (accounts db) (courses db) (f (paymentmethods db)) (orders db) (orderdetails db).
Definition set_orders (f : gmap N Order.t → gmap N Order.t) (db : Db) : Db :=
  mkDb (accounts db) (courses db) (paymentmethods db) (f (orders db)) (orderdetails db).
Definition set_orderdetails (f : gmap N OrderDetail.t → gmap N OrderDetail.t)
    (db : Db) : Db :=
  mkDb (accounts db) (courses db) (paymentmethods db) (orders db) (f (orderdetails db)).

(** The documents of a collection in the order a scan meets them. *)
Definition scan {A} (c : gmap N A) : list (N * A) := map_to_list c.

(** ** Service calls: state passing with thrown HTTP errors *)

Inductive HttpError :=
  | BadRequest (message : string)
  | NotFound (message : string).

Definition statusCode (e : HttpError) : Z :=
  match e with BadRequest _ => 400 | NotFound _ => 404 end.

Inductive Outcome (A : Type) :=
  | Throw (e : HttpError)
  | Return (a : A).
Arguments Throw {A} e.
Arguments Return {A} a.

Definition M (A : Type) : Type := Db → Outcome A * Db.

Definition throw {A} (e : HttpError) : M A := λ db, (Throw e, db).

Global Instance M_ret : MRet M := λ A a db, (Return a, db).
Global Instance M_bind : MBind M := λ A B k m db,
  match m db with
  | (Return a, db') => k a db'
  | (Throw e, db') => (Throw e, db')
  end.

(** Reads and writes of the store. *)
Definition Course_findById (id : ObjectId) : M (option Course.t) :=
  λ db, (Return (courses db !! id), db).
Definition Account_findById (id : ObjectId) : M (option Account.t) :=
  λ db, (Return (accounts db !! id), db).

(** [db.Order.findOne({ _id: orderId, account: accountId })].  An absent
    [accountId] matches no order: every order carries an account. *)
Definition Order_findOne (orderId : ObjectId) (accountId : option ObjectId)
    : M (option Order.t) :=
  λ db, (Return (o ← orders db !! orderId;
                 if decide (Some (Order.account o) = accountId) then Some o else None),
         db).

(** [db.PaymentMethod.findOne({ name })]: the first match of a scan, with
    its [_id]. *)
Definition PaymentMethod_findOne (name : PaymentMethodName)
    : M (option (ObjectId * PaymentMethod.t)) :=
  λ db, (Return (List.find (λ d, bool_decide (PaymentMethod.name d.2 = name))
                   (scan (paymentmethods db))),
         db).

(** [new db.X(doc)] followed by [save()]: the document enters the
    collection under an [_id] no document of the collection has. *)
Definition PaymentMethod_create (d : PaymentMethod.t) : M ObjectId :=
  λ db, let id := fresh (dom (paymentmethods db)) in
        (Return id, set_paymentmethods <[id := d]> db).
Definition Order_create (d : Order.t) : M ObjectId :=
  λ db, let id := fresh (dom (orders db)) in
        (Return id, set_orders <[id := d]> db).
Definition OrderDetail_create (d : OrderDetail.t) : M ObjectId :=
  λ db, let id := fresh (dom (orderdetails db)) in
        (Return id, set_orderdetails <[id := d]> db).

(** [order.save()] on a document read from the store. *)
Definition Order_save (id : ObjectId) (o : Order.t) : M unit :=
  λ db, (Return tt, set_orders <[id := o]> db).

(** ** [orderService.updateOrderStatus] *)

Record UpdateResponse := mkUpdateResponse {
  ur_status : Z;
  ur_message : string;
  ur_orderId : ObjectId
}.

Definition updateOrderStatus (now : Date.t) (orderId accountId : option ObjectId)
    : M UpdateResponse :=
  match orderId with
  | None => throw (BadRequest "Order ID is required")
  | Some oid =>
    found ← Order_findOne oid accountId;
    match found with
    | None => throw (NotFound "Order not found or unauthorized")
    | Some order =>
      if decide (Order.status order = Completed)
      then throw (BadRequest "Order is already paid")
      else
        Order_save oid (Order.set_status Completed now order);;
        mret (mkUpdateResponse 200 "Order status updated to Paid successfully" oid)
    end
  end.

(** The status an order has in a store, if the order is there. *)
Definition statusOf (db : Db) (id : ObjectId) : option OrderStatus :=
  Order.status <$> orders db !! id.


(** ** Strings: the helpers the payment URL needs *)

(** [String.prototype.replace] with a string pattern: the first occurrence
    only.  The replacements used here are digit strings, so the [$]
    patterns of the replacement text never arise. *)
Fixpoint dropChars (n : nat) (s : string) : string :=
  match n, s with
  | S n', String _ s' => dropChars n' s'
  | _, _ => s
  end.

Fixpoint replaceFirst (pat rep s : string) : string :=
  if String.prefix pat s then rep +:+ dropChars (String.length pat) s
  else match s with
       | EmptyString => EmptyString
       | String c s' => String c (replaceFirst pat rep s')
       end.

(** [String(num).padStart(2, "0")] *)
Definition pad (num : N) : string :=
  let s := pretty num in
  if (String.length s <? 2)%nat then "0" +:+ s else s.

(** Helper function to format date as required by VNPay. *)
Definition dateFormat (d : Date.t) (format : string) : string :=
  let s1 := replaceFirst "yyyy" (pretty (Date.year d)) format in
  let s2 := replaceFirst "mm" (pad (N.of_nat (monthIndex (Date.month d) + 1))) s1 in
  let s3 := replaceFirst "dd" (pad (Npos (Date.date d))) s2 in
  let s4 := replaceFirst "HH" (pad (Date.hours d)) s3 in
  let s5 := replaceFirst "MM" (pad (Date.minutes d)) s4 in
  replaceFirst "ss" (pad (Date.seconds d)) s5.

(** [ObjectId.prototype.toString]: 24 hexadecimal digits. *)
Definition hexDigit (upper : bool) (n : N) : ascii :=
  let digits := if upper then "0123456789ABCDEF" else "0123456789abcdef" in
  match String.get (N.to_nat n) digits with Some c => c | None => "0"%char end.

Fixpoint hexN (upper : bool) (width : nat) (n : N) (acc : string) : string :=
  match width with
  | O => acc
  | S w => hexN upper w (n / 16)%N (String (hexDigit upper (n mod 16)%N) acc)
  end.

Definition ObjectId_toString (id : ObjectId) : string := hexN false 24 id "".

(** The [application/x-www-form-urlencoded] serializer behind
    [URLSearchParams.prototype.toString]: letters, digits and [*-._] stay,
    a space becomes [+], every other byte becomes [%XX]. *)
Definition isUnreserved (c : ascii) : bool :=
  let n := N_of_ascii c in
  (((48 <=? n) && (n <=? 57)) || ((65 <=? n) && (n <=? 90))
   || ((97 <=? n) && (n <=? 122))
   || (n =? 42) || (n =? 45) || (n =? 46) || (n =? 95))%N.

Fixpoint urlencode (s : string) : string :=
  match s with
  | EmptyString => EmptyString
  | String c s' =>
    if isUnreserved c then String c (urlencode s')
    else if Ascii.eqb c " " then String "+" (urlencode s')
    else String "%" (hexN true 2 (N_of_ascii c) (urlencode s'))
  end.

Definition joinWith (sep : string) (l : list string) : string :=
  match l with
  | [] => ""
  | x :: r => foldl (λ acc y, acc +:+ sep +:+ y) x r
  end.

(** Lexicographic order on strings, the default comparison of
    [Array.prototype.sort]. *)
Definition String_le (a b : string) : Prop := String.leb a b = true.
Definition String_lt (a b : string) : Prop := String.ltb a b = true.
Global Instance String_le_dec a b : Decision (String_le a b).
Proof. unfold String_le. apply _. Defined.

(** An object with string keys, in insertion order. *)
Definition objGet {V} (o : list (string * V)) (key : string) : option V :=
  snd <$> List.find (λ kv, String.eqb kv.1 key) o.

Fixpoint objSet {V} (o : list (string * V)) (key : string) (v : V)
    : list (string * V) :=
  match o with
  | [] => [(key, v)]
  | (k, w) :: r => if String.eqb k key then (k, v) :: r else (k, w) :: objSet r key v
  end.

Definition objKeys {V} (o : list (string * V)) : list string := o.*1.

Section WithPlatform.
(** What the platform libraries compute: [Number.prototype.toString] and
    [crypto.createHmac("sha512", key).update(data).digest("hex")]. *)
Variable Number_toString : Number → string.
Variable hmacSha512Hex : string → string → string.

Inductive ParamValue :=
  | PUndefined
  | PStr (s : string)
  | PNum (n : Number).

Definition ParamValue_toString (v : ParamValue) : string :=
  match v with
  | PUndefined => "undefined"
  | PStr s => s
  | PNum n => Number_toString n
  end.

(** [new URLSearchParams(obj).toString()] *)
Definition URLSearchParams_toString (o : list (string * ParamValue)) : string :=
  joinWith "&"
    ((λ kv, urlencode kv.1 +:+ "=" +:+ urlencode (ParamValue_toString kv.2)) <$> o).

Record Request := mkRequest { ip : option string }.

Definition vnp_TmnCode : string := "9TKDVWYK".
Definition vnp_HashSecret : string := "LH6SD44ECTBWU1PHK3D2YCOI5HLUWGPH".

Definition paymentParams (req : Request) (now : Date.t) (totalAmount : Number)
    (orderId : ObjectId) (courseName : string) : list (string * ParamValue) :=
  [ ("vnp_Version", PStr "2.1.0");
    ("vnp_Command", PStr "pay");
    ("vnp_TmnCode", PStr vnp_TmnCode);
    ("vnp_Amount", PNum (totalAmount * Q2Qc 100));
    ("vnp_CurrCode", PStr "VND");
    ("vnp_TxnRef", PStr (ObjectId_toString orderId));
    ("vnp_OrderInfo", PStr ("Payment for course: " +:+ courseName));
    ("vnp_OrderType", PStr "250000");
    ("vnp_Locale", PStr "vn");
    ("vnp_ReturnUrl",
       PStr ("http://localhost:3000?orderId=" +:+ ObjectId_toString orderId));
    ("vnp_IpAddr",
       PStr (match ip req with
             | Some a => if String.eqb a "" then "127.0.0.1" else a
             | None => "127.0.0.1"
             end));
    ("vnp_CreateDate", PStr (dateFormat now "yyyymmddHHMMss")) ].

(** Sort parameters by key. *)
Definition sortedParams (params : list (string * ParamValue))
    : list (string * ParamValue) :=
  foldl (λ acc key,
           objSet acc key (default PUndefined (objGet params key)))
        [] (merge_sort String_le (objKeys params)).

Definition queryString (params : list (string * ParamValue)) : string :=
  URLSearchParams_toString (sortedParams params).

Definition secureHash (params : list (string * ParamValue)) : string :=
  hmacSha512Hex vnp_HashSecret (queryString params).

Definition vnpayUrl (params : list (string * ParamValue)) : string :=
  "https://sandbox.vnpayment.vn/paymentv2/vpcpay.html?" +:+ queryString params
    +:+ "&vnp_SecureHash=" +:+ secureHash params.

(** *** [orderService.createOrder] *)

Record CreateResponse := mkCreateResponse {
  cr_status : Z;
  cr_message : string;
  cr_orderId : ObjectId;
  cr_url : string
}.

Definition createOrder (req : Request) (now : Date.t)
    (courseId accountId : option ObjectId) : M CreateResponse :=
  match courseId, accountId with
  | Some cid, Some aid =>
    (* Check if course exists and is active *)
    course ← Course_findById cid;
    match course with
    | None => throw (NotFound "Course not found or inactive")
    | Some course =>
      if negb (Course.isActive course)
      then throw (NotFound "Course not found or inactive")
      else
        (* Check if account exists *)
        account ← Account_findById aid;
        match account with
        | None => throw (NotFound "Account not found")
        | Some _ =>
          (* Find or create VNPay payment method *)
          found ← PaymentMethod_findOne VNPay;
          paymentMethodId ←
            match found with
            | Some (id, _) => mret id
            | None => PaymentMethod_create (PaymentMethod.mk VNPay)
            end;
          (* Calculate total amount (price * quantity) *)
          let quantity : Number := Q2Qc 1 in
          let totalAmount := (Course.price course * quantity)%Qc in
          orderId ← Order_create
            (Order.mk aid paymentMethodId totalAmount Pending now now);
          OrderDetail_create
            (OrderDetail.mk orderId cid quantity (Course.price course) false
               None None now now);;
          mret (mkCreateResponse 200 "Order created successfully" orderId
                  (vnpayUrl (paymentParams req now totalAmount orderId
                               (Course.name course))))
        end
    end
  | _, _ => throw (BadRequest "Course ID and account ID are required")
  end.
End WithPlatform.


(** ** Aggregation stages *)

(** The documents of a collection, as a pipeline receives them. *)
Definition documents {A} (c : gmap N A) : list A := (scan c).*2.

(** [$group] with accumulators: one group per distinct key, in the order
    the keys first occur; [step] folds a document into its group's
    accumulator ([None] when the document opens the group). *)
Fixpoint groupInsert {K A} `{EqDecision K} (k : K) (upd : option A → A)
    (g : list (K * A)) : list (K * A) :=
  match g with
  | [] => [(k, upd None)]
  | (k', a) :: r =>
    if decide (k' = k) then (k', upd (Some a)) :: r
    else (k', a) :: groupInsert k upd r
  end.

Definition group {K D A} `{EqDecision K} (key : D → K) (step : option A → D → A)
    (docs : list D) : list (K * A) :=
  foldl (λ g d, groupInsert (key d) (λ a, step a d) g) [] docs.

(** The accumulator of the group with key [k], if there is one. *)
Definition groupOf {K A} `{EqDecision K} (k : K) (g : list (K * A)) : option A :=
  snd <$> List.find (λ ka, bool_decide (ka.1 = k)) g.

(** [$sum] of a numeric expression, and [$sum: 1]. *)
Definition sumStep {D} (val : D → Number) (a : option Number) (d : D) : Number :=
  (default (Q2Qc 0) a + val d)%Qc.
Definition countStep {D} (a : option nat) (_ : D) : nat := (default 0 a + 1)%nat.

(** [$sort: { _id: 1 }] on month numbers and [$sort: { completedCourses: -1 }]. *)
Definition idLe {A} (a b : nat * A) : Prop := (a.1 ≤ b.1)%nat.
Global Instance idLe_dec {A} (a b : nat * A) : Decision (idLe a b).
Proof. unfold idLe. apply _. Defined.
Definition countGe {A} (count : A → nat) (a b : A) : Prop := (count b ≤ count a)%nat.
Global Instance countGe_dec {A} (count : A → nat) a b : Decision (countGe count a b).
Proof. unfold countGe. apply _. Defined.

Definition sortById {A} (l : list (nat * A)) : list (nat * A) :=
  merge_sort idLe l.
Definition sortByCountDesc {A} (count : A → nat) (l : list A) : list A :=
  merge_sort (countGe count) l.

(** [$month]: 1 for January to 12 for December. *)
Definition monthNumber (d : Date.t) : nat := S (monthIndex (Date.month d)).

(** ** [StatsService.getMonthlyRevenue] *)

(** The numeral [toFixed(2)] returns, kept as its value in hundredths (which
    fixes its digits), and [parseFloat] of such a numeral. *)
Record Decimal2 := mkDecimal2 { hundredths : Z }.

Definition roundHalfUp (x : Number) : Z := Qfloor (x + Q2Qc (1 # 2))%Qc.

(** [Number.prototype.toFixed] with 2 digits: the nearest multiple of 1/100,
    the larger of the two in a tie, on the absolute value. *)
Definition toFixed2 (x : Number) : Decimal2 :=
  if decide (x < Q2Qc 0)%Qc
  then mkDecimal2 (- roundHalfUp (- x * Q2Qc 100)%Qc)
  else mkDecimal2 (roundHalfUp (x * Q2Qc 100)%Qc).

Definition Decimal2_value (d : Decimal2) : Number := Q2Qc (hundredths d # 100).

(** What a slot of the [monthlyRevenue] array holds: the number it was
    filled with, the string [toFixed] produced, or nothing (a hole left by
    an assignment past the end). *)
Inductive Cell :=
  | Hole
  | CNum (n : Number)
  | CStr (s : Decimal2).

(** [parseFloat]; [None] is NaN. *)
Definition parseFloat (c : Cell) : option Number :=
  match c with
  | Hole => None
  | CNum n => Some n
  | CStr s => Some (Decimal2_value s)
  end.

(** [arr[i] = v]: in place within the array, extending it past the end. *)
Definition arraySet (arr : list Cell) (i : nat) (v : Cell) : list Cell :=
  if decide (i < length arr)%nat then <[i := v]> arr
  else arr ++ replicate (i - length arr) Hole ++ [v].

Record MonthEntry := mkMonthEntry {
  me_month : nat;
  me_revenue : option Number     (* [None] is NaN *)
}.

Definition commission : Number := Q2Qc (15 # 100).

(** The [$match] stage of both revenue pipelines. *)
Definition matchCompletedIn (year : Z) (o : Order.t) : bool :=
  let startDate := Date.newYearDay year in
  let endDate := Date.newYearDay (year + 1) in
  Date.gte (Order.createdAt o) startDate && Date.lt (Order.createdAt o) endDate
  && bool_decide (Order.status o = Completed).

Definition revenueData (year : Z) (db : Db) : list (nat * Number) :=
  sortById
    (group (λ o, monthNumber (Order.createdAt o)) (sumStep Order.totalAmount)
       (List.filter (matchCompletedIn year) (documents (orders db)))).

Definition getMonthlyRevenue (year : Z) (db : Db) : list MonthEntry :=
  (* Initialize array for all 12 months *)
  let monthlyRevenue :=
    foldl (λ arr data,
             arraySet arr (data.1 - 1) (CStr (toFixed2 (data.2 * commission)%Qc)))
          (replicate 12 (CNum (Q2Qc 0))) (revenueData year db) in
  imap (λ index revenue, mkMonthEntry (index + 1) (parseFloat revenue))
       monthlyRevenue.

(** ** [getRevenueByYear], the second dashboard service *)

Definition revenueByMonth (year : Z) (db : Db) : list (nat * Number) :=
  sortById
    (group (λ o, monthNumber (Order.createdAt o))
       (sumStep (λ o, Order.totalAmount o * commission)%Qc)
       (List.filter (matchCompletedIn year) (documents (orders db)))).

Definition getRevenueByYear (year : Z) (db : Db) : list MonthEntry :=
  let revenue := revenueByMonth year db in
  (λ i : nat,
     let month := (i + 1)%nat in
     let monthData := List.find (λ r : nat * Number, bool_decide (r.1 = month)) revenue in
     mkMonthEntry month
       (Some (match monthData with Some r => r.2 | None => Q2Qc 0 end)))
    <$> seq 0 12.

(** ** Top performers *)

Record TopAccount := mkTopAccount {
  ta_id : ObjectId;
  ta_accountId : ObjectId;
  ta_fullName : string;
  ta_email : string;
  ta_completedCourses : nat
}.

(** [$lookup] on [_id] followed by [$unwind]: the document paired with the
    one it refers to, dropped when there is none. *)
Definition lookupUnwind {D F} (from : gmap N F) (localField : D → ObjectId)
    (docs : list D) : list (D * F) :=
  omap (λ d, f ← from !! localField d; Some (d, f)) docs.

Definition getTopAccountByCompletedCourses (db : Db) : option TopAccount :=
  let finished := List.filter OrderDetail.isFinishCourse (documents (orderdetails db)) in
  let withOrder := lookupUnwind (orders db) OrderDetail.order finished in
  let grouped :=
    group (K := N) (λ p : OrderDetail.t * Order.t, Order.account p.2) countStep withOrder in
  let top := take 1 (sortByCountDesc snd grouped) in
  let withAccount := lookupUnwind (accounts db) (λ g : N * nat, g.1) top in
  head ((λ p : (N * nat) * Account.t,
           mkTopAccount p.1.1 p.1.1 (Account.fullName p.2) (Account.email p.2) p.1.2)
          <$> withAccount).

Record TutorGroup := mkTutorGroup {
  tg_fullName : string;
  tg_email : string;
  tg_completedCourses : nat
}.

Record TopTutor := mkTopTutor {
  tt_fullName : string;
  tt_email : string;
  tt_completedCourses : nat
}.

(** [$first] of the name and email, [$sum: 1] of the documents. *)
Definition tutorStep (a : option TutorGroup)
    (d : (OrderDetail.t * Course.t) * Account.t) : TutorGroup :=
  match a with
  | None => mkTutorGroup (Account.fullName d.2) (Account.email d.2) 1
  | Some g => mkTutorGroup (tg_fullName g) (tg_email g) (tg_completedCourses g + 1)
  end.

(** The tutor's [_id] is the key the account was looked up with. *)
Definition getTopTutor (db : Db) : option TopTutor :=
  let finished := List.filter OrderDetail.isFinishCourse (documents (orderdetails db)) in
  let withCourse := lookupUnwind (courses db) OrderDetail.course finished in
  let withTutor :=
    lookupUnwind (accounts db)
      (λ p : OrderDetail.t * Course.t, Course.createdBy p.2) withCourse in
  let tutorsOnly :=
    List.filter (λ p : (OrderDetail.t * Course.t) * Account.t,
                   bool_decide (Account.role p.2 = Tutor)) withTutor in
  let grouped :=
    group (K := N) (λ p : (OrderDetail.t * Course.t) * Account.t, Course.createdBy p.1.2)
      tutorStep tutorsOnly in
  let topTutor :=
    (λ g : N * TutorGroup,
       mkTopTutor (tg_fullName g.2) (tg_email g.2) (tg_completedCourses g.2))
      <$> take 1 (sortByCountDesc (λ g : N * TutorGroup, tg_completedCourses g.2) grouped) in
  head topTutor.

(** ** The route [GET /revenue/:year] of [routes/dashboardRoute.js] *)

(** [parseInt] with no radix argument: leading white space, an optional
    sign, an optional [0x] prefix, then the longest run of digits of the
    radix; what follows the digits is ignored.  [None] is NaN.  White space
    is the ASCII one (tab to carriage return, and space). *)
Definition isWhiteSpace (c : ascii) : bool :=
  let n := N_of_ascii c in
  (((9 <=? n) && (n <=? 13)) || (n =? 32))%N.

Fixpoint trimStart (s : string) : string :=
  match s with
  | String c s' => if isWhiteSpace c then trimStart s' else s
  | EmptyString => EmptyString
  end.

Definition digitValue (c : ascii) : option N :=
  let n := N_of_ascii c in
  if ((48 <=? n) && (n <=? 57))%N then Some (n - 48)%N
  else if ((97 <=? n) && (n <=? 122))%N then Some (n - 87)%N
  else if ((65 <=? n) && (n <=? 90))%N then Some (n - 55)%N
  else None.

Fixpoint parseDigits (radix : N) (s : string) (acc : option N) : option N :=
  match s with
  | EmptyString => acc
  | String c s' =>
    match digitValue c with
    | Some d =>
      if (d <? radix)%N
      then parseDigits radix s' (Some (radix * default 0 acc + d)%N)
      else acc
    | None => acc
    end
  end.

Definition parseInt (s : string) : option Z :=
  let s1 := trimStart s in
  let sign := if String.prefix "-" s1 then -1 else 1 in
  let s2 :=
    if String.prefix "-" s1 || String.prefix "+" s1 then dropChars 1 s1 else s1 in
  let hex := String.prefix "0x" s2 || String.prefix "0X" s2 in
  let radix := if hex then 16%N else 10%N in
  let s3 := if hex then dropChars 2 s2 else s2 in
  (λ n, sign * Z.of_N n) <$> parseDigits radix s3 None.

Inductive Body :=
  | Message (message : string)
  | Revenue (entries : list MonthEntry).

Record Response := mkResponse {
  res_status : Z;
  res_body : Body
}.

(** The handler, with the years for which it ran the aggregation ([now]
    is the clock reading of [new Date()]). *)
Definition revenueRoute (now : Date.t) (yearParam : string) (db : Db)
    : Response * list Z :=
  match parseInt yearParam with
  | None => (mkResponse 400 (Message "Invalid year"), [])
  | Some year =>
    if (year <? 2000) || (Date.year now <? year)
    then (mkResponse 400 (Message "Invalid year"), [])
    else (mkResponse 200 (Revenue (getMonthlyRevenue year db)), [year])
  end.

(** * Definitions used to state the properties *)

(** ** Sample data *)

Definition jan1_2025 : Date.t := Date.mk 2025 Jan 1 0 0 0 0.

Definition db_pending : Db :=
  set_orders <[5%N := Order.mk 7 1 (Q2Qc 100) Pending jan1_2025 jan1_2025]> emptyDb.

Definition db_cancelled : Db :=
  set_orders <[5%N := Order.mk 7 1 (Q2Qc 100) Cancelled jan1_2025 jan1_2025]> emptyDb.

(** Courses 1 (active) and 2 (inactive) of tutor 9; account 7 is a user. *)
Definition course_go : Course.t :=
  Course.mk "Intro to Go" "Go from scratch" "http://img/go.png" (Q2Qc 100000) 9
    true jan1_2025 jan1_2025.
Definition course_old : Course.t :=
  Course.mk "Intro to C" "Retired" "http://img/c.png" (Q2Qc 50000) 9
    false jan1_2025 jan1_2025.
Definition account_user : Account.t :=
  Account.mk "An" "an@example.com" "0900000001" None (Q2Qc 0) "" User Active
    None None jan1_2025 jan1_2025.
Definition account_tutor : Account.t :=
  Account.mk "Binh" "binh@example.com" "0900000002" None (Q2Qc 0) "" Tutor Active
    None None jan1_2025 jan1_2025.

Definition db_shop : Db :=
  mkDb (<[7%N := account_user]> (<[9%N := account_tutor]> ∅))
       (<[1%N := course_go]> (<[2%N := course_old]> ∅))
       ∅ ∅ ∅.

Definition req_local : Request := mkRequest None.

(** The shop after one purchase of course 1 by account 7, not yet finished,
    and the same with the course finished. *)
Definition db_unfinished : Db :=
  mkDb (accounts db_shop) (courses db_shop)
       (<[1%N := PaymentMethod.mk VNPay]> ∅)
       (<[1%N := Order.mk 7 1 (Q2Qc 100000) Completed jan1_2025 jan1_2025]> ∅)
       (<[1%N := OrderDetail.mk 1 1 (Q2Qc 1) (Q2Qc 100000) false None None
                   jan1_2025 jan1_2025]> ∅).

Definition db_finished : Db :=
  set_orderdetails
    (λ _, <[1%N := OrderDetail.mk 1 1 (Q2Qc 1) (Q2Qc 100000) true (Some jan1_2025)
                     None jan1_2025 jan1_2025]> ∅)
    db_unfinished.

(** Stand-ins for the platform functions, to run the model: the integer
    part of a number in decimal, and a digest that only records its inputs'
    lengths. *)
Definition integerToString (n : Number) : string := pretty (Qfloor n).
Definition lengthDigest (key data : string) : string :=
  pretty (String.length key) +:+ "-" +:+ pretty (String.length data).

(** ** The effect of a successful [createOrder] *)

(** A payment method named VNPay is in the store. *)
Definition findVNPay (db : Db) : option (N * PaymentMethod.t) :=
  List.find (λ d, bool_decide (PaymentMethod.name d.2 = VNPay))
    (scan (paymentmethods db)).

(** The store after a successful call, and the ids it used. *)
Definition paymentMethodIdFor (db : Db) : N :=
  match findVNPay db with
  | Some (id, _) => id
  | None => fresh (dom (paymentmethods db))
  end.

Definition newOrder (now : Date.t) (aid : N) (course : Course.t) (db : Db)
    : Order.t :=
  Order.mk aid (paymentMethodIdFor db) (Course.price course * Q2Qc 1)%Qc
    Pending now now.

Definition newOrderDetail (now : Date.t) (cid : N) (course : Course.t) (db : Db)
    : OrderDetail.t :=
  OrderDetail.mk (fresh (dom (orders db))) cid (Q2Qc 1) (Course.price course)
    false None None now now.

Definition dbAfterOrder (now : Date.t) (cid aid : N) (course : Course.t) (db : Db)
    : Db :=
  mkDb (accounts db) (courses db)
    (match findVNPay db with
     | Some _ => paymentmethods db
     | None => <[fresh (dom (paymentmethods db)) := PaymentMethod.mk VNPay]>
                 (paymentmethods db)
     end)
    (<[fresh (dom (orders db)) := newOrder now aid course db]> (orders db))
    (<[fresh (dom (orderdetails db)) := newOrderDetail now cid course db]>
       (orderdetails db)).


(** ** Monthly revenue, as the specification words it *)

(** The Completed orders created in month [m] of year [y]. *)
Definition completedIn (db : Db) (y : Z) (m : Month) : list Order.t :=
  List.filter
    (λ o, bool_decide (Order.status o = Completed)
          && bool_decide (Date.year (Order.createdAt o) = y)
          && bool_decide (Date.month (Order.createdAt o) = m))
    (documents (orders db)).

(** The documents of a group. *)
Definition keyed {D K} `{EqDecision K} (key : D → K) (k : K) (docs : list D) : list D :=
  List.filter (λ d, bool_decide (key d = k)) docs.

Definition Qcsum (l : list Number) : Number := foldr Qcplus (Q2Qc 0) l.

(** The sum of their total amounts. *)
Definition completedTotal (db : Db) (y : Z) (m : Month) : Number :=
  Qcsum (Order.totalAmount <$> completedIn db y m).

(** Rounding to two decimal places: the value of the [toFixed(2)] numeral. *)
Definition roundTo2 (x : Number) : Number := Decimal2_value (toFixed2 x).

(** The slot value [getMonthlyRevenue] writes for a group. *)
Definition revenueCell (data : nat * Number) : Cell :=
  CStr (toFixed2 (data.2 * commission)%Qc).

(** An entry with its revenue as a plain fraction, for display. *)
Definition entryQ (e : MonthEntry) : nat * option Q :=
  (me_month e, this <$> me_revenue e).

(** Orders of 1950 and of 2025. *)
Definition mar5_1950 : Date.t := Date.mk 1950 Mar 5 10 30 0 0.
Definition mar5_2025 : Date.t := Date.mk 2025 Mar 5 10 30 0 0.

Definition db_1950 : Db :=
  set_orders (λ _, <[1%N := Order.mk 7 1 (Q2Qc 100) Completed mar5_1950 mar5_1950]> ∅)
    emptyDb.

Definition db_2025 : Db :=
  set_orders
    (λ _, <[1%N := Order.mk 7 1 (Q2Qc (1 # 100)) Completed mar5_2025 mar5_2025]>
            (<[2%N := Order.mk 7 1 (Q2Qc 100) Completed mar5_2025 mar5_2025]>
            (<[3%N := Order.mk 7 1 (Q2Qc 100) Pending mar5_2025 mar5_2025]> ∅)))
    emptyDb.

(** ** Decimal numerals *)

Definition isDigitChar (c : ascii) : bool :=
  let n := N_of_ascii c in ((48 <=? n) && (n <=? 57))%N.

Fixpoint allDigits (s : string) : bool :=
  match s with
  | EmptyString => true
  | String c s' => isDigitChar c && allDigits s'
  end.

(** A non-empty string of decimal digits, and the number it writes. *)
Definition isDecimal (s : string) : bool :=
  match s with
  | EmptyString => false
  | _ => allDigits s
  end.

Fixpoint decimalFrom (acc : N) (s : string) : N :=
  match s with
  | EmptyString => acc
  | String c s' => decimalFrom (10 * acc + (N_of_ascii c - 48))%N s'
  end.

Definition decimalValue (s : string) : N := decimalFrom 0 s.

(** * The rest of the order service and of the dashboard services *)

(** ** Predicates on stores *)

(** At most one payment method is named VNPay. *)
Definition atMostOneVNPay (db : Db) : Prop :=
  ∀ i j p q,
    paymentmethods db !! i = Some p → paymentmethods db !! j = Some q →
    PaymentMethod.name p = VNPay → PaymentMethod.name q = VNPay → i = j.

(** Every reference an order or an order detail holds points at a document
    of the store. *)
Definition orderRefsResolve (db : Db) (o : Order.t) : Prop :=
  is_Some (accounts db !! Order.account o)
  ∧ is_Some (paymentmethods db !! Order.paymentMethod o).

Definition detailRefsResolve (db : Db) (d : OrderDetail.t) : Prop :=
  is_Some (orders db !! OrderDetail.order d)
  ∧ is_Some (courses db !! OrderDetail.course d).

Definition wellReferenced (db : Db) : Prop :=
  (∀ id o, orders db !! id = Some o → orderRefsResolve db o)
  ∧ (∀ id d, orderdetails db !! id = Some d → detailRefsResolve db d).

(** ** [orderService.getOrdersByAccount] *)

(** What [populate] puts in place of a reference: the [_id] and the selected
    fields of the document referred to. *)
Record PaymentMethodRef := mkPaymentMethodRef {
  pmr_id : ObjectId;
  pmr_name : PaymentMethodName
}.

Record AccountRef := mkAccountRef {
  ar_id : ObjectId;
  ar_fullName : string;
  ar_email : string
}.

Record CourseRef := mkCourseRef {
  crf_id : ObjectId;
  crf_name : string;
  crf_price : Number;
  crf_image : string
}.

Record DetailView := mkDetailView {
  dv_course : option CourseRef;      (* [None] is null: no such course *)
  dv_quantity : Number;
  dv_price : Number;
  dv_isFinishCourse : bool;
  dv_timeFinishCourse : option Date.t;
  dv_certificateOfCompletion : option string
}.

Record OrderView := mkOrderView {
  ov_id : ObjectId;
  ov_account : option AccountRef;
  ov_paymentMethod : option PaymentMethodRef;
  ov_totalAmount : Number;
  ov_status : OrderStatus;
  ov_createdAt : Date.t;
  ov_updatedAt : Date.t;
  ov_orderDetails : list DetailView
}.

Definition populateCourse (db : Db) (id : ObjectId) : option CourseRef :=
  (λ c, mkCourseRef id (Course.name c) (Course.price c) (Course.image c))
    <$> courses db !! id.
Definition populateAccount (db : Db) (id : ObjectId) : option AccountRef :=
  (λ a, mkAccountRef id (Account.fullName a) (Account.email a)) <$> accounts db !! id.
Definition populatePaymentMethod (db : Db) (id : ObjectId) : option PaymentMethodRef :=
  (λ p, mkPaymentMethodRef id (PaymentMethod.name p)) <$> paymentmethods db !! id.

(** [sort({ createdAt: -1 })]: newest first. *)
Definition newerFirst (a b : N * Order.t) : Prop :=
  Date.gte (Order.createdAt a.2) (Order.createdAt b.2) = true.
Global Instance newerFirst_dec a b : Decision (newerFirst a b).
Proof. unfold newerFirst. apply _. Defined.

(** [db.Order.find({ account }).sort({ createdAt: -1 })] *)
Definition Order_findByAccount (db : Db) (accountId : ObjectId) : list (N * Order.t) :=
  merge_sort newerFirst
    (List.filter (λ p, bool_decide (Order.account p.2 = accountId)) (scan (orders db))).

(** [db.OrderDetail.find({ order })] *)
Definition OrderDetail_findByOrder (db : Db) (orderId : ObjectId) : list OrderDetail.t :=
  List.filter (λ d, bool_decide (OrderDetail.order d = orderId))
    (documents (orderdetails db)).

Definition detailView (db : Db) (detail : OrderDetail.t) : DetailView :=
  mkDetailView (populateCourse db (OrderDetail.course detail))
    (OrderDetail.quantity detail) (OrderDetail.price detail)
    (OrderDetail.isFinishCourse detail) (OrderDetail.timeFinishCourse detail)
    (OrderDetail.certificateOfCompletion detail).

Definition orderView (db : Db) (p : N * Order.t) : OrderView :=
  let order := p.2 in
  mkOrderView p.1
    (populateAccount db (Order.account order))
    (populatePaymentMethod db (Order.paymentMethod order))
    (Order.totalAmount order) (Order.status order)
    (Order.createdAt order) (Order.updatedAt order)
    (detailView db <$> OrderDetail_findByOrder db p.1).

Record OrdersResponse := mkOrdersResponse {
  or_status : Z;
  or_message : string;
  or_data : list OrderView
}.

Definition getOrdersByAccount (accountId : option ObjectId) : M OrdersResponse :=
  match accountId with
  | None => throw (BadRequest "Account ID is required")
  | Some aid =>
    λ db, (Return (mkOrdersResponse 200 "Orders retrieved successfully"
                     (orderView db <$> Order_findByAccount db aid)),
           db)
  end.

(** A view is newer than, or as new as, another. *)
Definition viewNewerFirst (a b : OrderView) : Prop :=
  Date.gte (ov_createdAt a) (ov_createdAt b) = true.

(** The data of a successful listing. *)
Definition or_data_of (o : Outcome OrdersResponse) : list OrderView :=
  match o with
  | Return resp => or_data resp
  | Throw _ => []
  end.

(** Account 7 with an older and a newer order. *)
Definition db_two_orders : Db :=
  mkDb (accounts db_shop) (courses db_shop)
       (<[1%N := PaymentMethod.mk VNPay]> ∅)
       (<[1%N := Order.mk 7 1 (Q2Qc 100000) Completed jan1_2025 jan1_2025]>
          (<[2%N := Order.mk 7 1 (Q2Qc 100000) Pending mar5_2025 mar5_2025]>
          (<[3%N := Order.mk 9 1 (Q2Qc 50000) Pending mar5_2025 mar5_2025]> ∅)))
       (<[1%N := OrderDetail.mk 1 1 (Q2Qc 1) (Q2Qc 100000) true (Some jan1_2025)
                   None jan1_2025 jan1_2025]>
          (<[2%N := OrderDetail.mk 2 1 (Q2Qc 1) (Q2Qc 100000) true (Some mar5_2025)
                     None mar5_2025 mar5_2025]>
          (<[3%N := OrderDetail.mk 3 2 (Q2Qc 1) (Q2Qc 50000) true (Some mar5_2025)
                      None mar5_2025 mar5_2025]> ∅))).

(** ** Account and course statistics *)

Definition AccountStatus_name (s : AccountStatus) : string :=
  match s with Active => "Active" | Inactive => "Inactive" end.

Definition Role_name (r : Role) : string :=
  match r with Admin => "Admin" | Tutor => "Tutor" | User => "User" end.

(** [String.prototype.toLowerCase], on ASCII letters. *)
Definition lowerChar (c : ascii) : ascii :=
  let n := N_of_ascii c in
  if ((65 <=? n) && (n <=? 90))%N then ascii_of_N (n + 32) else c.

Fixpoint toLowerCase (s : string) : string :=
  match s with
  | EmptyString => EmptyString
  | String c s' => String (lowerChar c) (toLowerCase s')
  end.

(** [StatsService.getAccountStatusStats]: the object
    [{ Active, Inactive }]. *)
Definition getAccountStatusStats (db : Db) : list (string * nat) :=
  let stats := group Account.status countStep (documents (accounts db)) in
  foldl (λ result stat, objSet result (AccountStatus_name stat.1) stat.2)
    [("Active", 0%nat); ("Inactive", 0%nat)] stats.

(** [StatsService.getCourseStatusStats] *)
Definition getCourseStatusStats (db : Db) : list (string * nat) :=
  let stats := group Course.isActive countStep (documents (courses db)) in
  foldl (λ (result : list (string * nat)) (stat : bool * nat),
           objSet result (if stat.1 then "Active" else "Inactive") stat.2)
    [("Active", 0%nat); ("Inactive", 0%nat)] stats.

(** [getCourseStats] of the second service: the same with lower-case keys. *)
Definition getCourseStats (db : Db) : list (string * nat) :=
  let stats := group Course.isActive countStep (documents (courses db)) in
  foldl (λ (result : list (string * nat)) (stat : bool * nat),
           let status := if stat.1 then "active" else "inactive" in
           objSet result status stat.2)
    [("active", 0%nat); ("inactive", 0%nat)] stats.

(** How a function body ends: with a value, or with the TypeError raised
    by an assignment to a property of [undefined]. *)
Inductive Completion (A : Type) :=
  | Normal (a : A)
  | TypeError.
Arguments Normal {A} a.
Arguments TypeError {A}.

(** [getAccountStats] of the second service: accounts of role Tutor or User
    grouped by role and status, written into
    [{ tutors: { active, inactive }, users: { active, inactive } }] under
    the lower-cased role and status names. *)
Definition accountStatsInit : list (string * list (string * nat)) :=
  [ ("tutors", [("active", 0%nat); ("inactive", 0%nat)]);
    ("users", [("active", 0%nat); ("inactive", 0%nat)]) ].

Definition getAccountStats (db : Db)
    : Completion (list (string * list (string * nat))) :=
  let stats :=
    group (λ a, (Account.role a, Account.status a)) countStep
      (List.filter (λ a, bool_decide (Account.role a ∈ [Tutor; User]))
         (documents (accounts db))) in
  foldl (λ acc (stat : (Role * AccountStatus) * nat),
           match acc with
           | TypeError => TypeError
           | Normal result =>
             let role := toLowerCase (Role_name stat.1.1) in
             let status := toLowerCase (AccountStatus_name stat.1.2) in
             match objGet result role with
             | None => TypeError
             | Some inner => Normal (objSet result role (objSet inner status stat.2))
             end
           end)
    (Normal accountStatsInit) stats.

(** The route [GET /account-stats]: 200 with the statistics, 500 when the
    service throws. *)
Definition accountStatsRoute (db : Db) : Z :=
  match getAccountStats db with
  | Normal _ => 200
  | TypeError => 500
  end.

(** The [$match] stage of [getAccountStats]. *)
Definition nonAdmin (a : Account.t) : bool :=
  bool_decide (Account.role a ∈ [Tutor; User]).

(** The number of documents of a list that satisfy a test. *)
Definition countWhere {A} (f : A → bool) (l : list A) : nat :=
  length (List.filter f l).

(** What [$group] accumulates for one key. *)
Definition accumulate {D A} (step : option A → D → A) (l : list D) : option A :=
  foldl (λ a d, Some (step a d)) None l.

(** ** Completed courses per tutor and per buyer *)

(** A finished order detail on a course that tutor [tid] created. *)
Definition finishedCourseOf (db : Db) (tid : ObjectId) (d : OrderDetail.t) : bool :=
  OrderDetail.isFinishCourse d
  && match courses db !! OrderDetail.course d with
     | Some c => bool_decide (Course.createdBy c = tid)
     | None => false
     end.

Definition finishedFor (db : Db) (tid : ObjectId) : nat :=
  countWhere (finishedCourseOf db tid) (documents (orderdetails db)).

(** A finished order detail of an order that account [aid] placed. *)
Definition finishedOrderOf (db : Db) (aid : ObjectId) (d : OrderDetail.t) : bool :=
  OrderDetail.isFinishCourse d
  && match orders db !! OrderDetail.order d with
     | Some o => bool_decide (Order.account o = aid)
     | None => false
     end.

Definition completedBy (db : Db) (aid : ObjectId) : nat :=
  countWhere (finishedOrderOf db aid) (documents (orderdetails db)).

(** ** Revenue of the orders a year's [$match] lets through *)

(** The orders that pass the [$match] stage for [year], and those of them
    created in month [m]. *)
Definition matchedOrders (year : Z) (db : Db) : list Order.t :=
  List.filter (matchCompletedIn year) (documents (orders db)).

Definition matchedIn (year : Z) (db : Db) (m : Month) : list Order.t :=
  keyed (λ o, monthNumber (Order.createdAt o)) (S (monthIndex m))
    (matchedOrders year db).

(** The numbers of a list of entries. *)
Definition revenues (l : list MonthEntry) : list Number := omap me_revenue l.

(** What an order adds to the revenue of month [m] of the pipeline for
    [year]: its total amount if it passes the [$match] stage and was created
    in that month. *)
Definition contribution (year : Z) (m : Month) (o : Order.t) : Number :=
  if matchCompletedIn year o && bool_decide (Date.month (Order.createdAt o) = m)
  then Order.totalAmount o else Q2Qc 0.

(** The revenue an entry list reports for month [m]. *)
Definition revenueOf (l : list MonthEntry) (m : Month) : option Number :=
  e ← l !! monthIndex m; me_revenue e.

(** The total of month [m] over a list of orders. *)
Definition monthTotal (y : Z) (m : Month) (l : list Order.t) : Number :=
  Qcsum (Order.totalAmount <$>
           keyed (λ o, monthNumber (Order.createdAt o)) (S (monthIndex m))
             (List.filter (matchCompletedIn y) l)).


(** ** Characters of a formatted date *)

(** A digit or a minus sign. *)
Definition plainChar (c : ascii) : bool := isDigitChar c || Ascii.eqb c "-".

Fixpoint allPlain (s : string) : bool :=
  match s with
  | EmptyString => true
  | String c s' => plainChar c && allPlain s'
  end.

(** How often a character occurs in a string. *)
Fixpoint countChar (c : ascii) (s : string) : nat :=
  match s with
  | EmptyString => 0
  | String c' s' => (if Ascii.eqb c' c then 1 else 0) + countChar c s'
  end.

(** ** Keys an object keeps in insertion order *)

(** JavaScript enumerates the integer-like keys of an object first, in
    numeric order, and the other string keys in insertion order; and
    [Array.prototype.sort] compares UTF-16 code units, which for ASCII
    strings is the order of their bytes.  A key of ASCII characters that
    does not start with a digit is of the second kind. *)
Fixpoint allAscii (s : string) : bool :=
  match s with
  | EmptyString => true
  | String c s' => (N_of_ascii c <? 128)%N && allAscii s'
  end.

Definition insertionKey (k : string) : bool :=
  allAscii k
  && match k with
     | EmptyString => true
     | String c _ => negb (isDigitChar c)
     end.

(** * The feedback service *)

Module Feedback.
Record t := mk {
  courseId : ObjectId;
  accountId : ObjectId;
  rating : Number;
  comment : string;
  createdAt : Date.t;
  updatedAt : Date.t
}.
End Feedback.

(** The collection of feedbacks, by [_id]. *)
Definition Feedbacks := gmap N Feedback.t.

(** The validators of the schema that can still fail once the service has
    let the fields through: [min] and [max] of [rating].  Each failure is
    the path with the message the schema gives. *)
Definition validateFeedback (rating : Number) : list (string * string) :=
  if bool_decide (rating < Q2Qc 1)%Qc
  then [("rating", "Rating must be at least 1!")]
  else if bool_decide (Q2Qc 5 < rating)%Qc
  then [("rating", "Rating must be at most 5!")]
  else [].

(** A request field is falsy when it is missing; a number also when it is
    0, a string also when it is empty. *)
Definition truthyNumber (x : option Number) : option Number :=
  match x with
  | Some r => if bool_decide (r = Q2Qc 0) then None else Some r
  | None => None
  end.

Definition truthyString (x : option string) : option string :=
  match x with
  | Some s => if String.eqb s "" then None else Some s
  | None => None
  end.

Section WithValidation.
(** The [message] of the [ValidationError] the object mapper raises for
    the failed paths. *)
Variable ValidationError_message : list (string * string) → string.

(** [createFeedback]: the outcome and the collection after the call. *)
Definition createFeedback (now : Date.t) (courseId accountId : option ObjectId)
    (rating : option Number) (comment : option string) (fs : Feedbacks)
    : Outcome (N * Feedback.t) * Feedbacks :=
  match courseId, accountId, truthyNumber rating, truthyString comment with
  | Some c, Some a, Some r, Some text =>
    match validateFeedback r with
    | [] =>
      let id := fresh (dom fs) in
      let feedback := Feedback.mk c a r text now now in
      (Return (id, feedback), <[id := feedback]> fs)
    | errors => (Throw (BadRequest (ValidationError_message errors)), fs)
    end
  | _, _, _, _ => (Throw (BadRequest "All fields are required"), fs)
  end.
End WithValidation.

(** [populate("accountId", "fullName email avatar")] *)
Record FeedbackAccount := mkFeedbackAccount {
  fa_id : ObjectId;
  fa_fullName : string;
  fa_email : string;
  fa_avatar : string
}.

(** [populate("courseId", "title")]: the course schema has no [title], so
    what is left of a course is its [_id]. *)
Record FeedbackCourse := mkFeedbackCourse {
  fc_id : ObjectId
}.

Record FeedbackView := mkFeedbackView {
  fv_id : ObjectId;
  fv_courseId : option FeedbackCourse;
  fv_accountId : option FeedbackAccount;
  fv_rating : Number;
  fv_comment : string;
  fv_createdAt : Date.t;
  fv_updatedAt : Date.t
}.

Definition newerFeedbackFirst (a b : N * Feedback.t) : Prop :=
  Date.gte (Feedback.createdAt a.2) (Feedback.createdAt b.2) = true.
Global Instance newerFeedbackFirst_dec a b : Decision (newerFeedbackFirst a b).
Proof. unfold newerFeedbackFirst. apply _. Defined.

(** [Feedback.find({ courseId }).sort({ createdAt: -1 })] *)
Definition Feedback_findByCourse (fs : Feedbacks) (courseId : ObjectId)
    : list (N * Feedback.t) :=
  merge_sort newerFeedbackFirst
    (List.filter (λ p, bool_decide (Feedback.courseId p.2 = courseId)) (scan fs)).

Definition feedbackView (db : Db) (p : N * Feedback.t) : FeedbackView :=
  let feedback := p.2 in
  mkFeedbackView p.1
    ((λ _, mkFeedbackCourse (Feedback.courseId feedback))
       <$> courses db !! Feedback.courseId feedback)
    ((λ a, mkFeedbackAccount (Feedback.accountId feedback) (Account.fullName a)
             (Account.email a) (Account.avatar a))
       <$> accounts db !! Feedback.accountId feedback)
    (Feedback.rating feedback) (Feedback.comment feedback)
    (Feedback.createdAt feedback) (Feedback.updatedAt feedback).

(** [getFeedbackByCourse]; it reads the accounts and courses and writes
    nothing. *)
Definition getFeedbackByCourse (courseId : option ObjectId) (db : Db)
    (fs : Feedbacks) : Outcome (list FeedbackView) :=
  match courseId with
  | None => Throw (BadRequest "Course ID is required")
  | Some c => Return (feedbackView db <$> Feedback_findByCourse fs c)
  end.

Definition feedbackNewerFirst (a b : FeedbackView) : Prop :=
  Date.gte (fv_createdAt a) (fv_createdAt b) = true.

(** A stand-in for the mapper's message, to run the model. *)
Definition firstMessage (errors : list (string * string)) : string :=
  match errors with
  | (path, msg) :: _ => "Feedback validation failed: " +:+ path +:+ ": " +:+ msg
  | [] => "Feedback validation failed"
  end.

(** * The course service: [createCourse] *)

Module Certification.
Record t := mk {
  experience : Number;
  name : string;
  description : string;
  image : list string;
  isChecked : bool;
  isCanTeach : bool;
  createBy : ObjectId;
  createdAt : Date.t;
  updatedAt : Date.t
}.
End Certification.

(** The collection of certifications, by [_id]. *)
Definition Certifications := gmap N Certification.t.

(** A field of a request body, as far as [typeof] and truthiness tell
    values apart. *)
Inductive JsValue :=
  | JUndefined
  | JNull
  | JBoolean (b : bool)
  | JNumber (x : Number)
  | JString (s : string)
  | JObject.

(** [v && typeof v === "string"]: a string that is not empty. *)
Definition nonEmptyString (v : JsValue) : option string :=
  match v with
  | JString s => if String.eqb s "" then None else Some s
  | _ => None
  end.

(** [typeof v === "number" && !(v < 0)] *)
Definition nonNegativeNumber (v : JsValue) : option Number :=
  match v with
  | JNumber x => if bool_decide (x < Q2Qc 0)%Qc then None else Some x
  | _ => None
  end.

Record CourseData := mkCourseData {
  cd_id : ObjectId;
  cd_name : string;
  cd_description : string;
  cd_image : string;
  cd_price : Number;
  cd_createdBy : ObjectId;
  cd_createdAt : Date.t
}.

Record CourseResponse := mkCourseResponse {
  cs_status : Z;
  cs_message : string;
  cs_data : option CourseData
}.

Definition set_courses (f : gmap N Course.t → gmap N Course.t) (db : Db) : Db :=
  mkDb (accounts db) (f (courses db)) (paymentmethods db) (orders db)
    (orderdetails db).

(** [course.save()] on a new document. *)
Definition Course_create (d : Course.t) : M ObjectId :=
  λ db, let id := fresh (dom (courses db)) in
        (Return id, set_courses <[id := d]> db).

(** [db.Certification.findOne({ createBy, isChecked: true, isCanTeach: true })] *)
Definition validCertificationOf (userId : ObjectId) (c : Certification.t) : bool :=
  bool_decide (Certification.createBy c = userId)
  && Certification.isChecked c && Certification.isCanTeach c.

Definition Certification_findOneValid (certs : Certifications) (userId : ObjectId)
    : option (N * Certification.t) :=
  List.find (λ p, validCertificationOf userId p.2) (scan certs).

(** [courseService.createCourse].  [userId] is the account id the token
    carries, [None] when it is missing or not a string. *)
Definition createCourse (now : Date.t) (name description image price : JsValue)
    (userId : option ObjectId) (certs : Certifications) : M CourseResponse :=
  (* Validate inputs *)
  match nonEmptyString name with
  | None => mret (mkCourseResponse 400
                    "Course name is required and must be a string" None)
  | Some name =>
  match nonEmptyString description with
  | None => mret (mkCourseResponse 400
                    "Description is required and must be a string" None)
  | Some description =>
  match nonEmptyString image with
  | None => mret (mkCourseResponse 400
      "Image URL is required and must be a valid URL starting with 'http'" None)
  | Some image =>
  if negb (String.prefix "http" image)
  then mret (mkCourseResponse 400
      "Image URL is required and must be a valid URL starting with 'http'" None)
  else
  match nonNegativeNumber price with
  | None => mret (mkCourseResponse 400
                    "Price is required and must be a non-negative number" None)
  | Some price =>
  match userId with
  | None => mret (mkCourseResponse 400 "Valid user ID is required" None)
  | Some userId =>
    (* Verify account exists and is active *)
    account ← Account_findById userId;
    match account with
    | None => mret (mkCourseResponse 404 "Account not found" None)
    | Some account =>
      if negb (bool_decide (Account.status account = Active))
      then mret (mkCourseResponse 403
                   "Account must be active to create a course" None)
      else
        (* Check for valid certification *)
        match Certification_findOneValid certs userId with
        | None => mret (mkCourseResponse 403
            "You need a verified certification (isChecked and isCanTeach) to create a course"
            None)
        | Some _ =>
          let course := Course.mk name description image price userId true now now in
          id ← Course_create course;
          mret (mkCourseResponse 201 "Course created successfully"
                  (Some (mkCourseData id name description image price userId now)))
        end
    end
  end end end end end.

(** The conditions under which a course is created. *)
Definition mayCreateCourse (db : Db) (certs : Certifications) (userId : ObjectId)
    : Prop :=
  (∃ account, accounts db !! userId = Some account
              ∧ Account.status account = Active)
  ∧ ∃ id c, certs !! id = Some c
            ∧ Certification.createBy c = userId
            ∧ Certification.isChecked c = true
            ∧ Certification.isCanTeach c = true.

(** Tutor 9 of the shop holds a verified certification. *)
Definition certs_tutor : Certifications :=
  <[1%N := Certification.mk (Q2Qc 3) "Go expert" "Three years of Go"
             ["http://img/cert.png"] true true 9 jan1_2025 jan1_2025]> ∅.

(** The value a call returned, if it returned. *)
Definition outcomeValue {A} (o : Outcome A) : option A :=
  match o with
  | Return a => Some a
  | Throw _ => None
  end.

(** * The course service: [getCoursesWithDetails] *)

Record CourseInfo := mkCourseInfo {
  ci_id : ObjectId;
  ci_name : string;
  ci_description : string;
  ci_image : string;
  ci_price : Number;
  ci_createdBy : ObjectId;
  ci_isActive : bool;
  ci_createdAt : Date.t
}.

Record AccountInfo := mkAccountInfo {
  ai_id : ObjectId;
  ai_fullName : string;
  ai_email : string;
  ai_phone : string;
  ai_status : AccountStatus;
  ai_role : Role
}.

Record CertificationInfo := mkCertificationInfo {
  cti_id : ObjectId;
  cti_name : string;
  cti_description : string;
  cti_image : list string;
  cti_experience : Number;
  cti_isChecked : bool;
  cti_isCanTeach : bool;
  cti_createBy : ObjectId
}.

Record CourseDetails := mkCourseDetails {
  cdt_course : CourseInfo;
  cdt_account : option AccountInfo;       (* [None] is null *)
  cdt_certifications : list CertificationInfo
}.

Record CoursesResponse := mkCoursesResponse {
  cl_status : Z;
  cl_message : string;
  cl_courses : list CourseDetails
}.

(** [Math.max(...xs)]; [None] is the [-Infinity] of no argument. *)
Definition Qcmax (a b : Number) : Number := if bool_decide (a < b)%Qc then b else a.

Fixpoint Math_max (xs : list Number) : option Number :=
  match xs with
  | [] => None
  | x :: xs' => Some (match Math_max xs' with
                      | Some m => Qcmax x m
                      | None => x
                      end)
  end.

(** An element of [coursesWithMaxExperience]. *)
Record WithMaxExperience := mkWithMaxExperience {
  wm_course : N * Course.t;
  wm_maxExperience : Number;
  wm_account : option (N * Account.t);
  wm_certifications : list (N * Certification.t)
}.

(** [sort((a, b) => b.maxExperience - a.maxExperience)]: [a] may stay before
    [b] when the difference is not positive. *)
Definition byMaxExperienceDesc (a b : WithMaxExperience) : Prop :=
  (wm_maxExperience b ≤ wm_maxExperience a)%Qc.
Global Instance byMaxExperienceDesc_dec a b : Decision (byMaxExperienceDesc a b).
Proof. unfold byMaxExperienceDesc. apply _. Defined.

Definition courseInfo (course : N * Course.t) : CourseInfo :=
  mkCourseInfo course.1 (Course.name course.2) (Course.description course.2)
    (Course.image course.2) (Course.price course.2) (Course.createdBy course.2)
    (Course.isActive course.2) (Course.createdAt course.2).

Definition accountInfo (account : N * Account.t) : AccountInfo :=
  mkAccountInfo account.1 (Account.fullName account.2) (Account.email account.2)
    (Account.phone account.2) (Account.status account.2) (Account.role account.2).

Definition certificationInfo (cert : N * Certification.t) : CertificationInfo :=
  mkCertificationInfo cert.1 (Certification.name cert.2)
    (Certification.description cert.2) (Certification.image cert.2)
    (Certification.experience cert.2) (Certification.isChecked cert.2)
    (Certification.isCanTeach cert.2) (Certification.createBy cert.2).

Definition withMaxExperience (accounts : list (N * Account.t))
    (certifications : list (N * Certification.t)) (course : N * Course.t)
    : WithMaxExperience :=
  let courseCerts :=
    List.filter (λ cert, bool_decide (Certification.createBy cert.2
                                      = Course.createdBy course.2))
      certifications in
  let maxExperience :=
    if bool_decide (length courseCerts = 0%nat) then Q2Qc 0
    else default (Q2Qc 0)
           (Math_max ((λ cert, Certification.experience cert.2) <$> courseCerts)) in
  mkWithMaxExperience course maxExperience
    (List.find (λ acc, bool_decide (acc.1 = Course.createdBy course.2)) accounts)
    courseCerts.

Definition courseDetails (e : WithMaxExperience) : CourseDetails :=
  mkCourseDetails (courseInfo (wm_course e)) (accountInfo <$> wm_account e)
    (certificationInfo <$> wm_certifications e).

(** [courseService.getCoursesWithDetails]; it writes nothing. *)
Definition getCoursesWithDetails (certs : Certifications) (db : Db)
    : CoursesResponse :=
  (* Fetch all courses *)
  let courses := scan (courses db) in
  if bool_decide (length courses = 0%nat)
  then mkCoursesResponse 200 "No courses found" []
  else
    (* Get unique creator IDs: a [Set] tells objects apart by identity and
       every document has an ObjectId of its own, so no id is dropped *)
    let creatorIds := (λ course, Course.createdBy course.2) <$> courses in
    (* Fetch accounts for creators *)
    let accounts :=
      List.filter (λ acc, bool_decide (acc.1 ∈ creatorIds)) (scan (accounts db)) in
    (* Fetch certifications for creators *)
    let certifications :=
      List.filter (λ cert, bool_decide (Certification.createBy cert.2 ∈ creatorIds))
        (scan certs) in
    let coursesWithMaxExperience :=
      withMaxExperience accounts certifications <$> courses in
    mkCoursesResponse 200 "Courses retrieved successfully"
      (courseDetails <$> merge_sort byMaxExperienceDesc coursesWithMaxExperience).

(** The certifications of an account, and the highest experience among
    them, 0 when there is none. *)
Definition certificationsOf (certs : Certifications) (u : ObjectId)
    : list (N * Certification.t) :=
  List.filter (λ cert, bool_decide (Certification.createBy cert.2 = u)) (scan certs).

Definition maxExperienceOf (certs : Certifications) (u : ObjectId) : Number :=
  default (Q2Qc 0)
    (Math_max ((λ cert, Certification.experience cert.2) <$> certificationsOf certs u)).

Definition moreExperiencedFirst (certs : Certifications) (a b : CourseDetails)
    : Prop :=
  (maxExperienceOf certs (ci_createdBy (cdt_course b))
   ≤ maxExperienceOf certs (ci_createdBy (cdt_course a)))%Qc.
(** * Properties of the order workflow *)

(** ** [updateOrderStatus] *)

(** The call, case by case on what the store holds. *)
Lemma updateOrderStatus_None now accountId db :
  updateOrderStatus now None accountId db
  = (Throw (BadRequest "Order ID is required"), db).
Proof. reflexivity. Qed.

Lemma updateOrderStatus_Some now oid accountId db :
  updateOrderStatus now (Some oid) accountId db =
  match orders db !! oid with
  | None => (Throw (NotFound "Order not found or unauthorized"), db)
  | Some o =>
    if decide (Some (Order.account o) = accountId) then
      if decide (Order.status o = Completed)
      then (Throw (BadRequest "Order is already paid"), db)
      else (Return (mkUpdateResponse 200
                      "Order status updated to Paid successfully" oid),
            set_orders <[oid := Order.set_status Completed now o]> db)
    else (Throw (NotFound "Order not found or unauthorized"), db)
  end.
Proof.
  unfold updateOrderStatus, mbind, M_bind, Order_findOne; simpl.
  destruct (orders db !! oid) as [o|]; simpl; [|reflexivity].
  destruct (decide (Some (Order.account o) = accountId)); simpl; [|reflexivity].
  destruct (decide (Order.status o = Completed)); reflexivity.
Qed.

Lemma statusOf_set_orders_insert db oid o id :
  statusOf (set_orders <[oid := o]> db) id =
  if decide (oid = id) then Some (Order.status o) else statusOf db id.
Proof.
  unfold statusOf, set_orders; simpl. rewrite lookup_insert.
  destruct (decide (oid = id)); reflexivity.
Qed.

(** C1: on a Pending order of the caller, the first [updateOrderStatus]
    succeeds and leaves the order Completed; the second, on the resulting
    store, fails with BadRequest and changes nothing, so the order stays
    Completed. *)
Theorem C1_update_twice (db : Db) (now1 now2 : Date.t) (orderId accountId : N)
    (o : Order.t) :
  orders db !! orderId = Some o →
  Order.status o = Pending →
  Order.account o = accountId →
  ∃ r1 db1,
    updateOrderStatus now1 (Some orderId) (Some accountId) db = (Return r1, db1)
    ∧ statusOf db1 orderId = Some Completed
    ∧ ∃ msg,
        updateOrderStatus now2 (Some orderId) (Some accountId) db1
          = (Throw (BadRequest msg), db1)
        ∧ statusCode (BadRequest msg) = 400.
Proof.
  intros Ho Hst <-.
  pose proof (updateOrderStatus_Some now1 orderId
                (Some (Order.account o)) db) as H1.
  rewrite Ho, Hst in H1. rewrite decide_True in H1 by done.
  rewrite decide_False in H1 by discriminate.
  eexists _, _. split; [exact H1|]. split.
  - rewrite statusOf_set_orders_insert, decide_True by done. reflexivity.
  - exists "Order is already paid". rewrite updateOrderStatus_Some.
    replace (orders (set_orders <[orderId := Order.set_status Completed now1 o]> db)
               !! orderId)
      with (Some (Order.set_status Completed now1 o))
      by (symmetry; apply lookup_insert_eq).
    destruct (decide _) as [_|Hn]; [|by destruct Hn].
    destruct (decide _) as [_|Hn]; [|by destruct Hn].
    split; reflexivity.
Qed.

Lemma C1_update_twice_witness :
  ∃ r1 db1,
    updateOrderStatus jan1_2025 (Some 5%N) (Some 7%N) db_pending = (Return r1, db1)
    ∧ statusOf db1 5%N = Some Completed
    ∧ ∃ msg,
        updateOrderStatus jan1_2025 (Some 5%N) (Some 7%N) db1
          = (Throw (BadRequest msg), db1)
        ∧ statusCode (BadRequest msg) = 400.
Proof.
  apply (C1_update_twice db_pending jan1_2025 jan1_2025 5%N 7%N
           (Order.mk 7 1 (Q2Qc 100) Pending jan1_2025 jan1_2025));
    reflexivity.
Defined.

(** C2, as the code has it: Completed is terminal.  A call by the owner on
    a Completed order fails with BadRequest and changes nothing; no call
    moves any order out of Completed; and whenever a call changes the status
    of an order, that order is the one addressed, the call succeeded, the old
    status was not Completed and the new one is. *)
Theorem C2_completed_terminal (db db' : Db) (now : Date.t)
    (orderId accountId : option N) (r : Outcome UpdateResponse) :
  updateOrderStatus now orderId accountId db = (r, db') →
  (∀ id o, orderId = Some id → orders db !! id = Some o →
           Some (Order.account o) = accountId → Order.status o = Completed →
           r = Throw (BadRequest "Order is already paid") ∧ db' = db)
  ∧ (∀ id, statusOf db id = Some Completed → statusOf db' id = Some Completed)
  ∧ (∀ id s s', statusOf db id = Some s → statusOf db' id = Some s' → s ≠ s' →
                orderId = Some id ∧ (∃ resp, r = Return resp)
                ∧ s ≠ Completed ∧ s' = Completed).
Proof.
  intros H. destruct orderId as [oid|].
  2:{ rewrite updateOrderStatus_None in H. injection H as <- <-.
      split; [|split]; [discriminate|done|congruence]. }
  rewrite updateOrderStatus_Some in H.
  destruct (orders db !! oid) as [o|] eqn:Ho.
  2:{ injection H as <- <-. split; [|split]; [congruence|done|congruence]. }
  destruct (decide (Some (Order.account o) = accountId)) as [Ha|Ha].
  2:{ injection H as <- <-. split; [|split]; [|done|congruence].
      intros id o' [= <-]. rewrite Ho. intros [= <-]. done. }
  destruct (decide (Order.status o = Completed)) as [Hc|Hc].
  { injection H as <- <-. split; [|split]; [done|done|congruence]. }
  injection H as <- <-. split; [|split].
  - intros id o' [= <-]. rewrite Ho. intros [= <-] _ ?. done.
  - intros id Hid. rewrite statusOf_set_orders_insert.
    destruct (decide (oid = id)); done.
  - intros id s s' Hs. rewrite statusOf_set_orders_insert.
    destruct (decide (oid = id)) as [->|]; [|congruence].
    simpl. intros [= <-] Hne. unfold statusOf in Hs. rewrite Ho in Hs.
    injection Hs as <-. split; [done|]. split; [eauto|]. done.
Qed.

Lemma C2_completed_terminal_witness :
  (∀ id o, Some 5%N = Some id → orders db_pending !! id = Some o →
           Some (Order.account o) = Some 7%N → Order.status o = Completed →
           Return (mkUpdateResponse 200 "Order status updated to Paid successfully" 5)
             = Throw (BadRequest "Order is already paid")
           ∧ snd (updateOrderStatus jan1_2025 (Some 5%N) (Some 7%N) db_pending)
             = db_pending)
  ∧ (∀ id, statusOf db_pending id = Some Completed →
           statusOf (snd (updateOrderStatus jan1_2025 (Some 5%N) (Some 7%N) db_pending)) id
             = Some Completed)
  ∧ (∀ id s s', statusOf db_pending id = Some s →
        statusOf (snd (updateOrderStatus jan1_2025 (Some 5%N) (Some 7%N) db_pending)) id
          = Some s' →
        s ≠ s' →
        Some 5%N = Some id
        ∧ (∃ resp, Return (mkUpdateResponse 200
                             "Order status updated to Paid successfully" 5)
                   = Return resp)
        ∧ s ≠ Completed ∧ s' = Completed).
Proof.
  apply (C2_completed_terminal db_pending _ jan1_2025 (Some 5%N) (Some 7%N)).
  reflexivity.
Defined.

(** C2 as stated fails on a Cancelled order: the owner's call succeeds and
    the order becomes Completed. *)
Lemma C2_counterexample :
  statusOf db_cancelled 5%N = Some Cancelled
  ∧ fst (updateOrderStatus jan1_2025 (Some 5%N) (Some 7%N) db_cancelled)
    = Return (mkUpdateResponse 200 "Order status updated to Paid successfully" 5)
  ∧ statusOf (snd (updateOrderStatus jan1_2025 (Some 5%N) (Some 7%N) db_cancelled)) 5%N
    = Some Completed.
Proof. repeat split; reflexivity. Qed.




(** ** [createOrder] *)

Lemma findVNPay_None db :
  findVNPay db = None →
  ∀ id p, paymentmethods db !! id = Some p → PaymentMethod.name p ≠ VNPay.
Proof.
  unfold findVNPay, scan. intros Hnone id p Hp Hname.
  apply elem_of_map_to_list, list_elem_of_In in Hp.
  pose proof (find_none _ _ Hnone _ Hp) as Hf. simpl in Hf.
  by rewrite bool_decide_eq_false in Hf.
Qed.

Lemma findVNPay_Some db id p :
  findVNPay db = Some (id, p) →
  paymentmethods db !! id = Some p ∧ PaymentMethod.name p = VNPay.
Proof.
  unfold findVNPay, scan. intros Hsome.
  apply find_some in Hsome as [Hin Hname]. simpl in Hname.
  apply bool_decide_eq_true in Hname.
  by apply list_elem_of_In, elem_of_map_to_list in Hin.
Qed.

Lemma fresh_lookup_None {A} (c : gmap N A) : c !! fresh (dom c) = None.
Proof. apply not_elem_of_dom, is_fresh. Qed.

Section OrderCreation.
Variable Number_toString : Number → string.
Variable hmacSha512Hex : string → string → string.

Local Abbreviation create := (createOrder Number_toString hmacSha512Hex).
Local Abbreviation signedUrl := (vnpayUrl Number_toString hmacSha512Hex).

Lemma createOrder_missing_id req now courseId accountId db :
  courseId = None ∨ accountId = None →
  create req now courseId accountId db
  = (Throw (BadRequest "Course ID and account ID are required"), db).
Proof. intros [-> | ->]; [|destruct courseId]; reflexivity. Qed.

Lemma createOrder_unfold req now cid aid db :
  create req now (Some cid) (Some aid) db =
  match courses db !! cid with
  | None => (Throw (NotFound "Course not found or inactive"), db)
  | Some course =>
    if negb (Course.isActive course)
    then (Throw (NotFound "Course not found or inactive"), db)
    else
      match accounts db !! aid with
      | None => (Throw (NotFound "Account not found"), db)
      | Some _ =>
        (Return
           (mkCreateResponse 200 "Order created successfully"
              (fresh (dom (orders db)))
              (signedUrl
                 (paymentParams req now (Course.price course * Q2Qc 1)%Qc
                    (fresh (dom (orders db))) (Course.name course)))),
         dbAfterOrder now cid aid course db)
      end
  end.
Proof.
  unfold createOrder, mbind, M_bind, Course_findById, Account_findById,
    PaymentMethod_findOne; simpl.
  destruct (courses db !! cid) as [course|]; [|reflexivity].
  destruct (Course.isActive course); simpl; [|reflexivity].
  destruct (accounts db !! aid); [|reflexivity].
  unfold dbAfterOrder, newOrder, newOrderDetail, paymentMethodIdFor, findVNPay.
  destruct (List.find _ _) as [[id p]|]; reflexivity.
Qed.


(** C6: a successful call adds exactly one Order and one OrderDetail, each
    under an id its collection did not have: the Order is Pending, of the
    caller, with totalAmount the course's price times 1; the OrderDetail
    refers to that Order and to the course, with quantity 1, isFinishCourse
    false and the price the course has in the store the call ran on. *)
Theorem C6_order_and_detail_pair (req : Request) (now : Date.t)
    (courseId accountId : option N) (db db' : Db) (r : CreateResponse) :
  create req now courseId accountId db = (Return r, db') →
  ∃ cid aid course pmId detailId,
    courseId = Some cid ∧ accountId = Some aid
    ∧ courses db !! cid = Some course
    ∧ orders db !! cr_orderId r = None
    ∧ orderdetails db !! detailId = None
    ∧ orders db'
      = <[cr_orderId r :=
            Order.mk aid pmId (Course.price course * Q2Qc 1)%Qc Pending now now]>
          (orders db)
    ∧ (Course.price course * Q2Qc 1)%Qc = Course.price course
    ∧ orderdetails db'
      = <[detailId :=
            OrderDetail.mk (cr_orderId r) cid (Q2Qc 1) (Course.price course)
              false None None now now]>
          (orderdetails db).
Proof.
  intros H.
  destruct courseId as [cid|], accountId as [aid|];
    try (rewrite createOrder_missing_id in H by auto; discriminate).
  rewrite createOrder_unfold in H.
  destruct (courses db !! cid) as [course|] eqn:Hc; [|discriminate].
  destruct (negb (Course.isActive course)); [discriminate|].
  destruct (accounts db !! aid); [|discriminate].
  injection H as <- <-. simpl.
  exists cid, aid, course, (paymentMethodIdFor db), (fresh (dom (orderdetails db))).
  split_and!; try done; try apply fresh_lookup_None.
  apply Qcmult_1_r.
Qed.

(** C10: whatever the outcome, the call leaves the accounts and the
    courses as they were; the payment methods are unchanged or gain one
    document named VNPay under a new id, and that only when none was
    there; the orders and the order details are unchanged or gain one
    document each under a new id. *)
Theorem C10_frame (req : Request) (now : Date.t) (courseId accountId : option N)
    (db : Db) :
  let db' := snd (create req now courseId accountId db) in
  accounts db' = accounts db
  ∧ courses db' = courses db
  ∧ (paymentmethods db' = paymentmethods db
     ∨ ((∀ id p, paymentmethods db !! id = Some p → PaymentMethod.name p ≠ VNPay)
        ∧ ∃ id, paymentmethods db !! id = None
                ∧ paymentmethods db'
                  = <[id := PaymentMethod.mk VNPay]> (paymentmethods db)))
  ∧ (orders db' = orders db
     ∨ ∃ id o, orders db !! id = None ∧ orders db' = <[id := o]> (orders db))
  ∧ (orderdetails db' = orderdetails db
     ∨ ∃ id d, orderdetails db !! id = None
               ∧ orderdetails db' = <[id := d]> (orderdetails db)).
Proof.
  destruct courseId as [cid|], accountId as [aid|];
    try (rewrite createOrder_missing_id by auto; simpl; tauto).
  rewrite createOrder_unfold.
  destruct (courses db !! cid) as [course|]; [|simpl; tauto].
  destruct (negb (Course.isActive course)); [simpl; tauto|].
  destruct (accounts db !! aid); [|simpl; tauto].
  simpl. split; [reflexivity|]. split; [reflexivity|]. split; [|split].
  - destruct (findVNPay db) as [[id p]|] eqn:Hf; [by left|right].
    split; [by apply findVNPay_None|].
    eexists. split; [apply fresh_lookup_None|reflexivity].
  - right. eexists _, _. split; [apply fresh_lookup_None|reflexivity].
  - right. eexists _, _. split; [apply fresh_lookup_None|reflexivity].
Qed.
End OrderCreation.



Lemma C6_order_and_detail_pair_witness :
  ∃ r db',
    createOrder integerToString lengthDigest req_local jan1_2025 (Some 1%N) (Some 7%N)
      db_shop = (Return r, db')
    ∧ ∃ cid aid course pmId detailId,
        Some 1%N = Some cid ∧ Some 7%N = Some aid
        ∧ courses db_shop !! cid = Some course
        ∧ orders db_shop !! cr_orderId r = None
        ∧ orderdetails db_shop !! detailId = None
        ∧ orders db'
          = <[cr_orderId r :=
                Order.mk aid pmId (Course.price course * Q2Qc 1)%Qc Pending
                  jan1_2025 jan1_2025]>
              (orders db_shop)
        ∧ (Course.price course * Q2Qc 1)%Qc = Course.price course
        ∧ orderdetails db'
          = <[detailId :=
                OrderDetail.mk (cr_orderId r) cid (Q2Qc 1) (Course.price course)
                  false None None jan1_2025 jan1_2025]>
              (orderdetails db_shop).
Proof.
  eexists _, _. split; [vm_compute; reflexivity|].
  apply (C6_order_and_detail_pair integerToString lengthDigest req_local jan1_2025
           (Some 1%N) (Some 7%N) db_shop).
  vm_compute; reflexivity.
Defined.

(** * Properties of the payment URL *)

Section Signer.
Variable Number_toString : Number → string.
Variable hmacSha512Hex : string → string → string.

(** The parameters after the sort, spelled out. *)
Lemma sortedParams_paymentParams req now totalAmount orderId courseName :
  sortedParams (paymentParams req now totalAmount orderId courseName) =
  [ ("vnp_Amount", PNum (totalAmount * Q2Qc 100));
    ("vnp_Command", PStr "pay");
    ("vnp_CreateDate", PStr (dateFormat now "yyyymmddHHMMss"));
    ("vnp_CurrCode", PStr "VND");
    ("vnp_IpAddr",
       PStr (match ip req with
             | Some a => if String.eqb a "" then "127.0.0.1" else a
             | None => "127.0.0.1"
             end));
    ("vnp_Locale", PStr "vn");
    ("vnp_OrderInfo", PStr ("Payment for course: " +:+ courseName));
    ("vnp_OrderType", PStr "250000");
    ("vnp_ReturnUrl",
       PStr ("http://localhost:3000?orderId=" +:+ ObjectId_toString orderId));
    ("vnp_TmnCode", PStr vnp_TmnCode);
    ("vnp_TxnRef", PStr (ObjectId_toString orderId));
    ("vnp_Version", PStr "2.1.0") ].
Proof. reflexivity. Qed.


(** The URL a successful [createOrder] returns is the signed URL for the
    order it stored: that order's id and total amount. *)
Lemma createOrder_signs_stored_order req now courseId accountId db r db' :
  createOrder Number_toString hmacSha512Hex req now courseId accountId db
    = (Return r, db') →
  ∃ o cid course,
    orders db' !! cr_orderId r = Some o
    ∧ courseId = Some cid ∧ courses db !! cid = Some course
    ∧ cr_url r
      = vnpayUrl Number_toString hmacSha512Hex
          (paymentParams req now (Order.totalAmount o) (cr_orderId r)
             (Course.name course)).
Proof.
  intros H.
  destruct courseId as [cid|], accountId as [aid|];
    try (rewrite createOrder_missing_id in H by auto; discriminate).
  rewrite createOrder_unfold in H.
  destruct (courses db !! cid) as [course|] eqn:Hc; [|discriminate].
  destruct (negb (Course.isActive course)); [discriminate|].
  destruct (accounts db !! aid); [|discriminate].
  injection H as <- <-. simpl.
  eexists _, cid, course. split; [apply lookup_insert_eq|]. done.
Qed.
End Signer.

(** The signer on the inputs of the specification's example: order id
    [a1], amount 100000, course "Intro to Go", no client address, at
    2025-01-01 00:00:00. *)
Example signer_query_string :
  queryString integerToString
    (paymentParams req_local jan1_2025 (Q2Qc 100000) 161 "Intro to Go")
  = "vnp_Amount=10000000&vnp_Command=pay&vnp_CreateDate=20250101000000&vnp_CurrCode=VND&vnp_IpAddr=127.0.0.1&vnp_Locale=vn&vnp_OrderInfo=Payment+for+course%3A+Intro+to+Go&vnp_OrderType=250000&vnp_ReturnUrl=http%3A%2F%2Flocalhost%3A3000%3ForderId%3D0000000000000000000000a1&vnp_TmnCode=9TKDVWYK&vnp_TxnRef=0000000000000000000000a1&vnp_Version=2.1.0".
Proof. vm_compute. reflexivity. Qed.

(** * Properties of the dashboard queries *)

Lemma elem_of_documents {A} (c : gmap N A) (d : A) :
  d ∈ documents c ↔ ∃ id, c !! id = Some d.
Proof.
  unfold documents, scan. rewrite list_elem_of_fmap. split.
  - intros [[id d'] [-> Hin]]. exists id. by apply elem_of_map_to_list.
  - intros [id Hid]. exists (id, d). split; [done|]. by apply elem_of_map_to_list.
Qed.

Lemma filter_none {A} (P : A → bool) (l : list A) :
  (∀ x, x ∈ l → P x = false) → List.filter P l = [].
Proof.
  induction l as [|x l IH]; intros H; [reflexivity|]. simpl.
  rewrite (H x) by left. apply IH. intros y Hy. apply H. by right.
Qed.

(** ** Top performers *)

(** C8: when no order detail has isFinishCourse set, both top-performer
    queries return null; they are total functions, so nothing is raised. *)
Theorem C8_top_performers_null (db : Db) :
  (∀ id d, orderdetails db !! id = Some d → OrderDetail.isFinishCourse d = false) →
  getTopAccountByCompletedCourses db = None ∧ getTopTutor db = None.
Proof.
  intros H.
  assert (Hf : List.filter OrderDetail.isFinishCourse (documents (orderdetails db)) = []).
  { apply filter_none. intros d [id Hd]%elem_of_documents. by apply (H id). }
  unfold getTopAccountByCompletedCourses, getTopTutor. rewrite Hf.
  split; reflexivity.
Qed.

Lemma C8_top_performers_null_witness :
  getTopAccountByCompletedCourses db_unfinished = None
  ∧ getTopTutor db_unfinished = None.
Proof.
  apply (C8_top_performers_null db_unfinished).
  intros id d. unfold db_unfinished; simpl. rewrite lookup_insert.
  destruct (decide (1%N = id)); [|by rewrite lookup_empty].
  by intros [= <-].
Defined.

(** With a finished course the queries do answer. *)
Example top_performers_found :
  getTopAccountByCompletedCourses db_finished
    = Some (mkTopAccount 7 7 "An" "an@example.com" 1)
  ∧ getTopTutor db_finished = Some (mkTopTutor "Binh" "binh@example.com" 1).
Proof. split; vm_compute; reflexivity. Qed.

(** * Rounding to two decimal places *)

Lemma Q_round_close (q : Q) :
  (q - (1 # 200) <= (Qfloor (q * 100 + (1 # 2)) # 100) <= q + (1 # 200))%Q.
Proof.
  pose proof (Qfloor_le (q * 100 + (1 # 2))) as H1.
  pose proof (Qlt_floor (q * 100 + (1 # 2))) as H2.
  rewrite inject_Z_plus in H2.
  rewrite (Qmake_Qdiv (Qfloor (q * 100 + (1 # 2))) 100).
  change (inject_Z (Z.pos 100)) with 100%Q.
  change (inject_Z 1) with 1%Q in H2.
  revert H1 H2. generalize (inject_Z (Qfloor (q * 100 + (1 # 2)))).
  intros z H1 H2. split.
  - apply Qle_shift_div_l; [reflexivity|]. lra.
  - apply Qle_shift_div_r; [reflexivity|]. lra.
Qed.

(** [roundTo2 x] is a whole number of hundredths, at most half a hundredth
    away from [x]. *)
Lemma roundTo2_hundredths (x : Number) :
  roundTo2 x = Q2Qc (hundredths (toFixed2 x) # 100).
Proof. reflexivity. Qed.

Lemma roundTo2_close (x : Number) :
  (x - Q2Qc (1 # 200) <= roundTo2 x)%Qc ∧ (roundTo2 x <= x + Q2Qc (1 # 200))%Qc.
Proof.
  unfold roundTo2, Decimal2_value, toFixed2, roundHalfUp, Qcle.
  destruct (decide (x < Q2Qc 0)%Qc) as [Hneg|Hpos]; cbn [hundredths]; simpl.
  - pose proof (Q_round_close (- x)) as [H1 H2].
    rewrite !Qred_correct.
    change ((- Qfloor (- x * 100 + (1 # 2)) # 100)%Q)
      with (- (Qfloor (- x * 100 + (1 # 2)) # 100))%Q.
    revert H1 H2. generalize (Qfloor (- x * 100 + (1 # 2)) # 100)%Q.
    intros z H1 H2. split; lra.
  - pose proof (Q_round_close x) as [H1 H2].
    rewrite !Qred_correct. split; lra.
Qed.

(** ** The year range of the [$match] stage *)

Lemma monthIndex_inj (a b : Month) : monthIndex a = monthIndex b → a = b.
Proof. destruct a, b; simpl; intros H; congruence. Qed.

Lemma monthIndex_lt (m : Month) : (monthIndex m < 12)%nat.
Proof. destruct m; simpl; lia. Qed.

Lemma allMonths_lookup (m : Month) : allMonths !! monthIndex m = Some m.
Proof. by destruct m. Qed.

(** Against midnight of January 1st of its own year, a date is never earlier. *)
Lemma compare_newYear_same (d : Date.t) :
  Date.compare d (Date.mk (Date.year d) Jan 1 0 0 0 0) ≠ Lt.
Proof.
  unfold Date.compare; simpl. rewrite Z.compare_refl.
  destruct (monthIndex (Date.month d)); simpl; [|discriminate].
  destruct (Pos.compare_spec (Date.date d) 1) as [_|H|_]; [|lia|discriminate].
  destruct (Date.hours d); simpl; [|discriminate].
  destruct (Date.minutes d); simpl; [|discriminate].
  destruct (Date.seconds d); simpl; [|discriminate].
  destruct (Date.milliseconds d); simpl; discriminate.
Qed.

Lemma compare_newYear (d : Date.t) (y : Z) :
  (Date.compare d (Date.mk y Jan 1 0 0 0 0) = Lt ↔ Date.year d < y).
Proof.
  destruct (Z.compare_spec (Date.year d) y) as [Heq|Hlt|Hgt].
  - subst y. split; [|lia]. intros H. by apply compare_newYear_same in H.
  - split; [done|]. intros _. unfold Date.compare; simpl.
    by rewrite (proj2 (Z.compare_lt_iff _ _) Hlt).
  - split; [|lia]. unfold Date.compare; simpl.
    rewrite (proj2 (Z.compare_gt_iff _ _)) by lia. discriminate.
Qed.

Lemma newYearDay_year (y : Z) :
  y < 0 ∨ 99 < y → Date.newYearDay y = Date.mk y Jan 1 0 0 0 0.
Proof.
  intros H. unfold Date.newYearDay.
  destruct (Z.leb_spec 0 y), (Z.leb_spec y 99); simpl; try reflexivity; lia.
Qed.

Lemma matchCompletedIn_year (y : Z) (o : Order.t) :
  y < -1 ∨ 99 < y →
  matchCompletedIn y o
  = bool_decide (Order.status o = Completed)
    && bool_decide (Date.year (Order.createdAt o) = y).
Proof.
  intros Hy. unfold matchCompletedIn, Date.gte, Date.lt.
  rewrite !newYearDay_year by lia.
  pose proof (compare_newYear (Order.createdAt o) y) as H1.
  pose proof (compare_newYear (Order.createdAt o) (y + 1)) as H2.
  destruct (bool_decide (Order.status o = Completed)); simpl;
    [|by rewrite andb_false_r].
  rewrite andb_true_r.
  destruct (Date.compare (Order.createdAt o) (Date.mk y Jan 1 0 0 0 0)) eqn:E1,
           (Date.compare (Order.createdAt o) (Date.mk (y + 1) Jan 1 0 0 0 0)) eqn:E2;
    simpl; symmetry;
    first [ apply bool_decide_eq_true | apply bool_decide_eq_false ];
    try (assert (Date.year (Order.createdAt o) < y) by (by apply H1); lia);
    try (assert (Date.year (Order.createdAt o) < y + 1) by (by apply H2));
    try (assert (¬ Date.year (Order.createdAt o) < y)
           by (rewrite <- H1; discriminate));
    try (assert (¬ Date.year (Order.createdAt o) < y + 1)
           by (rewrite <- H2; discriminate));
    lia.
Qed.

(** ** The [$group] stage *)

Local Open Scope list_scope.

Section Group.
Context {K A : Type} `{EqDecision K}.
Implicit Types (g : list (K * A)) (k : K).

Lemma groupOf_cons k k' a g :
  groupOf k ((k', a) :: g) = if decide (k' = k) then Some a else groupOf k g.
Proof.
  unfold groupOf; simpl.
  destruct (decide (k' = k)) as [->|Hne].
  - by rewrite bool_decide_eq_true_2.
  - by rewrite bool_decide_eq_false_2.
Qed.

Lemma groupOf_groupInsert k k' upd g :
  groupOf k (groupInsert k' upd g)
  = if decide (k' = k) then Some (upd (groupOf k g)) else groupOf k g.
Proof.
  induction g as [|[k0 a] g IH]; simpl.
  - rewrite groupOf_cons. destruct (decide (k' = k)); reflexivity.
  - destruct (decide (k0 = k')) as [->|Hne].
    + rewrite !groupOf_cons. destruct (decide (k' = k)); reflexivity.
    + rewrite !groupOf_cons, IH.
      destruct (decide (k0 = k)) as [->|], (decide (k' = k)) as [->|];
        congruence.
Qed.

Lemma groupInsert_keys_old k upd g :
  k ∈ g.*1 → (groupInsert k upd g).*1 = g.*1.
Proof.
  induction g as [|[k0 a] g IH]; [by intros ?%not_elem_of_nil|].
  intros Hin. cbn [groupInsert].
  destruct (decide (k0 = k)) as [->|Hne]; [reflexivity|].
  rewrite !fmap_cons. f_equal. apply IH.
  rewrite fmap_cons in Hin. apply elem_of_cons in Hin as [Heq|Hin]; [|done].
  simpl in Heq. congruence.
Qed.

Lemma groupInsert_keys_new k upd g :
  k ∉ g.*1 → (groupInsert k upd g).*1 = g.*1 ++ [k].
Proof.
  induction g as [|[k0 a] g IH]; [reflexivity|].
  intros Hnin. cbn [groupInsert]. rewrite fmap_cons in Hnin.
  apply not_elem_of_cons in Hnin as [Hne Hnin]. simpl in Hne.
  rewrite decide_False by congruence.
  rewrite !fmap_cons, IH by done. reflexivity.
Qed.

Lemma groupInsert_NoDup k upd g : NoDup g.*1 → NoDup (groupInsert k upd g).*1.
Proof.
  intros Hnd. destruct (decide (k ∈ g.*1)) as [Hin|Hnin].
  - by rewrite groupInsert_keys_old.
  - rewrite groupInsert_keys_new by done.
    apply NoDup_app. split; [done|]. split; [|apply NoDup_singleton].
    intros x Hx ->%list_elem_of_singleton. done.
Qed.

Lemma group_NoDup {D} (key : D → K) (step : option A → D → A) (docs : list D) :
  NoDup (group key step docs).*1.
Proof.
  unfold group.
  assert (Hgen : ∀ g, NoDup g.*1 →
    NoDup (foldl (λ g d, groupInsert (key d) (λ a, step a d) g) g docs).*1).
  { induction docs as [|d docs IH]; intros g Hg; simpl; [done|].
    apply IH. by apply groupInsert_NoDup. }
  apply Hgen. apply NoDup_nil_2.
Qed.

(** With distinct keys, the accumulator found for a key is the one paired
    with it, wherever the pair stands. *)
Lemma groupOf_Some_iff k a g :
  NoDup g.*1 → groupOf k g = Some a ↔ (k, a) ∈ g.
Proof.
  induction g as [|[k0 a0] g IH]; intros Hnd.
  - split; [discriminate|]. by intros ?%not_elem_of_nil.
  - apply NoDup_cons in Hnd as [Hk0 Hnd]. rewrite groupOf_cons.
    destruct (decide (k0 = k)) as [->|Hne].
    + split.
      * intros [= ->]. left.
      * intros [[= ->]|Hin]%elem_of_cons; [done|].
        destruct Hk0. apply list_elem_of_fmap. by exists (k, a).
    + rewrite IH by done. split.
      * by right.
      * intros [[= -> ->]|Hin]%elem_of_cons; done.
Qed.

Lemma groupOf_Permutation k g g' :
  NoDup g.*1 → g ≡ₚ g' → groupOf k g' = groupOf k g.
Proof.
  intros Hnd Hp.
  assert (Hnd' : NoDup g'.*1) by (by rewrite <- Hp).
  destruct (groupOf k g) as [a|] eqn:E.
  - apply groupOf_Some_iff; [done|]. rewrite <- Hp. by apply groupOf_Some_iff.
  - destruct (groupOf k g') as [a'|] eqn:E'; [|done].
    apply groupOf_Some_iff in E'; [|done]. rewrite <- Hp in E'.
    apply groupOf_Some_iff in E'; [|done]. congruence.
Qed.

Lemma groupOf_is_Some k g : k ∈ g.*1 → is_Some (groupOf k g).
Proof.
  induction g as [|[k0 a0] g IH]; [by intros ?%not_elem_of_nil|].
  simpl. rewrite groupOf_cons. intros [->|Hin]%elem_of_cons.
  - rewrite decide_True by done. eauto.
  - destruct (decide (k0 = k)); eauto.
Qed.
End Group.

Lemma Qcsum_app (l1 l2 : list Number) :
  Qcsum (l1 ++ l2) = (Qcsum l1 + Qcsum l2)%Qc.
Proof.
  induction l1 as [|x l1 IH].
  - change (Qcsum l2 = (Q2Qc 0 + Qcsum l2)%Qc). ring.
  - change (x + Qcsum (l1 ++ l2) = (x + Qcsum l1) + Qcsum l2)%Qc.
    rewrite IH. ring.
Qed.

(** [$group] with [$sum]: a key has a group exactly when some document has
    the key, and the group's sum is the sum over those documents. *)
Lemma groupOf_group_sum {D K} `{EqDecision K} (key : D → K) (val : D → Number)
    (docs : list D) (k : K) :
  groupOf k (group key (sumStep val) docs)
  = match keyed key k docs with
    | [] => None
    | sel => Some (Qcsum (val <$> sel))
    end.
Proof.
  unfold group.
  assert (Hgen : ∀ g,
    groupOf k (foldl (λ g d, groupInsert (key d) (λ a, sumStep val a d) g) g docs)
    = match keyed key k docs with
      | [] => groupOf k g
      | sel => Some (default (Q2Qc 0) (groupOf k g) + Qcsum (val <$> sel))%Qc
      end).
  { induction docs as [|d docs IH]; intros g; [reflexivity|].
    simpl. rewrite IH, groupOf_groupInsert. unfold keyed; simpl.
    destruct (decide (key d = k)) as [Hk|Hk].
    - rewrite bool_decide_eq_true_2 by done. simpl.
      fold (keyed key k docs). unfold sumStep.
      destruct (keyed key k docs) as [|d' sel]; simpl.
      + f_equal. unfold Qcsum; simpl. ring.
      + f_equal. unfold Qcsum; simpl. ring.
    - rewrite bool_decide_eq_false_2 by done. reflexivity. }
  rewrite Hgen. destruct (keyed key k docs) as [|d sel]; [reflexivity|].
  f_equal. simpl. ring.
Qed.

(** ** Filling the twelve slots *)

Lemma fill_months (l : list (nat * Number)) (arr : list Cell) :
  length arr = 12%nat →
  NoDup l.*1 →
  (∀ k, k ∈ l.*1 → (1 ≤ k ≤ 12)%nat) →
  let filled := foldl (λ arr data, arraySet arr (data.1 - 1) (revenueCell data)) arr l in
  length filled = 12%nat
  ∧ ∀ i, (i < 12)%nat →
      filled !! i = match groupOf (S i) l with
                    | Some v => Some (revenueCell (S i, v))
                    | None => arr !! i
                    end.
Proof.
  revert arr. induction l as [|[k v] l IH]; intros arr Hlen Hnd Hkeys; simpl.
  - split; [done|]. intros i _. reflexivity.
  - rewrite fmap_cons in Hnd. apply NoDup_cons in Hnd as [Hk Hnd]. simpl in Hk.
    assert (Hkr : (1 ≤ k ≤ 12)%nat) by (apply Hkeys; left).
    assert (Hset : arraySet arr (k - 1) (revenueCell (k, v))
                   = <[(k - 1)%nat := revenueCell (k, v)]> arr).
    { unfold arraySet. rewrite decide_True by lia. reflexivity. }
    rewrite Hset.
    destruct (IH (<[(k - 1)%nat := revenueCell (k, v)]> arr)) as [Hl Hi].
    { by rewrite length_insert. }
    { done. }
    { intros k' Hk'. apply Hkeys. by right. }
    split; [exact Hl|]. intros i Hlt. rewrite (Hi i Hlt), groupOf_cons.
    destruct (decide (k = S i)) as [->|Hne].
    + destruct (groupOf (S i) l) as [v'|] eqn:E.
      * destruct Hk. apply groupOf_Some_iff in E; [|done].
        apply list_elem_of_fmap. by exists (S i, v').
      * replace (S i - 1)%nat with i by lia.
        rewrite list_lookup_insert_eq by lia. reflexivity.
    + destruct (groupOf (S i) l); [reflexivity|].
      rewrite list_lookup_insert_ne by lia. reflexivity.
Qed.

(** ** The pipelines against the wording *)

Lemma filter_filter_andb {A} (f g : A → bool) (l : list A) :
  List.filter f (List.filter g l) = List.filter (λ x, g x && f x) l.
Proof.
  induction l as [|x l IH]; [reflexivity|]. simpl.
  destruct (g x); simpl; [|exact IH]. destruct (f x); simpl; by rewrite IH.
Qed.

Lemma monthNumber_eq (d : Date.t) (m : Month) :
  monthNumber d = S (monthIndex m) ↔ Date.month d = m.
Proof.
  unfold monthNumber. split; [|by intros ->].
  intros [= H]. by apply monthIndex_inj.
Qed.

(** The documents that reach the group of month [m] are the Completed
    orders created in month [m] of year [y]. *)
Lemma keyed_matched (y : Z) (m : Month) (db : Db) :
  y < -1 ∨ 99 < y →
  keyed (λ o, monthNumber (Order.createdAt o)) (S (monthIndex m))
    (List.filter (matchCompletedIn y) (documents (orders db)))
  = completedIn db y m.
Proof.
  intros Hy. unfold keyed, completedIn. rewrite filter_filter_andb.
  apply List.filter_ext. intros o. rewrite matchCompletedIn_year by done.
  f_equal. apply bool_decide_ext, monthNumber_eq.
Qed.

Lemma keyed_elem {D K} `{EqDecision K} (key : D → K) (k : K) (docs : list D) d :
  d ∈ keyed key k docs → key d = k.
Proof.
  unfold keyed. intros [_ H]%list_elem_of_In%filter_In.
  by apply bool_decide_eq_true in H.
Qed.

Section MonthGroups.
Variable val : Order.t → Number.
Variables (y : Z) (db : Db).
Hypothesis Hy : y < -1 ∨ 99 < y.

Let groups : list (nat * Number) :=
  group (λ o, monthNumber (Order.createdAt o)) (sumStep val)
    (List.filter (matchCompletedIn y) (documents (orders db))).

Lemma sorted_groups_NoDup : NoDup (sortById groups).*1.
Proof.
  unfold sortById. rewrite merge_sort_Permutation. apply group_NoDup.
Qed.

Lemma sorted_groups_month (m : Month) :
  groupOf (S (monthIndex m)) (sortById groups)
  = match completedIn db y m with
    | [] => None
    | sel => Some (Qcsum (val <$> sel))
    end.
Proof.
  rewrite (groupOf_Permutation _ groups).
  - unfold groups. rewrite groupOf_group_sum, keyed_matched by done.
    reflexivity.
  - apply group_NoDup.
  - unfold sortById. by rewrite merge_sort_Permutation.
Qed.

Lemma sorted_groups_keys (k : nat) :
  k ∈ (sortById groups).*1 → (1 ≤ k ≤ 12)%nat.
Proof.
  unfold sortById. rewrite merge_sort_Permutation.
  intros [a Ha]%groupOf_is_Some. unfold groups in Ha.
  rewrite groupOf_group_sum in Ha.
  destruct (keyed _ k _) as [|d sel] eqn:E; [discriminate|].
  assert (Hd : d ∈ keyed (λ o, monthNumber (Order.createdAt o)) k
                 (List.filter (matchCompletedIn y) (documents (orders db))))
    by (rewrite E; left).
  apply keyed_elem in Hd. subst k. unfold monthNumber.
  pose proof (monthIndex_lt (Date.month (Order.createdAt d))). lia.
Qed.
End MonthGroups.

Lemma month_of_index (i : nat) :
  (i < 12)%nat → ∃ m, allMonths !! i = Some m ∧ monthIndex m = i.
Proof.
  intros Hi.
  do 12 (destruct i as [|i]; [eexists; split; reflexivity|]). lia.
Qed.

Lemma Qcsum_scale (c : Number) (f : Order.t → Number) (l : list Order.t) :
  Qcsum ((λ o, f o * c)%Qc <$> l) = (c * Qcsum (f <$> l))%Qc.
Proof.
  induction l as [|o l IH].
  - change (Q2Qc 0 = (c * Q2Qc 0)%Qc). ring.
  - change ((f o * c + Qcsum ((λ o, f o * c)%Qc <$> l))%Qc
            = (c * (f o + Qcsum (f <$> l)))%Qc).
    rewrite IH. ring.
Qed.

Lemma roundTo2_zero : roundTo2 (commission * Q2Qc 0) = Q2Qc 0.
Proof. apply Qc_is_canon. reflexivity. Qed.

Lemma getMonthlyRevenue_entries (db : Db) (y : Z) :
  y < -1 ∨ 99 < y →
  getMonthlyRevenue y db
  = (λ m, mkMonthEntry (S (monthIndex m))
            (Some (roundTo2 (commission * completedTotal db y m)))) <$> allMonths.
Proof.
  intros Hy.
  set (filled :=
         foldl (λ arr data, arraySet arr (data.1 - 1) (revenueCell data))
           (replicate 12 (CNum (Q2Qc 0))) (revenueData y db)).
  assert (Hdef : getMonthlyRevenue y db
                 = imap (λ index revenue,
                           mkMonthEntry (index + 1) (parseFloat revenue)) filled)
    by reflexivity.
  rewrite Hdef. clear Hdef.
  pose proof (fill_months (revenueData y db) (replicate 12 (CNum (Q2Qc 0)))
                (length_replicate _ _)
                (sorted_groups_NoDup _ _ _)
                (sorted_groups_keys _ _ _)) as Hf.
  cbv zeta in Hf. fold filled in Hf. destruct Hf as [Hlen Hfill].
  apply list_eq. intros i. rewrite list_lookup_imap, list_lookup_fmap.
  destruct (decide (i < 12)%nat) as [Hi|Hi].
  - destruct (month_of_index i Hi) as [m [Hm Hidx]].
    rewrite Hm, (Hfill i Hi). subst i.
    unfold revenueData. rewrite (sorted_groups_month _ _ _ Hy).
    unfold completedTotal.
    rewrite lookup_replicate_2 by apply monthIndex_lt.
    destruct (completedIn db y m) as [|o sel] eqn:E; simpl; rewrite ?E.
    + rewrite Nat.add_1_r. do 3 f_equal.
      symmetry. apply roundTo2_zero.
    + rewrite Nat.add_1_r. do 3 f_equal.
      unfold roundTo2. by rewrite Qcmult_comm.
  - rewrite (lookup_ge_None_2 _ i) by lia.
    rewrite (lookup_ge_None_2 allMonths i) by (simpl; lia). reflexivity.
Qed.

Lemma getRevenueByYear_entries (db : Db) (y : Z) :
  y < -1 ∨ 99 < y →
  getRevenueByYear y db
  = (λ m, mkMonthEntry (S (monthIndex m))
            (Some (commission * completedTotal db y m)%Qc)) <$> allMonths.
Proof.
  intros Hy. unfold getRevenueByYear.
  apply list_eq. intros i. rewrite !list_lookup_fmap.
  destruct (decide (i < 12)%nat) as [Hi|Hi].
  - destruct (month_of_index i Hi) as [m [Hm Hidx]]. rewrite Hm.
    rewrite lookup_seq_lt by done. simpl. subst i.
    rewrite Nat.add_1_r. f_equal. f_equal. f_equal.
    pose proof (sorted_groups_month (λ o, Order.totalAmount o * commission)%Qc
                  y db Hy m) as Hg.
    unfold groupOf in Hg. unfold revenueByMonth.
    destruct (List.find _ _) as [r|]; simpl in Hg |- *; unfold completedTotal.
    + destruct (completedIn db y m) as [|o sel]; [discriminate|].
      injection Hg as ->.
      exact (Qcsum_scale commission Order.totalAmount (o :: sel)).
    + destruct (completedIn db y m) as [|o sel]; [|discriminate].
      change (Q2Qc 0 = (commission * Q2Qc 0)%Qc). ring.
  - rewrite (lookup_ge_None_2 (seq 0 12) i) by (rewrite length_seq; lia).
    rewrite (lookup_ge_None_2 allMonths i) by (simpl; lia). reflexivity.
Qed.



(** March 2025 holds two Completed orders, of 0.01 and 100: the first
    service reports 15, the second 15.0015. *)
Example revenue_march_2025 :
  entryQ <$> getMonthlyRevenue 2025 db_2025 !! 2%nat = Some (3%nat, Some (15 # 1)%Q)
  ∧ entryQ <$> getRevenueByYear 2025 db_2025 !! 2%nat
    = Some (3%nat, Some (30003 # 2000)%Q).
Proof. split; vm_compute; reflexivity. Qed.


(** * Properties of the revenue route *)

Lemma isDigitChar_facts (c : ascii) :
  isDigitChar c = true →
  isWhiteSpace c = false
  ∧ digitValue c = Some (N_of_ascii c - 48)%N
  ∧ (N_of_ascii c - 48 < 10)%N
  ∧ c ≠ "-"%char ∧ c ≠ "+"%char ∧ c ≠ "x"%char ∧ c ≠ "X"%char.
Proof.
  destruct c as [[] [] [] [] [] [] [] []]; intros H; try discriminate H;
    split_and!; first [reflexivity | discriminate].
Qed.

Lemma parseDigits_decimal (s : string) (acc : option N) :
  allDigits s = true →
  parseDigits 10 s acc
  = match s with
    | EmptyString => acc
    | _ => Some (decimalFrom (default 0%N acc) s)
    end.
Proof.
  revert acc. induction s as [|c s IH]; intros acc H; [reflexivity|].
  simpl in H. apply andb_true_iff in H as [Hc Hs].
  destruct (isDigitChar_facts c Hc) as (_ & Hd & Hlt & _).
  cbn [parseDigits]. rewrite Hd.
  rewrite (proj2 (N.ltb_lt _ _) Hlt), (IH _ Hs).
  destruct s; reflexivity.
Qed.

(** A string that starts with a digit, and not with [0x], is read in
    radix 10 from its first character. *)
Lemma parseInt_digit_start (c : ascii) (s : string) :
  isDigitChar c = true →
  (∀ c2 s', c = "0"%char → s = String c2 s' → c2 ≠ "x"%char ∧ c2 ≠ "X"%char) →
  parseInt (String c s) = Z.of_N <$> parseDigits 10 (String c s) None.
Proof.
  intros Hc Hnox.
  destruct (isDigitChar_facts c Hc) as (Hws & _ & _ & Hm & Hp & Hx & HX).
  unfold parseInt. cbn [trimStart]. rewrite Hws.
  assert (Hminus : String.prefix "-" (String c s) = false).
  { cbn [String.prefix].
    destruct (ascii_dec "-" c) as [E|E]; [by destruct Hm|reflexivity]. }
  assert (Hplus : String.prefix "+" (String c s) = false).
  { cbn [String.prefix].
    destruct (ascii_dec "+" c) as [E|E]; [by destruct Hp|reflexivity]. }
  rewrite Hminus, Hplus. cbn [orb].
  assert (Hhex : String.prefix "0x" (String c s) || String.prefix "0X" (String c s)
                 = false).
  { cbn [String.prefix]. destruct (ascii_dec "0" c) as [<-|]; [|reflexivity].
    destruct s as [|c2 s]; [reflexivity|].
    destruct (Hnox c2 s eq_refl eq_refl) as [Hx2 HX2].
    cbn [String.prefix].
    destruct (ascii_dec "x" c2) as [E|E]; [by destruct Hx2|].
    destruct (ascii_dec "X" c2) as [E'|E']; [by destruct HX2|reflexivity]. }
  rewrite Hhex. destruct (parseDigits 10 (String c s) None); simpl; [|reflexivity].
  f_equal. lia.
Qed.

(** On a decimal numeral [parseInt] returns the number written. *)
Lemma parseInt_decimal (s : string) :
  isDecimal s = true → parseInt s = Some (Z.of_N (decimalValue s)).
Proof.
  destruct s as [|c s]; [discriminate|]. intros H.
  change (isDigitChar c && allDigits s = true) in H.
  pose proof H as Hall.
  apply andb_true_iff in H as [Hc Hs].
  rewrite parseInt_digit_start; [|done|].
  - by rewrite (parseDigits_decimal (String c s) None Hall).
  - intros c2 s' _ ->. simpl in Hs. apply andb_true_iff in Hs as [Hc2 _].
    by destruct (isDigitChar_facts c2 Hc2) as (_ & _ & _ & _ & _ & Hx2 & HX2).
Qed.

Lemma nondigit_stops (c : ascii) :
  isDigitChar c = false →
  match digitValue c with Some d => (d <? 10)%N = false | None => True end.
Proof.
  destruct c as [[] [] [] [] [] [] [] []]; intros H; try discriminate H;
    vm_compute; done.
Qed.

Lemma parseDigits_app (s rest : string) (acc : option N) :
  allDigits s = true →
  (∀ c r, rest = String c r → isDigitChar c = false) →
  parseDigits 10 (s +:+ rest) acc = parseDigits 10 s acc.
Proof.
  intros Hs Hrest. revert acc Hs. induction s as [|c s IH]; intros acc Hs.
  - change ("" +:+ rest) with rest. destruct rest as [|c r]; [reflexivity|].
    pose proof (nondigit_stops c (Hrest c r eq_refl)) as Hstop.
    cbn [parseDigits]. destruct (digitValue c); [by rewrite Hstop|reflexivity].
  - simpl in Hs. apply andb_true_iff in Hs as [Hc Hs].
    destruct (isDigitChar_facts c Hc) as (_ & Hd & Hlt & _).
    change (String c s +:+ rest) with (String c (s +:+ rest)).
    cbn [parseDigits]. rewrite Hd, (proj2 (N.ltb_lt _ _) Hlt).
    by apply IH.
Qed.

(** Text after a decimal numeral is ignored (the numeral [0] apart, which
    an [x] would turn into a hexadecimal prefix). *)
Lemma parseInt_trailing (s rest : string) :
  isDecimal s = true → s ≠ "0" →
  (∀ c r, rest = String c r → isDigitChar c = false) →
  parseInt (s +:+ rest) = parseInt s.
Proof.
  destruct s as [|c s]; [discriminate|]. intros H Hne Hrest.
  change (isDigitChar c && allDigits s = true) in H.
  pose proof H as Hall.
  apply andb_true_iff in H as [Hc Hs].
  assert (Hnox : ∀ c2 s', c = "0"%char → s = String c2 s' →
                          c2 ≠ "x"%char ∧ c2 ≠ "X"%char).
  { intros c2 s' _ ->. simpl in Hs. apply andb_true_iff in Hs as [Hc2 _].
    by destruct (isDigitChar_facts c2 Hc2) as (_ & _ & _ & _ & _ & Hx2 & HX2). }
  change (String c s +:+ rest) with (String c (s +:+ rest)).
  rewrite !parseInt_digit_start; [|done|done|done|].
  - change (String c (s +:+ rest)) with (String c s +:+ rest).
    by rewrite parseDigits_app.
  - intros c2 s' -> Hs'. destruct s as [|c3 s]; [done|].
    change (String c3 s +:+ rest) with (String c3 (s +:+ rest)) in Hs'.
    injection Hs' as <- _.
    by apply (Hnox c3 s).
Qed.

Lemma getMonthlyRevenue_length (y : Z) (db : Db) :
  length (getMonthlyRevenue y db) = 12%nat.
Proof.
  unfold getMonthlyRevenue. rewrite length_imap.
  apply (fill_months (revenueData y db) (replicate 12 (CNum (Q2Qc 0)))).
  - apply length_replicate.
  - unfold revenueData, sortById. rewrite merge_sort_Permutation. apply group_NoDup.
  - intros k. unfold revenueData, sortById. rewrite merge_sort_Permutation.
    intros [a Ha]%groupOf_is_Some. rewrite groupOf_group_sum in Ha.
    destruct (keyed _ k _) as [|d sel] eqn:E; [discriminate|].
    assert (Hd : d ∈ keyed (λ o, monthNumber (Order.createdAt o)) k
                   (List.filter (matchCompletedIn y) (documents (orders db))))
      by (rewrite E; left).
    apply keyed_elem in Hd. subst k. unfold monthNumber.
    pose proof (monthIndex_lt (Date.month (Order.createdAt d))). lia.
Qed.



Example revenue_route_samples :
  fst (revenueRoute jan1_2025 "abc" emptyDb) = mkResponse 400 (Message "Invalid year")
  ∧ fst (revenueRoute jan1_2025 "1999" emptyDb) = mkResponse 400 (Message "Invalid year")
  ∧ fst (revenueRoute jan1_2025 "2026" emptyDb) = mkResponse 400 (Message "Invalid year")
  ∧ snd (revenueRoute jan1_2025 "2026" emptyDb) = []
  ∧ snd (revenueRoute jan1_2025 "2025" emptyDb) = [2025]
  ∧ parseInt " -0x1F" = Some (-31)
  ∧ parseInt "0x" = None ∧ parseInt "2e3" = Some 2 ∧ parseInt "" = None.
Proof. split_and!; vm_compute; reflexivity. Qed.

(** * Further properties of the order workflow *)

Section OrderWorkflow.
Variable Number_toString : Number → string.
Variable hmacSha512Hex : string → string → string.

Local Abbreviation place := (createOrder Number_toString hmacSha512Hex).

(** X1: an order for an existing, active course by an account that is not
    in the store fails with NotFound and leaves the store as it was. *)
Theorem X1_createOrder_unknown_account (req : Request) (now : Date.t)
    (courseId accountId : N) (course : Course.t) (db : Db) :
  courses db !! courseId = Some course →
  Course.isActive course = true →
  accounts db !! accountId = None →
  place req now (Some courseId) (Some accountId) db
    = (Throw (NotFound "Account not found"), db).
Proof.
  intros Hc Ha Hacc. rewrite createOrder_unfold, Hc, Ha, Hacc. reflexivity.
Qed.

(** What a successful call returns and stores. *)
Lemma createOrder_success req now courseId accountId db r db' :
  place req now courseId accountId db = (Return r, db') →
  ∃ cid aid course acc,
    courseId = Some cid ∧ accountId = Some aid
    ∧ courses db !! cid = Some course ∧ Course.isActive course = true
    ∧ accounts db !! aid = Some acc
    ∧ cr_orderId r = fresh (dom (orders db))
    ∧ db' = dbAfterOrder now cid aid course db.
Proof.
  intros H.
  destruct courseId as [cid|], accountId as [aid|];
    try (rewrite createOrder_missing_id in H by auto; discriminate).
  rewrite createOrder_unfold in H.
  destruct (courses db !! cid) as [course|] eqn:Hc; [|discriminate].
  destruct (Course.isActive course) eqn:Hact; [|discriminate].
  destruct (accounts db !! aid) as [acc|] eqn:Ha; [|discriminate].
  injection H as <- <-. by exists cid, aid, course, acc.
Qed.

Lemma paymentMethodIdFor_lookup db :
  (match findVNPay db with
   | Some _ => paymentmethods db
   | None => <[fresh (dom (paymentmethods db)) := PaymentMethod.mk VNPay]>
               (paymentmethods db)
   end) !! paymentMethodIdFor db = Some (PaymentMethod.mk VNPay).
Proof.
  unfold paymentMethodIdFor.
  destruct (findVNPay db) as [[id p]|] eqn:Hf.
  - apply findVNPay_Some in Hf as [Hp Hn]. rewrite Hp. f_equal.
    destruct p as [n]. simpl in Hn. by subst n.
  - apply lookup_insert_eq.
Qed.

(** X2: after a successful call every reference of the new order and of
    the new order detail resolves in the resulting store: the order's
    account is there, its payment method is a document named VNPay, the
    detail's order is the new order and its course is there and active. *)
Theorem X2_createOrder_references_resolve (req : Request) (now : Date.t)
    (courseId accountId : option N) (db db' : Db) (r : CreateResponse) :
  place req now courseId accountId db = (Return r, db') →
  ∃ o d detailId course,
    orders db' !! cr_orderId r = Some o
    ∧ orderdetails db' !! detailId = Some d
    ∧ orderRefsResolve db' o
    ∧ detailRefsResolve db' d
    ∧ Some (Order.account o) = accountId
    ∧ PaymentMethod.name <$> paymentmethods db' !! Order.paymentMethod o = Some VNPay
    ∧ OrderDetail.order d = cr_orderId r
    ∧ Some (OrderDetail.course d) = courseId
    ∧ courses db' !! OrderDetail.course d = Some course
    ∧ Course.isActive course = true.
Proof.
  intros H.
  apply createOrder_success in H
    as (cid & aid & course & acc & -> & -> & Hc & Hact & Ha & Hid & ->).
  rewrite Hid.
  exists (newOrder now aid course db), (newOrderDetail now cid course db),
    (fresh (dom (orderdetails db))), course.
  unfold orderRefsResolve, detailRefsResolve, dbAfterOrder; simpl.
  rewrite !lookup_insert_eq, paymentMethodIdFor_lookup, Hc, Ha.
  split_and!; eauto.
Qed.

(** X3: the call keeps the VNPay payment method unique, and after a
    success there is one. *)
Theorem X3_createOrder_keeps_one_VNPay (req : Request) (now : Date.t)
    (courseId accountId : option N) (db : Db) :
  atMostOneVNPay db →
  let res := place req now courseId accountId db in
  atMostOneVNPay (snd res)
  ∧ ((∃ r, fst res = Return r) →
     ∃ id, paymentmethods (snd res) !! id = Some (PaymentMethod.mk VNPay)).
Proof.
  intros Hone res. subst res.
  destruct (place req now courseId accountId db) as [[e|r] db'] eqn:H; simpl.
  - split; [|by intros [? ?]].
    (* a failed call writes nothing *)
    destruct courseId as [cid|], accountId as [aid|];
      try (rewrite createOrder_missing_id in H by auto; by injection H as _ <-).
    rewrite createOrder_unfold in H.
    destruct (courses db !! cid) as [course|]; [|by injection H as _ <-].
    destruct (negb (Course.isActive course)); [by injection H as _ <-|].
    destruct (accounts db !! aid); [discriminate|by injection H as _ <-].
  - apply createOrder_success in H
      as (cid & aid & course & acc & -> & -> & Hc & Hact & Ha & Hid & ->).
    split.
    + unfold atMostOneVNPay, dbAfterOrder; simpl.
      destruct (findVNPay db) as [[id p]|] eqn:Hf; [exact Hone|].
      pose proof (findVNPay_None db Hf) as Hnone.
      intros i j p q Hi Hj Hp Hq.
      rewrite lookup_insert in Hi, Hj.
      destruct (decide (fresh (dom (paymentmethods db)) = i)) as [<-|],
               (decide (fresh (dom (paymentmethods db)) = j)) as [<-|];
        [done| | |].
      * by destruct (Hnone j q).
      * by destruct (Hnone i p).
      * by destruct (Hnone i p).
    + intros _. exists (paymentMethodIdFor db). apply paymentMethodIdFor_lookup.
Qed.

(** X4: the order a successful [createOrder] returns can be paid at once by
    the account that placed it, and is then Completed; for any other account
    the same call fails with NotFound and the order stays Pending. *)
Theorem X4_create_then_pay (req : Request) (now later : Date.t)
    (courseId accountId : option N) (db db' : Db) (r : CreateResponse) :
  place req now courseId accountId db = (Return r, db') →
  statusOf db' (cr_orderId r) = Some Pending
  ∧ (∃ resp db'',
       updateOrderStatus later (Some (cr_orderId r)) accountId db'
         = (Return resp, db'')
       ∧ statusOf db'' (cr_orderId r) = Some Completed)
  ∧ (∀ other, other ≠ accountId →
       updateOrderStatus later (Some (cr_orderId r)) other db'
         = (Throw (NotFound "Order not found or unauthorized"), db')).
Proof.
  intros H.
  apply createOrder_success in H
    as (cid & aid & course & acc & -> & -> & Hc & Hact & Ha & Hid & ->).
  rewrite Hid.
  assert (Hnew : orders (dbAfterOrder now cid aid course db)
                   !! fresh (dom (orders db))
                 = Some (newOrder now aid course db))
    by apply lookup_insert_eq.
  split_and!.
  - unfold statusOf. by rewrite Hnew.
  - eexists _, _. rewrite updateOrderStatus_Some, Hnew.
    rewrite decide_True by done. rewrite decide_False by discriminate.
    split; [reflexivity|].
    rewrite statusOf_set_orders_insert, decide_True by done. reflexivity.
  - intros other Hother. rewrite updateOrderStatus_Some, Hnew.
    rewrite decide_False; [reflexivity|]. intros Heq. apply Hother.
    by rewrite <- Heq.
Qed.

(** After a successful call the VNPay document found is the one the call
    used. *)
Lemma findVNPay_after now cid aid course db :
  ∃ p, findVNPay (dbAfterOrder now cid aid course db)
       = Some (paymentMethodIdFor db, p).
Proof.
  set (db1 := dbAfterOrder now cid aid course db).
  assert (Hpm : paymentmethods db1 !! paymentMethodIdFor db
                = Some (PaymentMethod.mk VNPay))
    by apply paymentMethodIdFor_lookup.
  destruct (findVNPay db) as [[id0 p0]|] eqn:Hf0.
  - exists p0. unfold paymentMethodIdFor. rewrite Hf0.
    assert (Hsame : paymentmethods db1 = paymentmethods db)
      by (unfold db1, dbAfterOrder; simpl; by rewrite Hf0).
    unfold findVNPay in *. by rewrite Hsame.
  - destruct (findVNPay db1) as [[id p]|] eqn:Hf1.
    + exists p. f_equal. f_equal.
      apply findVNPay_Some in Hf1 as [Hid Hname].
      unfold paymentMethodIdFor. rewrite Hf0.
      unfold db1, dbAfterOrder in Hid; simpl in Hid. rewrite Hf0 in Hid.
      rewrite lookup_insert in Hid.
      destruct (decide (fresh (dom (paymentmethods db)) = id)); [done|].
      by destruct (findVNPay_None db Hf0 id p).
    + by destruct (findVNPay_None db1 Hf1 _ _ Hpm).
Qed.

(** X6: once a call has succeeded, a further successful call adds no
    payment method; its order gets an id different from the first one and
    refers to the same payment method. *)
Theorem X6_second_order_reuses_VNPay (req1 req2 : Request) (t1 t2 : Date.t)
    (c1 a1 c2 a2 : option N) (db db1 db2 : Db) (r1 r2 : CreateResponse) :
  place req1 t1 c1 a1 db = (Return r1, db1) →
  place req2 t2 c2 a2 db1 = (Return r2, db2) →
  paymentmethods db2 = paymentmethods db1
  ∧ cr_orderId r2 ≠ cr_orderId r1
  ∧ ∃ o1 o2,
      orders db2 !! cr_orderId r1 = Some o1
      ∧ orders db2 !! cr_orderId r2 = Some o2
      ∧ Order.paymentMethod o1 = Order.paymentMethod o2.
Proof.
  intros H1 H2.
  apply createOrder_success in H1
    as (cid1 & aid1 & course1 & acc1 & -> & -> & Hc1 & _ & Ha1 & Hid1 & ->).
  apply createOrder_success in H2
    as (cid2 & aid2 & course2 & acc2 & -> & -> & Hc2 & _ & Ha2 & Hid2 & ->).
  destruct (findVNPay_after t1 cid1 aid1 course1 db) as [p Hf].
  set (db1 := dbAfterOrder t1 cid1 aid1 course1 db) in *.
  assert (Hne : fresh (dom (orders db1)) ≠ fresh (dom (orders db))).
  { intros Heq. pose proof (fresh_lookup_None (orders db1)) as Hnone.
    rewrite Heq in Hnone. unfold db1, dbAfterOrder in Hnone; simpl in Hnone.
    by rewrite lookup_insert_eq in Hnone. }
  rewrite Hid1, Hid2. split_and!.
  - unfold dbAfterOrder at 1; simpl. by rewrite Hf.
  - exact Hne.
  - exists (newOrder t1 aid1 course1 db), (newOrder t2 aid2 course2 db1).
    split_and!.
    + unfold dbAfterOrder at 1; simpl. rewrite lookup_insert_ne by done.
      unfold db1, dbAfterOrder; simpl. apply lookup_insert_eq.
    + unfold dbAfterOrder at 1; simpl. apply lookup_insert_eq.
    + simpl. unfold paymentMethodIdFor at 2. by rewrite Hf.
Qed.
End OrderWorkflow.

(** X5: [updateOrderStatus] touches nothing but the addressed order, and of
    that order only the status and the update time: every other order, every
    other collection, and the order's account, payment method, total amount
    and creation time are as before. *)
Theorem X5_updateOrderStatus_frame (now : Date.t) (orderId accountId : option N)
    (db : Db) :
  let db' := snd (updateOrderStatus now orderId accountId db) in
  accounts db' = accounts db ∧ courses db' = courses db
  ∧ paymentmethods db' = paymentmethods db
  ∧ orderdetails db' = orderdetails db
  ∧ dom (orders db') = dom (orders db)
  ∧ (∀ id, Some id ≠ orderId → orders db' !! id = orders db !! id)
  ∧ (∀ id o o', orders db !! id = Some o → orders db' !! id = Some o' →
       Order.account o' = Order.account o
       ∧ Order.paymentMethod o' = Order.paymentMethod o
       ∧ Order.totalAmount o' = Order.totalAmount o
       ∧ Order.createdAt o' = Order.createdAt o).
Proof.
  assert (Hsame : accounts db = accounts db ∧ courses db = courses db
    ∧ paymentmethods db = paymentmethods db
    ∧ orderdetails db = orderdetails db
    ∧ dom (orders db) = dom (orders db)
    ∧ (∀ id, Some id ≠ orderId → orders db !! id = orders db !! id)
    ∧ (∀ id o o', orders db !! id = Some o → orders db !! id = Some o' →
         Order.account o' = Order.account o
         ∧ Order.paymentMethod o' = Order.paymentMethod o
         ∧ Order.totalAmount o' = Order.totalAmount o
         ∧ Order.createdAt o' = Order.createdAt o)).
  { split_and!; try done. intros id o o' H1 H2. rewrite H1 in H2.
    by injection H2 as <-. }
  destruct orderId as [oid|]; [|exact Hsame].
  rewrite updateOrderStatus_Some.
  destruct (orders db !! oid) as [o|] eqn:Ho; [|exact Hsame].
  destruct (decide (Some (Order.account o) = accountId)); [|exact Hsame].
  destruct (decide (Order.status o = Completed)); [exact Hsame|].
  clear Hsame. simpl. split_and!; try done.
  - rewrite dom_insert_L. apply subseteq_union_1_L, singleton_subseteq_l.
    by apply elem_of_dom_2 in Ho.
  - intros id Hid. rewrite lookup_insert_ne; [done|]. congruence.
  - intros id o1 o1' H1. rewrite lookup_insert.
    destruct (decide (oid = id)) as [<-|].
    + intros [= <-]. rewrite Ho in H1. by injection H1 as <-.
    + intros H2. rewrite H1 in H2. by injection H2 as <-.
Qed.

Lemma X1_createOrder_unknown_account_witness :
  createOrder integerToString lengthDigest req_local jan1_2025 (Some 1%N) (Some 8%N)
    db_shop
  = (Throw (NotFound "Account not found"), db_shop).
Proof.
  apply (X1_createOrder_unknown_account integerToString lengthDigest req_local
           jan1_2025 1%N 8%N course_go db_shop); reflexivity.
Defined.

Lemma X2_createOrder_references_resolve_witness :
  ∃ r db',
    createOrder integerToString lengthDigest req_local jan1_2025 (Some 1%N) (Some 7%N)
      db_shop = (Return r, db')
    ∧ ∃ o d detailId course,
        orders db' !! cr_orderId r = Some o
        ∧ orderdetails db' !! detailId = Some d
        ∧ orderRefsResolve db' o
        ∧ detailRefsResolve db' d
        ∧ Some (Order.account o) = Some 7%N
        ∧ PaymentMethod.name <$> paymentmethods db' !! Order.paymentMethod o
          = Some VNPay
        ∧ OrderDetail.order d = cr_orderId r
        ∧ Some (OrderDetail.course d) = Some 1%N
        ∧ courses db' !! OrderDetail.course d = Some course
        ∧ Course.isActive course = true.
Proof.
  eexists _, _. split; [vm_compute; reflexivity|].
  apply (X2_createOrder_references_resolve integerToString lengthDigest req_local
           jan1_2025 (Some 1%N) (Some 7%N) db_shop).
  vm_compute; reflexivity.
Defined.

Lemma X3_createOrder_keeps_one_VNPay_witness :
  let res := createOrder integerToString lengthDigest req_local jan1_2025
               (Some 1%N) (Some 7%N) db_shop in
  atMostOneVNPay (snd res)
  ∧ ((∃ r, fst res = Return r) →
     ∃ id, paymentmethods (snd res) !! id = Some (PaymentMethod.mk VNPay)).
Proof.
  apply (X3_createOrder_keeps_one_VNPay integerToString lengthDigest req_local
           jan1_2025 (Some 1%N) (Some 7%N) db_shop).
  intros i j p q Hi. vm_compute in Hi. discriminate.
Defined.

Lemma X4_create_then_pay_witness :
  ∃ r db',
    createOrder integerToString lengthDigest req_local jan1_2025 (Some 1%N) (Some 7%N)
      db_shop = (Return r, db')
    ∧ statusOf db' (cr_orderId r) = Some Pending
    ∧ (∃ resp db'',
         updateOrderStatus mar5_2025 (Some (cr_orderId r)) (Some 7%N) db'
           = (Return resp, db'')
         ∧ statusOf db'' (cr_orderId r) = Some Completed)
    ∧ (∀ other, other ≠ Some 7%N →
         updateOrderStatus mar5_2025 (Some (cr_orderId r)) other db'
           = (Throw (NotFound "Order not found or unauthorized"), db')).
Proof.
  eexists _, _. split; [vm_compute; reflexivity|].
  apply (X4_create_then_pay integerToString lengthDigest req_local jan1_2025
           mar5_2025 (Some 1%N) (Some 7%N) db_shop).
  vm_compute; reflexivity.
Defined.

Lemma X6_second_order_reuses_VNPay_witness :
  ∃ r1 db1 r2 db2,
    createOrder integerToString lengthDigest req_local jan1_2025 (Some 1%N) (Some 7%N)
      db_shop = (Return r1, db1)
    ∧ createOrder integerToString lengthDigest req_local mar5_2025 (Some 1%N)
        (Some 9%N) db1 = (Return r2, db2)
    ∧ paymentmethods db2 = paymentmethods db1
    ∧ cr_orderId r2 ≠ cr_orderId r1
    ∧ ∃ o1 o2,
        orders db2 !! cr_orderId r1 = Some o1
        ∧ orders db2 !! cr_orderId r2 = Some o2
        ∧ Order.paymentMethod o1 = Order.paymentMethod o2.
Proof.
  eexists _, _, _, _. split; [vm_compute; reflexivity|].
  split; [vm_compute; reflexivity|].
  apply (X6_second_order_reuses_VNPay integerToString lengthDigest req_local
           req_local jan1_2025 mar5_2025 (Some 1%N) (Some 7%N) (Some 1%N)
           (Some 9%N) db_shop);
    vm_compute; reflexivity.
Defined.

(** * Listing an account's orders *)

Lemma Date_compare_antisym (a b : Date.t) :
  Date.compare b a = CompOpp (Date.compare a b).
Proof.
  unfold Date.compare.
  rewrite (Z.compare_antisym (Date.year a)),
    (Nat.compare_antisym (monthIndex (Date.month a))),
    (Pos.compare_antisym (Date.date a)),
    (N.compare_antisym (Date.hours a)),
    (N.compare_antisym (Date.minutes a)),
    (N.compare_antisym (Date.seconds a)),
    (N.compare_antisym (Date.milliseconds a)).
  destruct (Date.year a ?= Date.year b); simpl; [|done|done].
  destruct (monthIndex (Date.month a) ?= monthIndex (Date.month b))%nat;
    simpl; [|done|done].
  destruct (Date.date a ?= Date.date b)%positive; simpl; [|done|done].
  destruct (Date.hours a ?= Date.hours b)%N; simpl; [|done|done].
  destruct (Date.minutes a ?= Date.minutes b)%N; simpl; [|done|done].
  destruct (Date.seconds a ?= Date.seconds b)%N; simpl; [|done|done].
  done.
Qed.

Global Instance newerFirst_total : Total newerFirst.
Proof.
  intros a b. unfold newerFirst, Date.gte.
  rewrite (Date_compare_antisym (Order.createdAt a.2) (Order.createdAt b.2)).
  destruct (Date.compare (Order.createdAt a.2) (Order.createdAt b.2)); simpl; auto.
Qed.

Lemma filter_Permutation {A} (f : A → bool) (l l' : list A) :
  l ≡ₚ l' → List.filter f l ≡ₚ List.filter f l'.
Proof.
  induction 1 as [|x l l' _ IH|x y l|l l' l'' _ IH1 _ IH2]; simpl.
  - done.
  - destruct (f x); by rewrite IH.
  - destruct (f x), (f y); try done. apply perm_swap.
  - by rewrite IH1.
Qed.

Lemma elem_of_Order_findByAccount db aid id o :
  (id, o) ∈ Order_findByAccount db aid
  ↔ orders db !! id = Some o ∧ Order.account o = aid.
Proof.
  unfold Order_findByAccount, scan. rewrite merge_sort_Permutation.
  rewrite list_elem_of_In, filter_In, <- list_elem_of_In.
  rewrite elem_of_map_to_list. simpl. by rewrite bool_decide_eq_true.
Qed.

Lemma Order_findByAccount_NoDup db aid : NoDup (Order_findByAccount db aid).*1.
Proof.
  unfold Order_findByAccount, scan. rewrite merge_sort_Permutation.
  assert (Hgen : ∀ l : list (N * Order.t), NoDup l.*1 →
            NoDup (List.filter (λ p, bool_decide (Order.account p.2 = aid)) l).*1).
  { induction l as [|x l IH]; [done|]. rewrite fmap_cons.
    intros [Hx Hl]%NoDup_cons. simpl.
    destruct (bool_decide _); [|by apply IH].
    rewrite fmap_cons. apply NoDup_cons. split; [|by apply IH].
    intros Hin. apply Hx. apply list_elem_of_fmap in Hin as [y [-> Hy]].
    apply list_elem_of_fmap. exists y. split; [done|].
    apply list_elem_of_In, filter_In in Hy as [Hy _]. by apply list_elem_of_In. }
  apply Hgen, NoDup_fst_map_to_list.
Qed.

(** X7: [getOrdersByAccount] changes nothing in the store.  Without an
    account id it fails with BadRequest; with one it answers 200 and lists
    the orders whose account is the given one, each exactly once, with the
    stored amount, status and timestamps, and no order of anyone else. *)
Theorem X7_getOrdersByAccount_lists_own_orders (accountId : option N) (db : Db) :
  snd (getOrdersByAccount accountId db) = db
  ∧ (accountId = None →
     fst (getOrdersByAccount accountId db)
       = Throw (BadRequest "Account ID is required"))
  ∧ (∀ aid, accountId = Some aid →
     ∃ data,
       fst (getOrdersByAccount accountId db)
         = Return (mkOrdersResponse 200 "Orders retrieved successfully" data)
       ∧ NoDup (ov_id <$> data)
       ∧ (∀ id, id ∈ ov_id <$> data
                ↔ ∃ o, orders db !! id = Some o ∧ Order.account o = aid)
       ∧ (∀ v, v ∈ data →
            ∃ o, orders db !! ov_id v = Some o
                 ∧ Order.account o = aid
                 ∧ ov_totalAmount v = Order.totalAmount o
                 ∧ ov_status v = Order.status o
                 ∧ ov_createdAt v = Order.createdAt o
                 ∧ ov_updatedAt v = Order.updatedAt o)).
Proof.
  split_and!.
  - by destruct accountId.
  - by intros ->.
  - intros aid ->. eexists. split; [reflexivity|]. split_and!.
    + rewrite <- list_fmap_compose.
      replace (ov_id ∘ orderView db) with (@fst N Order.t) by done.
      apply Order_findByAccount_NoDup.
    + intros id. rewrite <- list_fmap_compose.
      replace (ov_id ∘ orderView db) with (@fst N Order.t) by done.
      rewrite list_elem_of_fmap. split.
      * intros [[id' o] [-> Hin]]. exists o.
        by apply elem_of_Order_findByAccount.
      * intros [o Ho]. exists (id, o). split; [done|].
        by apply elem_of_Order_findByAccount.
    + intros v [[id o] [-> Hin]]%list_elem_of_fmap.
      apply elem_of_Order_findByAccount in Hin as [Ho Ha].
      exists o. by split_and!.
Qed.

(** X8: the orders are listed newest first: no order of the list is
    directly followed by one created later. *)
Theorem X8_getOrdersByAccount_newest_first (aid : N) (db : Db) :
  ∃ data,
    fst (getOrdersByAccount (Some aid) db)
      = Return (mkOrdersResponse 200 "Orders retrieved successfully" data)
    ∧ Sorted viewNewerFirst data.
Proof.
  eexists. split; [reflexivity|].
  apply Sorted_fmap with (R1 := newerFirst).
  - by intros [id1 o1] [id2 o2].
  - apply Sorted_merge_sort, _.
Qed.

Example orders_of_account_7_newest_first :
  ov_createdAt <$> or_data_of (fst (getOrdersByAccount (Some 7%N) db_two_orders))
  = [mar5_2025; jan1_2025].
Proof. vm_compute. reflexivity. Qed.

(** ** References stay resolved *)

Lemma wellReferenced_update now orderId accountId db :
  wellReferenced db →
  wellReferenced (snd (updateOrderStatus now orderId accountId db)).
Proof.
  intros Hwf. destruct orderId as [oid|]; [|exact Hwf].
  rewrite updateOrderStatus_Some.
  destruct (orders db !! oid) as [o|] eqn:Ho; [|exact Hwf].
  destruct (decide (Some (Order.account o) = accountId)); [|exact Hwf].
  destruct (decide (Order.status o = Completed)); [exact Hwf|].
  destruct Hwf as [Hord Hdet]. simpl. split.
  - intros id o'. unfold orderRefsResolve; simpl. rewrite lookup_insert.
    destruct (decide (oid = id)) as [<-|].
    + intros [= <-]. simpl. apply (Hord oid o Ho).
    + apply Hord.
  - intros id d Hd. destruct (Hdet id d Hd) as [Ho' Hc].
    unfold detailRefsResolve; simpl. split; [|done].
    rewrite lookup_insert. destruct (decide (oid = OrderDetail.order d)); eauto.
Qed.

Section OrderListing.
Variable Number_toString : Number → string.
Variable hmacSha512Hex : string → string → string.

Local Abbreviation order := (createOrder Number_toString hmacSha512Hex).

(** X9: if every order's account and payment method and every order
    detail's order and course are in the store, the same holds after
    [createOrder] and after [updateOrderStatus], whatever their outcome. *)
Theorem X9_references_stay_resolved (req : Request) (now : Date.t)
    (courseId accountId orderId : option N) (db : Db) :
  wellReferenced db →
  wellReferenced (snd (order req now courseId accountId db))
  ∧ wellReferenced (snd (updateOrderStatus now orderId accountId db)).
Proof.
  intros Hwf. split; [|by apply wellReferenced_update].
  destruct (order req now courseId accountId db) as [[e|r] db'] eqn:H; simpl.
  - destruct courseId as [cid|], accountId as [aid|];
      try (rewrite createOrder_missing_id in H by auto; by injection H as _ <-).
    rewrite createOrder_unfold in H.
    destruct (courses db !! cid) as [course|]; [|by injection H as _ <-].
    destruct (negb (Course.isActive course)); [by injection H as _ <-|].
    destruct (accounts db !! aid); [discriminate|by injection H as _ <-].
  - apply createOrder_success in H
      as (cid & aid & course & acc & -> & -> & Hc & Hact & Ha & Hid & ->).
    destruct Hwf as [Hord Hdet].
    assert (Hpm : ∀ i, is_Some (paymentmethods db !! i) →
              is_Some (paymentmethods (dbAfterOrder now cid aid course db) !! i)).
    { intros i Hi. unfold dbAfterOrder; simpl.
      destruct (findVNPay db); [done|]. rewrite lookup_insert.
      by destruct (decide _). }
    split.
    + intros id o. unfold orderRefsResolve.
      unfold dbAfterOrder at 1; simpl. rewrite lookup_insert.
      destruct (decide (fresh (dom (orders db)) = id)) as [<-|].
      * intros [= <-]. simpl. rewrite Ha. split; [eauto|].
        unfold dbAfterOrder; simpl. rewrite paymentMethodIdFor_lookup. eauto.
      * intros Ho. destruct (Hord id o Ho) as [H1 H2]. split; [done|].
        by apply Hpm.
    + intros id d. unfold detailRefsResolve, dbAfterOrder; simpl.
      rewrite lookup_insert.
      destruct (decide (fresh (dom (orderdetails db)) = id)) as [<-|].
      * intros [= <-]. simpl. rewrite lookup_insert_eq, Hc. eauto.
      * intros Hd. destruct (Hdet id d Hd) as [H1 H2]. split; [|done].
        rewrite lookup_insert. by destruct (decide _).
Qed.

(** X10: in a store whose references resolve, the order a successful
    [createOrder] returns shows up in the caller's list: Pending, with the
    course's price as total, paid through VNPay, and with exactly one detail,
    which shows the course with its name, price and image, quantity 1, not
    finished. *)
Theorem X10_created_order_is_listed (req : Request) (now : Date.t)
    (courseId accountId : option N) (db db' : Db) (r : CreateResponse) :
  wellReferenced db →
  order req now courseId accountId db = (Return r, db') →
  ∃ data v cid course,
    fst (getOrdersByAccount accountId db')
      = Return (mkOrdersResponse 200 "Orders retrieved successfully" data)
    ∧ v ∈ data
    ∧ courseId = Some cid ∧ courses db !! cid = Some course
    ∧ ov_id v = cr_orderId r
    ∧ ov_status v = Pending
    ∧ ov_totalAmount v = Course.price course
    ∧ ar_id <$> ov_account v = accountId
    ∧ pmr_name <$> ov_paymentMethod v = Some VNPay
    ∧ ov_orderDetails v
      = [mkDetailView
           (Some (mkCourseRef cid (Course.name course) (Course.price course)
                    (Course.image course)))
           (Q2Qc 1) (Course.price course) false None None].
Proof.
  intros [Hord Hdet] H.
  apply createOrder_success in H
    as (cid & aid & course & acc & -> & -> & Hc & Hact & Ha & Hid & ->).
  set (db' := dbAfterOrder now cid aid course db).
  set (oid := fresh (dom (orders db))) in *.
  assert (Hnew : orders db' !! oid = Some (newOrder now aid course db))
    by apply lookup_insert_eq.
  exists (orderView db' <$> Order_findByAccount db' aid),
    (orderView db' (oid, newOrder now aid course db)), cid, course.
  split_and!; try done.
  - apply list_elem_of_fmap. eexists; split; [reflexivity|].
    by apply elem_of_Order_findByAccount.
  - simpl. apply Qcmult_1_r.
  - simpl. unfold populateAccount. unfold db' at 1, dbAfterOrder; simpl.
    by rewrite Ha.
  - simpl. unfold populatePaymentMethod. unfold db' at 1, dbAfterOrder; simpl.
    by rewrite paymentMethodIdFor_lookup.
  - simpl. unfold OrderDetail_findByOrder.
    assert (Hdocs : documents (orderdetails db')
                    ≡ₚ newOrderDetail now cid course db
                       :: documents (orderdetails db)).
    { unfold documents, scan, db', dbAfterOrder; simpl.
      rewrite map_to_list_insert by apply fresh_lookup_None. done. }
    assert (Hold : List.filter (λ d, bool_decide (OrderDetail.order d = oid))
                     (documents (orderdetails db)) = []).
    { apply filter_none. intros d [id Hd]%elem_of_documents.
      apply bool_decide_eq_false. intros Heq.
      destruct (Hdet id d Hd) as [[o Ho] _]. rewrite Heq in Ho.
      unfold oid in Ho. by rewrite fresh_lookup_None in Ho. }
    assert (Hone : List.filter (λ d, bool_decide (OrderDetail.order d = oid))
                     (documents (orderdetails db'))
                   = [newOrderDetail now cid course db]).
    { apply Permutation_singleton_r.
      rewrite (filter_Permutation _ _ _ Hdocs). simpl.
      rewrite bool_decide_eq_true_2 by done. by rewrite Hold. }
    rewrite Hone. simpl. unfold detailView, populateCourse; simpl.
    unfold db', dbAfterOrder; simpl. by rewrite Hc.
Qed.
End OrderListing.

(** The shop after one purchase holds references that all resolve. *)
Lemma db_unfinished_wellReferenced : wellReferenced db_unfinished.
Proof.
  split; intros id x Hx.
  - destruct (decide (id = 1%N)) as [->|Hne].
    + injection Hx as <-. split; by eexists.
    + unfold db_unfinished in Hx; cbn [orders] in Hx.
      rewrite lookup_insert_ne, lookup_empty in Hx by done. discriminate.
  - destruct (decide (id = 1%N)) as [->|Hne].
    + injection Hx as <-. split; by eexists.
    + unfold db_unfinished in Hx; cbn [orderdetails] in Hx.
      rewrite lookup_insert_ne, lookup_empty in Hx by done. discriminate.
Qed.

Lemma X9_references_stay_resolved_witness :
  wellReferenced db_unfinished
  ∧ wellReferenced
      (snd (createOrder integerToString lengthDigest req_local mar5_2025
              (Some 1%N) (Some 7%N) db_unfinished))
  ∧ wellReferenced
      (snd (updateOrderStatus mar5_2025 (Some 1%N) (Some 7%N) db_unfinished)).
Proof.
  split; [exact db_unfinished_wellReferenced|].
  exact (X9_references_stay_resolved integerToString lengthDigest req_local
           mar5_2025 (Some 1%N) (Some 7%N) (Some 1%N) db_unfinished
           db_unfinished_wellReferenced).
Defined.

Lemma X10_created_order_is_listed_witness :
  ∃ r db',
    createOrder integerToString lengthDigest req_local mar5_2025 (Some 1%N)
      (Some 7%N) db_unfinished = (Return r, db')
    ∧ ∃ data v cid course,
        fst (getOrdersByAccount (Some 7%N) db')
          = Return (mkOrdersResponse 200 "Orders retrieved successfully" data)
        ∧ v ∈ data
        ∧ Some 1%N = Some cid ∧ courses db_unfinished !! cid = Some course
        ∧ ov_id v = cr_orderId r
        ∧ ov_status v = Pending
        ∧ ov_totalAmount v = Course.price course
        ∧ ar_id <$> ov_account v = Some 7%N
        ∧ pmr_name <$> ov_paymentMethod v = Some VNPay
        ∧ ov_orderDetails v
          = [mkDetailView
               (Some (mkCourseRef cid (Course.name course) (Course.price course)
                        (Course.image course)))
               (Q2Qc 1) (Course.price course) false None None].
Proof.
  eexists _, _. split; [vm_compute; reflexivity|].
  apply (X10_created_order_is_listed integerToString lengthDigest req_local
           mar5_2025 (Some 1%N) (Some 7%N) db_unfinished);
    [exact db_unfinished_wellReferenced|vm_compute; reflexivity].
Defined.

(** * Statistics *)

(** ** [$group] with any accumulator *)

Lemma groupOf_group {D K A} `{EqDecision K} (key : D → K) (step : option A → D → A)
    (docs : list D) (k : K) :
  groupOf k (group key step docs) = accumulate step (keyed key k docs).
Proof.
  unfold group, accumulate.
  assert (Hgen : ∀ g,
    groupOf k (foldl (λ g d, groupInsert (key d) (λ a, step a d) g) g docs)
    = foldl (λ a d, Some (step a d)) (groupOf k g) (keyed key k docs)).
  { induction docs as [|d docs IH]; intros g; [reflexivity|].
    simpl. rewrite IH, groupOf_groupInsert. unfold keyed; simpl.
    destruct (decide (key d = k)) as [Hk|Hk].
    - by rewrite bool_decide_eq_true_2.
    - by rewrite bool_decide_eq_false_2. }
  apply Hgen.
Qed.

Lemma accumulate_count {D} (l : list D) :
  accumulate countStep l = match l with [] => None | _ => Some (length l) end.
Proof.
  unfold accumulate.
  assert (Hgen : ∀ a, foldl (λ a d, Some (countStep a d)) a l
            = match l with
              | [] => a
              | _ => Some (default 0 a + length l)%nat
              end).
  { induction l as [|d l IH]; intros a; [reflexivity|].
    simpl. rewrite IH. unfold countStep. destruct l; simpl; f_equal; lia. }
  rewrite Hgen. by destruct l.
Qed.

Lemma group_count {D K} `{EqDecision K} (key : D → K) (docs : list D) (k : K) :
  default 0%nat (groupOf k (group key countStep docs))
  = countWhere (λ d, bool_decide (key d = k)) docs.
Proof.
  rewrite groupOf_group, accumulate_count. unfold countWhere, keyed.
  by destruct (List.filter _ docs).
Qed.

(** A group exists exactly for the keys that occur. *)
Lemma group_keys {D K A} `{EqDecision K} (key : D → K) (step : option A → D → A)
    (docs : list D) (k : K) :
  k ∈ (group key step docs).*1 ↔ ∃ d, d ∈ docs ∧ key d = k.
Proof.
  split.
  - intros [a Ha]%groupOf_is_Some. rewrite groupOf_group in Ha.
    destruct (keyed key k docs) as [|d sel] eqn:E; [discriminate|].
    exists d. assert (Hd : d ∈ keyed key k docs) by (rewrite E; left).
    split; [|by apply keyed_elem in Hd].
    unfold keyed in Hd. by apply list_elem_of_In, filter_In in Hd as [?%list_elem_of_In _].
  - intros (d & Hd & Hk).
    destruct (groupOf k (group key step docs)) as [a|] eqn:E.
    + apply groupOf_Some_iff in E; [|apply group_NoDup].
      apply list_elem_of_fmap. by exists (k, a).
    + rewrite groupOf_group in E. unfold accumulate in E.
      assert (Hin : d ∈ keyed key k docs).
      { unfold keyed. apply list_elem_of_In, filter_In. split.
        - by apply list_elem_of_In.
        - by apply bool_decide_eq_true. }
      destruct (keyed key k docs) as [|d' sel]; [by apply not_elem_of_nil in Hin|].
      simpl in E. exfalso. clear Hin. revert E. generalize (step None d').
      induction sel as [|x sel IH]; intros a; simpl; [discriminate|apply IH].
Qed.

Lemma countWhere_split {A} (f g : A → bool) (l : list A) :
  (∀ x, g x = negb (f x)) → (countWhere f l + countWhere g l = length l)%nat.
Proof.
  intros Hfg. unfold countWhere. induction l as [|x l IH]; [reflexivity|].
  simpl. rewrite (Hfg x). destruct (f x); simpl; lia.
Qed.

Lemma documents_length {A} (c : gmap N A) : length (documents c) = size c.
Proof. unfold documents, scan. by rewrite length_fmap, length_map_to_list. Qed.

(** ** Status counts *)

(** Writing the groups of a two-valued key into an object that has both
    names: each name ends up with its group's count, or keeps 0. *)
Lemma fill_two_names {K} `{EqDecision K} (x y : K) (nx ny : string)
    (name : K → string) (g : list (K * nat)) :
  x ≠ y → (∀ k, k = x ∨ k = y) → name x = nx → name y = ny → nx ≠ ny →
  NoDup g.*1 →
  foldl (λ result stat, objSet result (name stat.1) stat.2)
    [(nx, 0%nat); (ny, 0%nat)] g
  = [(nx, default 0%nat (groupOf x g)); (ny, default 0%nat (groupOf y g))].
Proof.
  intros Hxy Hall <- <- Hn Hnd.
  assert (Exx : String.eqb (name x) (name x) = true) by apply String.eqb_refl.
  assert (Eyy : String.eqb (name y) (name y) = true) by apply String.eqb_refl.
  assert (Exy : String.eqb (name x) (name y) = false) by by apply String.eqb_neq.
  assert (Eyx : String.eqb (name y) (name x) = false)
    by (apply String.eqb_neq; congruence).
  destruct g as [|[k1 v1] g]; [reflexivity|].
  rewrite fmap_cons in Hnd. apply NoDup_cons in Hnd as [H1 Hnd].
  destruct g as [|[k2 v2] g].
  - simpl. rewrite !groupOf_cons.
    destruct (Hall k1) as [-> | ->]; simpl.
    + rewrite Exx. rewrite (decide_True (P := x = x)) by done.
      rewrite (decide_False (P := x = y)) by done. reflexivity.
    + rewrite Exy, Eyy. rewrite (decide_False (P := y = x)) by done.
      rewrite (decide_True (P := y = y)) by done. reflexivity.
  - rewrite fmap_cons in Hnd, H1. apply NoDup_cons in Hnd as [H2 Hnd].
    apply not_elem_of_cons in H1 as [H12 H1]. simpl in H12.
    destruct g as [|[k3 v3] g].
    + simpl. rewrite !groupOf_cons.
      destruct (Hall k1) as [-> | ->], (Hall k2) as [-> | ->]; try done; simpl.
      * rewrite Exx. simpl. rewrite Exy, Eyy.
        rewrite (decide_True (P := x = x)) by done.
        rewrite (decide_False (P := x = y)) by done.
        rewrite (decide_True (P := y = y)) by done. reflexivity.
      * rewrite Exy, Eyy. simpl. rewrite Exx.
        rewrite (decide_False (P := y = x)) by done.
        rewrite (decide_True (P := x = x)) by done.
        rewrite (decide_True (P := y = y)) by done. reflexivity.
    + exfalso. rewrite fmap_cons in H1, H2.
      apply not_elem_of_cons in H1 as [H13 _].
      apply not_elem_of_cons in H2 as [H23 _]. simpl in *.
      destruct (Hall k1), (Hall k2), (Hall k3); congruence.
Qed.

(** X11: [getAccountStatusStats] returns the object with both keys, Active
    with the number of Active accounts and Inactive with the number of
    Inactive ones; the two add up to the number of accounts. *)
Theorem X11_account_status_counts (db : Db) :
  let active := countWhere (λ a, bool_decide (Account.status a = Active))
                  (documents (accounts db)) in
  let inactive := countWhere (λ a, bool_decide (Account.status a = Inactive))
                    (documents (accounts db)) in
  getAccountStatusStats db = [("Active", active); ("Inactive", inactive)]
  ∧ (active + inactive = size (accounts db))%nat.
Proof.
  intros active inactive. split.
  - unfold getAccountStatusStats.
    rewrite (fill_two_names Active Inactive "Active" "Inactive");
      try done.
    + by rewrite !group_count.
    + intros []; auto.
    + apply group_NoDup.
  - rewrite <- documents_length. apply countWhere_split.
    intros a. by destruct (Account.status a).
Qed.

(** X12: both course statistics return the object with both keys, the
    count of active courses and the count of inactive ones, which add up to
    the number of courses; the two services differ in the case of the keys
    only. *)
Theorem X12_course_status_counts (db : Db) :
  let active := countWhere (λ c, bool_decide (Course.isActive c = true))
                  (documents (courses db)) in
  let inactive := countWhere (λ c, bool_decide (Course.isActive c = false))
                    (documents (courses db)) in
  getCourseStatusStats db = [("Active", active); ("Inactive", inactive)]
  ∧ getCourseStats db = [("active", active); ("inactive", inactive)]
  ∧ (active + inactive = size (courses db))%nat.
Proof.
  intros active inactive. split_and!.
  - unfold getCourseStatusStats.
    rewrite (fill_two_names true false "Active" "Inactive"
               (λ b : bool, if b then "Active" else "Inactive")); try done.
    + by rewrite !group_count.
    + intros []; auto.
    + apply group_NoDup.
  - unfold getCourseStats.
    rewrite (fill_two_names true false "active" "inactive"
               (λ b : bool, if b then "active" else "inactive")); try done.
    + by rewrite !group_count.
    + intros []; auto.
    + apply group_NoDup.
  - rewrite <- documents_length. apply countWhere_split.
    intros c. by destruct (Course.isActive c).
Qed.

(** ** [getAccountStats] *)

Lemma nonAdmin_role (a : Account.t) : nonAdmin a = true ↔ Account.role a ≠ Admin.
Proof.
  unfold nonAdmin. rewrite bool_decide_eq_true.
  destruct (Account.role a); split; try done.
  - by intros [?|[?|?%not_elem_of_nil]%elem_of_cons]%elem_of_cons.
  - intros _. left.
  - intros _. right. left.
Qed.

(** X13: [getAccountStats] returns the all-zero object when no account has
    role Tutor or User.  As soon as one has, it ends in a TypeError: the
    object has the keys [tutors] and [users], the lower-cased role names are
    [tutor] and [user], and the count is assigned into a property of
    [undefined]; the route then answers 500. *)
Theorem X13_account_stats_throws (db : Db) :
  ((∀ id a, accounts db !! id = Some a → Account.role a = Admin) →
   getAccountStats db = Normal accountStatsInit ∧ accountStatsRoute db = 200)
  ∧ ((∃ id a, accounts db !! id = Some a ∧ Account.role a ≠ Admin) →
     getAccountStats db = TypeError ∧ accountStatsRoute db = 500).
Proof.
  unfold accountStatsRoute, getAccountStats. fold nonAdmin. split.
  - intros Hadmin.
    rewrite (filter_none nonAdmin).
    + by split.
    + intros a [id Ha]%elem_of_documents.
      destruct (nonAdmin a) eqn:E; [|done].
      apply nonAdmin_role in E. by destruct E; apply (Hadmin id).
  - intros (id & a & Ha & Hrole).
    set (docs := List.filter nonAdmin (documents (accounts db))).
    set (stats := group (λ a, (Account.role a, Account.status a)) countStep docs).
    assert (Hin : a ∈ docs).
    { apply list_elem_of_In, filter_In. split.
      - apply list_elem_of_In, elem_of_documents. eauto.
      - by apply nonAdmin_role. }
    assert (Hkey : (Account.role a, Account.status a) ∈ stats.*1)
      by (apply group_keys; eauto).
    destruct stats as [|[[r s] n] rest] eqn:Hstats;
      [by apply not_elem_of_nil in Hkey|].
    assert (Hr : r ≠ Admin).
    { assert (Hk : (r, s) ∈ stats.*1) by (rewrite Hstats; left).
      apply group_keys in Hk as (d & Hd & Hk). injection Hk as <- _.
      apply nonAdmin_role.
      by apply list_elem_of_In, filter_In in Hd as [_ Hd]. }
    assert (Hstuck : ∀ l : list ((Role * AccountStatus) * nat),
      foldl (λ acc (stat : (Role * AccountStatus) * nat),
               match acc with
               | TypeError => TypeError
               | Normal result =>
                 match objGet result (toLowerCase (Role_name stat.1.1)) with
                 | None => TypeError
                 | Some inner =>
                   Normal (objSet result (toLowerCase (Role_name stat.1.1))
                             (objSet inner
                                (toLowerCase (AccountStatus_name stat.1.2)) stat.2))
                 end
               end) TypeError l = TypeError).
    { induction l as [|x l IH]; [done|]. simpl. apply IH. }
    cbn [foldl].
    assert (Hfirst : objGet accountStatsInit (toLowerCase (Role_name r)) = None)
      by (by destruct r).
    cbn [fst snd]. rewrite Hfirst, Hstuck. by split.
Qed.

Example account_stats_samples :
  getAccountStats emptyDb = Normal accountStatsInit
  ∧ getAccountStats db_shop = TypeError
  ∧ getAccountStatusStats db_shop = [("Active", 2%nat); ("Inactive", 0%nat)]
  ∧ getCourseStatusStats db_shop = [("Active", 1%nat); ("Inactive", 1%nat)].
Proof. split_and!; vm_compute; reflexivity. Qed.

(** * Who the top performers are *)

Lemma elem_of_lookupUnwind {D F} (from : gmap N F) (field : D → N) (docs : list D)
    (d : D) (f : F) :
  (d, f) ∈ lookupUnwind from field docs ↔ d ∈ docs ∧ from !! field d = Some f.
Proof.
  unfold lookupUnwind. rewrite list_elem_of_omap. split.
  - intros (d' & Hd' & Hb). destruct (from !! field d') eqn:E; [|done].
    simpl in Hb. injection Hb as -> ->. done.
  - intros [Hd Hf]. exists d. split; [done|]. by rewrite Hf.
Qed.

Global Instance countGe_total {A} (count : A → nat) : Total (countGe count).
Proof. intros a b. unfold countGe. lia. Qed.
Global Instance countGe_trans {A} (count : A → nat) : Transitive (countGe count).
Proof. intros a b c. unfold countGe. lia. Qed.

(** After the descending sort the first document has the largest count. *)
Lemma sortByCountDesc_head {A} (count : A → nat) (l : list A) (h : A) (rest : list A) :
  sortByCountDesc count l = h :: rest →
  h ∈ l ∧ ∀ x, x ∈ l → (count x ≤ count h)%nat.
Proof.
  intros Hs.
  assert (Hp : h :: rest ≡ₚ l)
    by (rewrite <- Hs; apply merge_sort_Permutation).
  assert (Hss : StronglySorted (countGe count) (h :: rest))
    by (rewrite <- Hs; apply StronglySorted_merge_sort; apply _).
  split; [rewrite <- Hp; left|].
  intros x Hx. rewrite <- Hp in Hx. apply StronglySorted_inv in Hss as [_ Hall].
  apply elem_of_cons in Hx as [->|Hx]; [done|].
  rewrite Forall_forall in Hall. by apply Hall.
Qed.

Lemma sortByCountDesc_nil {A} (count : A → nat) (l : list A) :
  sortByCountDesc count l = [] → l = [].
Proof.
  intros Hs. apply Permutation_nil_r. rewrite <- Hs.
  symmetry. apply merge_sort_Permutation.
Qed.

Lemma accumulate_tutorStep (x : (OrderDetail.t * Course.t) * Account.t)
    (l : list ((OrderDetail.t * Course.t) * Account.t)) :
  accumulate tutorStep (x :: l)
  = Some (mkTutorGroup (Account.fullName x.2) (Account.email x.2) (S (length l))).
Proof.
  unfold accumulate. simpl.
  assert (Hgen : ∀ n,
    foldl (λ a d, Some (tutorStep a d))
      (Some (mkTutorGroup (Account.fullName x.2) (Account.email x.2) n)) l
    = Some (mkTutorGroup (Account.fullName x.2) (Account.email x.2)
              (n + length l))).
  { induction l as [|y l IH]; intros n; simpl.
    - f_equal. f_equal. lia.
    - rewrite IH. f_equal. f_equal. lia. }
  rewrite Hgen. reflexivity.
Qed.

Section TopTutor.
Variable db : Db.

(** The documents that reach the [$group] stage of [getTopTutor]. *)
Let joined (l : list OrderDetail.t) : list ((OrderDetail.t * Course.t) * Account.t) :=
  List.filter (λ p : (OrderDetail.t * Course.t) * Account.t,
                 bool_decide (Account.role p.2 = Tutor))
    (lookupUnwind (accounts db)
       (λ p : OrderDetail.t * Course.t, Course.createdBy p.2)
       (lookupUnwind (courses db) OrderDetail.course
          (List.filter OrderDetail.isFinishCourse l))).

Let tutorKey (p : (OrderDetail.t * Course.t) * Account.t) : N :=
  Course.createdBy p.1.2.

(** The same, one order detail at a time. *)
Let joinOne (d : OrderDetail.t) : option ((OrderDetail.t * Course.t) * Account.t) :=
  if OrderDetail.isFinishCourse d then
    match courses db !! OrderDetail.course d with
    | Some c =>
      match accounts db !! Course.createdBy c with
      | Some a => if bool_decide (Account.role a = Tutor) then Some ((d, c), a) else None
      | None => None
      end
    | None => None
    end
  else None.

Lemma joined_omap l : joined l = omap joinOne l.
Proof.
  unfold joined, lookupUnwind, joinOne.
  induction l as [|d l IH]; [reflexivity|].
  cbn [List.filter omap list_omap].
  destruct (OrderDetail.isFinishCourse d); [|exact IH].
  cbn [omap list_omap].
  destruct (courses db !! OrderDetail.course d) as [c|];
    cbn [mbind option_bind omap list_omap]; [|exact IH].
  cbn [snd].
  destruct (accounts db !! Course.createdBy c) as [a|];
    cbn [mbind option_bind List.filter]; [|exact IH].
  cbn [snd].
  destruct (bool_decide (Account.role a = Tutor)); [|exact IH].
  by rewrite IH.
Qed.

Lemma joined_account l p :
  p ∈ joined l →
  accounts db !! tutorKey p = Some p.2 ∧ Account.role p.2 = Tutor.
Proof.
  rewrite joined_omap, list_elem_of_omap. intros (d & _ & Hd).
  unfold joinOne in Hd.
  destruct (OrderDetail.isFinishCourse d); [|done].
  destruct (courses db !! OrderDetail.course d) as [c|]; [|done].
  destruct (accounts db !! Course.createdBy c) as [a|] eqn:Ha; [|done].
  destruct (bool_decide (Account.role a = Tutor)) eqn:Hr; [|done].
  injection Hd as <-. unfold tutorKey. simpl.
  by apply bool_decide_eq_true in Hr.
Qed.

Lemma joined_count l tid acc :
  accounts db !! tid = Some acc → Account.role acc = Tutor →
  length (keyed tutorKey tid (joined l)) = countWhere (finishedCourseOf db tid) l.
Proof.
  intros Hacc Hrole. rewrite joined_omap. unfold keyed, countWhere.
  induction l as [|d l IH]; [reflexivity|].
  cbn [omap list_omap List.filter]. unfold joinOne at 1, finishedCourseOf at 1.
  destruct (OrderDetail.isFinishCourse d); simpl; [|exact IH].
  destruct (courses db !! OrderDetail.course d) as [c|]; simpl; [|exact IH].
  destruct (accounts db !! Course.createdBy c) as [a|] eqn:Ha.
  - destruct (bool_decide (Account.role a = Tutor)) eqn:Hr.
    + cbn [List.filter]. unfold tutorKey at 1. simpl.
      destruct (bool_decide (Course.createdBy c = tid)); simpl; by rewrite IH.
    + rewrite bool_decide_eq_false_2; [exact IH|].
      intros Heq. rewrite Heq, Hacc in Ha. injection Ha as <-.
      by rewrite Hrole, bool_decide_eq_true_2 in Hr.
  - rewrite bool_decide_eq_false_2; [exact IH|].
    intros Heq. by rewrite Heq, Hacc in Ha.
Qed.

Let grouped : list (N * TutorGroup) :=
  group tutorKey tutorStep (joined (documents (orderdetails db))).

Lemma getTopTutor_unfold :
  getTopTutor db
  = head ((λ g : N * TutorGroup,
             mkTopTutor (tg_fullName g.2) (tg_email g.2) (tg_completedCourses g.2))
            <$> take 1 (sortByCountDesc
                          (λ g : N * TutorGroup, tg_completedCourses g.2) grouped)).
Proof. reflexivity. Qed.

(** The group of a tutor: its name and email, and the tutor's count. *)
Lemma grouped_elem tid g :
  (tid, g) ∈ grouped →
  ∃ acc, accounts db !! tid = Some acc ∧ Account.role acc = Tutor
         ∧ tg_fullName g = Account.fullName acc
         ∧ tg_email g = Account.email acc
         ∧ tg_completedCourses g = finishedFor db tid
         ∧ (0 < finishedFor db tid)%nat.
Proof.
  intros Hin. apply groupOf_Some_iff in Hin; [|apply group_NoDup].
  unfold grouped in Hin. rewrite groupOf_group in Hin.
  destruct (keyed tutorKey tid (joined (documents (orderdetails db))))
    as [|x sel] eqn:E; [discriminate|].
  rewrite accumulate_tutorStep in Hin. injection Hin as <-.
  assert (Hx : x ∈ keyed tutorKey tid (joined (documents (orderdetails db))))
    by (rewrite E; left).
  pose proof (keyed_elem _ _ _ _ Hx) as Hk.
  unfold keyed in Hx. apply list_elem_of_In, filter_In in Hx as [Hx _].
  apply list_elem_of_In, joined_account in Hx as [Ha Hr]. rewrite Hk in Ha.
  exists x.2. simpl. unfold finishedFor.
  rewrite <- (joined_count _ tid x.2 Ha Hr), E. simpl. split_and!; try done; lia.
Qed.

Lemma grouped_has tid acc :
  accounts db !! tid = Some acc → Account.role acc = Tutor →
  (0 < finishedFor db tid)%nat →
  ∃ g, (tid, g) ∈ grouped ∧ tg_completedCourses g = finishedFor db tid.
Proof.
  intros Ha Hr Hpos. unfold finishedFor in Hpos.
  rewrite <- (joined_count _ tid acc Ha Hr) in Hpos.
  destruct (keyed tutorKey tid (joined (documents (orderdetails db))))
    as [|x sel] eqn:E; [simpl in Hpos; lia|].
  exists (mkTutorGroup (Account.fullName x.2) (Account.email x.2) (S (length sel))).
  split.
  - apply groupOf_Some_iff; [apply group_NoDup|].
    unfold grouped. by rewrite groupOf_group, E, accumulate_tutorStep.
  - simpl. unfold finishedFor. by rewrite <- (joined_count _ tid acc Ha Hr), E.
Qed.

(** X14: [getTopTutor] returns null exactly when no tutor in the store has
    a finished order detail on a course of theirs.  Otherwise it returns
    the name and email of a tutor of the store together with that tutor's
    number of such order details, which is positive and not exceeded by any
    other tutor's. *)
Theorem X14_top_tutor_is_a_maximum :
  (getTopTutor db = None
   ↔ ∀ tid acc, accounts db !! tid = Some acc → Account.role acc = Tutor →
                finishedFor db tid = 0%nat)
  ∧ (∀ t, getTopTutor db = Some t →
       ∃ tid acc,
         accounts db !! tid = Some acc ∧ Account.role acc = Tutor
         ∧ tt_fullName t = Account.fullName acc
         ∧ tt_email t = Account.email acc
         ∧ tt_completedCourses t = finishedFor db tid
         ∧ (0 < tt_completedCourses t)%nat
         ∧ ∀ tid' acc', accounts db !! tid' = Some acc' →
             Account.role acc' = Tutor →
             (finishedFor db tid' ≤ tt_completedCourses t)%nat).
Proof.
  rewrite getTopTutor_unfold.
  destruct (sortByCountDesc (λ g : N * TutorGroup, tg_completedCourses g.2) grouped)
    as [|[tid g] rest] eqn:Hs.
  - apply sortByCountDesc_nil in Hs. split; [|discriminate].
    split; [|done]. intros _ tid acc Ha Hr.
    destruct (finishedFor db tid) as [|n] eqn:E; [done|].
    destruct (grouped_has tid acc Ha Hr) as (g & Hg & _); [lia|].
    rewrite Hs in Hg. by apply not_elem_of_nil in Hg.
  - apply sortByCountDesc_head in Hs as [Hin Hmax].
    destruct (grouped_elem tid g Hin) as (acc & Ha & Hr & Hn & He & Hc & Hpos).
    split.
    + split; [discriminate|]. intros Hzero.
      rewrite (Hzero tid acc Ha Hr) in Hpos. lia.
    + intros t [= <-]. simpl. exists tid, acc.
      split_and!; try done; [lia|].
      intros tid' acc' Ha' Hr'.
      destruct (finishedFor db tid') as [|n] eqn:E; [lia|].
      destruct (grouped_has tid' acc' Ha' Hr') as (g' & Hg' & Hc'); [lia|].
      specialize (Hmax _ Hg'). simpl in Hmax. rewrite E in Hc'. lia.
Qed.
End TopTutor.

Section TopAccount.
Variable db : Db.

(** The documents that reach the [$group] stage of
    [getTopAccountByCompletedCourses]. *)
Let withOrder (l : list OrderDetail.t) : list (OrderDetail.t * Order.t) :=
  lookupUnwind (orders db) OrderDetail.order
    (List.filter OrderDetail.isFinishCourse l).

Let buyer (p : OrderDetail.t * Order.t) : N := Order.account p.2.

Lemma withOrder_count l aid :
  length (keyed buyer aid (withOrder l)) = countWhere (finishedOrderOf db aid) l.
Proof.
  unfold withOrder, lookupUnwind, keyed, countWhere.
  induction l as [|d l IH]; [reflexivity|].
  cbn [List.filter omap list_omap]. unfold finishedOrderOf at 1.
  destruct (OrderDetail.isFinishCourse d); [|exact IH].
  cbn [omap list_omap andb].
  destruct (orders db !! OrderDetail.order d) as [o|];
    cbn [mbind option_bind List.filter]; [|exact IH].
  unfold buyer at 1. cbn [snd].
  destruct (bool_decide (Order.account o = aid)); simpl; by rewrite IH.
Qed.

Let grouped : list (N * nat) :=
  group buyer countStep (withOrder (documents (orderdetails db))).

Lemma getTopAccount_unfold :
  getTopAccountByCompletedCourses db
  = head ((λ p : (N * nat) * Account.t,
             mkTopAccount p.1.1 p.1.1 (Account.fullName p.2) (Account.email p.2)
               p.1.2)
            <$> lookupUnwind (accounts db) (λ g : N * nat, g.1)
                  (take 1 (sortByCountDesc snd grouped))).
Proof. reflexivity. Qed.

Lemma grouped_buyer aid n :
  (aid, n) ∈ grouped ↔ n = completedBy db aid ∧ (0 < n)%nat.
Proof.
  rewrite <- groupOf_Some_iff by apply group_NoDup.
  unfold grouped, completedBy.
  rewrite groupOf_group, accumulate_count, <- withOrder_count.
  destruct (keyed buyer aid (withOrder (documents (orderdetails db))))
    as [|x sel]; simpl.
  - split; [discriminate|]. intros [-> ?]. lia.
  - split; [intros [= <-]; split; [done|lia]|]. by intros [-> _].
Qed.

(** X15: when [getTopAccountByCompletedCourses] returns a record, it is an
    account of the store with its name and email, and the count is the
    number of finished order details among that account's orders, positive
    and not exceeded by any other account's.  It returns null when there is
    no finished order detail with an order in the store, and also when the
    buyer with the largest count is not in the accounts. *)
Theorem X15_top_account_is_a_maximum :
  (∀ t, getTopAccountByCompletedCourses db = Some t →
     ∃ acc,
       accounts db !! ta_accountId t = Some acc
       ∧ ta_id t = ta_accountId t
       ∧ ta_fullName t = Account.fullName acc
       ∧ ta_email t = Account.email acc
       ∧ ta_completedCourses t = completedBy db (ta_accountId t)
       ∧ (0 < ta_completedCourses t)%nat
       ∧ ∀ aid, (completedBy db aid ≤ ta_completedCourses t)%nat)
  ∧ (getTopAccountByCompletedCourses db = None →
     (∀ aid, completedBy db aid = 0%nat)
     ∨ ∃ aid, accounts db !! aid = None
              ∧ (0 < completedBy db aid)%nat
              ∧ ∀ aid', (completedBy db aid' ≤ completedBy db aid)%nat)
  ∧ ((∀ aid, completedBy db aid = 0%nat) →
     getTopAccountByCompletedCourses db = None).
Proof.
  rewrite getTopAccount_unfold.
  destruct (sortByCountDesc snd grouped) as [|[aid n] rest] eqn:Hs.
  - apply sortByCountDesc_nil in Hs. split_and!; [discriminate| |done].
    intros _. left. intros aid.
    destruct (completedBy db aid) as [|k] eqn:E; [done|].
    assert (Hin : (aid, S k) ∈ grouped)
      by (apply grouped_buyer; split; [done|lia]).
    rewrite Hs in Hin. by apply not_elem_of_nil in Hin.
  - apply sortByCountDesc_head in Hs as [Hin Hmax].
    apply grouped_buyer in Hin as [-> Hpos].
    assert (Hall : ∀ aid', (completedBy db aid' ≤ completedBy db aid)%nat).
    { intros aid'. destruct (completedBy db aid') as [|k] eqn:E; [lia|].
      assert (Hin' : (aid', S k) ∈ grouped)
        by (apply grouped_buyer; split; [done|lia]).
      apply (Hmax _ Hin'). }
    cbn [take lookupUnwind omap list_omap fst].
    destruct (accounts db !! aid) as [acc|] eqn:Ha;
      cbn [mbind option_bind fmap list_fmap head].
    + split_and!.
      * intros t [= <-]. exists acc. simpl. by split_and!.
      * discriminate.
      * intros Hzero. rewrite Hzero in Hpos. lia.
    + split_and!.
      * discriminate.
      * intros _. right. by exists aid.
      * intros Hzero. rewrite Hzero in Hpos. lia.
Qed.
End TopAccount.

(** Account 7 finished two courses, account 9 one; in the second store the
    accounts are gone. *)
Example top_account_samples :
  ta_accountId <$> getTopAccountByCompletedCourses db_two_orders = Some 7%N
  ∧ getTopAccountByCompletedCourses
      (mkDb ∅ (courses db_two_orders) (paymentmethods db_two_orders)
         (orders db_two_orders) (orderdetails db_two_orders)) = None.
Proof. split; vm_compute; reflexivity. Qed.

(** * Revenue for any year *)

Section AnyYear.
Variable val : Order.t → Number.
Variables (y : Z) (db : Db).

Let groups : list (nat * Number) :=
  group (λ o, monthNumber (Order.createdAt o)) (sumStep val) (matchedOrders y db).

Lemma sorted_groups_matched (m : Month) :
  groupOf (S (monthIndex m)) (sortById groups)
  = match matchedIn y db m with
    | [] => None
    | sel => Some (Qcsum (val <$> sel))
    end.
Proof.
  rewrite (groupOf_Permutation _ groups).
  - unfold groups. by rewrite groupOf_group_sum.
  - apply group_NoDup.
  - unfold sortById. by rewrite merge_sort_Permutation.
Qed.
End AnyYear.

Lemma getMonthlyRevenue_matched (y : Z) (db : Db) :
  getMonthlyRevenue y db
  = (λ m, mkMonthEntry (S (monthIndex m))
            (Some (roundTo2
                     (commission * Qcsum (Order.totalAmount <$> matchedIn y db m)))))
      <$> allMonths.
Proof.
  set (filled :=
         foldl (λ arr data, arraySet arr (data.1 - 1) (revenueCell data))
           (replicate 12 (CNum (Q2Qc 0))) (revenueData y db)).
  assert (Hdef : getMonthlyRevenue y db
                 = imap (λ index revenue,
                           mkMonthEntry (index + 1) (parseFloat revenue)) filled)
    by reflexivity.
  rewrite Hdef. clear Hdef.
  assert (Hnd : NoDup (revenueData y db).*1).
  { unfold revenueData, sortById. rewrite merge_sort_Permutation.
    apply group_NoDup. }
  assert (Hkeys : ∀ k, k ∈ (revenueData y db).*1 → (1 ≤ k ≤ 12)%nat).
  { intros k. unfold revenueData, sortById. rewrite merge_sort_Permutation.
    intros (d & _ & <-)%group_keys. unfold monthNumber.
    pose proof (monthIndex_lt (Date.month (Order.createdAt d))). lia. }
  pose proof (fill_months (revenueData y db) (replicate 12 (CNum (Q2Qc 0)))
                (length_replicate _ _) Hnd Hkeys) as Hf.
  cbv zeta in Hf. fold filled in Hf. destruct Hf as [Hlen Hfill].
  apply list_eq. intros i. rewrite list_lookup_imap, list_lookup_fmap.
  destruct (decide (i < 12)%nat) as [Hi|Hi].
  - destruct (month_of_index i Hi) as [m [Hm Hidx]].
    rewrite Hm, (Hfill i Hi). subst i.
    unfold revenueData. fold (matchedOrders y db).
    rewrite (sorted_groups_matched Order.totalAmount y db m).
    rewrite lookup_replicate_2 by apply monthIndex_lt.
    destruct (matchedIn y db m) as [|o sel] eqn:E; simpl; rewrite ?E.
    + rewrite Nat.add_1_r. do 3 f_equal. symmetry. apply roundTo2_zero.
    + rewrite Nat.add_1_r. do 3 f_equal.
      unfold roundTo2. by rewrite Qcmult_comm.
  - rewrite (lookup_ge_None_2 _ i) by lia.
    rewrite (lookup_ge_None_2 allMonths i) by (simpl; lia). reflexivity.
Qed.

Lemma getRevenueByYear_matched (y : Z) (db : Db) :
  getRevenueByYear y db
  = (λ m, mkMonthEntry (S (monthIndex m))
            (Some (commission * Qcsum (Order.totalAmount <$> matchedIn y db m))%Qc))
      <$> allMonths.
Proof.
  unfold getRevenueByYear.
  apply list_eq. intros i. rewrite !list_lookup_fmap.
  destruct (decide (i < 12)%nat) as [Hi|Hi].
  - destruct (month_of_index i Hi) as [m [Hm Hidx]]. rewrite Hm.
    rewrite lookup_seq_lt by done. simpl. subst i.
    rewrite Nat.add_1_r. f_equal. f_equal. f_equal.
    pose proof (sorted_groups_matched (λ o, Order.totalAmount o * commission)%Qc
                  y db m) as Hg.
    unfold groupOf in Hg. unfold revenueByMonth. fold (matchedOrders y db).
    destruct (List.find _ _) as [r|]; simpl in Hg |- *.
    + destruct (matchedIn y db m) as [|o sel]; [discriminate|].
      injection Hg as ->.
      exact (Qcsum_scale commission Order.totalAmount (o :: sel)).
    + destruct (matchedIn y db m) as [|o sel]; [|discriminate].
      change (Q2Qc 0 = (commission * Q2Qc 0)%Qc). ring.
  - rewrite (lookup_ge_None_2 (seq 0 12) i) by (rewrite length_seq; lia).
    rewrite (lookup_ge_None_2 allMonths i) by (simpl; lia). reflexivity.
Qed.

(** The [$match] stage of a two-digit year is that of the year 1900 later. *)
Lemma matchCompletedIn_two_digit (y : Z) (o : Order.t) :
  0 ≤ y ≤ 98 → matchCompletedIn y o = matchCompletedIn (1900 + y) o.
Proof.
  intros Hy. unfold matchCompletedIn, Date.newYearDay.
  replace ((0 <=? y) && (y <=? 99)) with true by (symmetry; apply andb_true_iff; lia).
  replace ((0 <=? y + 1) && (y + 1 <=? 99)) with true
    by (symmetry; apply andb_true_iff; lia).
  replace ((0 <=? 1900 + y) && (1900 + y <=? 99)) with false
    by (symmetry; apply andb_false_iff; lia).
  replace ((0 <=? 1900 + y + 1) && (1900 + y + 1 <=? 99)) with false
    by (symmetry; apply andb_false_iff; lia).
  by replace (1900 + (y + 1)) with (1900 + y + 1) by lia.
Qed.

Lemma matchCompletedIn_99 (o : Order.t) : matchCompletedIn 99 o = false.
Proof.
  unfold matchCompletedIn, Date.gte, Date.lt.
  change (Date.newYearDay 99) with (Date.mk 1999 Jan 1 0 0 0 0).
  change (Date.newYearDay (99 + 1)) with (Date.mk 100 Jan 1 0 0 0 0).
  pose proof (compare_newYear (Order.createdAt o) 1999) as H1.
  pose proof (compare_newYear (Order.createdAt o) 100) as H2.
  destruct (Date.compare (Order.createdAt o) (Date.mk 1999 Jan 1 0 0 0 0)) eqn:E1,
           (Date.compare (Order.createdAt o) (Date.mk 100 Jan 1 0 0 0 0)) eqn:E2;
    simpl; try reflexivity; exfalso;
    try (assert (Date.year (Order.createdAt o) < 100) by (by apply H2));
    try (assert (¬ Date.year (Order.createdAt o) < 1999)
           by (rewrite <- H1; discriminate));
    lia.
Qed.


(** ** The year's total *)

Lemma Qcsum_pick_month (a : Number) (m0 : Month) (g : Month → Number) :
  Qcsum ((λ m, if bool_decide (m0 = m) then a + g m else g m)%Qc <$> allMonths)
  = (a + Qcsum (g <$> allMonths))%Qc.
Proof.
  unfold allMonths, Qcsum. cbn [fmap list_fmap foldr].
  destruct m0;
    repeat match goal with
           | |- context [bool_decide (?a = ?b)] =>
             let v := eval vm_compute in (bool_decide (a = b)) in
             change (bool_decide (a = b)) with v
           end;
    cbv iota; ring.
Qed.

Lemma Qcsum_by_month (f : Order.t → Number) (l : list Order.t) :
  Qcsum (f <$> l)
  = Qcsum ((λ m, Qcsum (f <$> keyed (λ o, monthNumber (Order.createdAt o))
                                (S (monthIndex m)) l)) <$> allMonths).
Proof.
  induction l as [|o l IH].
  - unfold allMonths, Qcsum, keyed.
    cbn [fmap list_fmap foldr List.filter]. ring.
  - change (Qcsum (f <$> o :: l)) with (f o + Qcsum (f <$> l))%Qc.
    rewrite IH, <- (Qcsum_pick_month (f o) (Date.month (Order.createdAt o))).
    f_equal. apply list_fmap_ext. intros _ m _. unfold keyed.
    cbn [List.filter].
    rewrite (bool_decide_ext
               (monthNumber (Order.createdAt o) = S (monthIndex m))
               (Date.month (Order.createdAt o) = m))
      by apply monthNumber_eq.
    by destruct (bool_decide (Date.month (Order.createdAt o) = m)).
Qed.

Lemma Qcsum_scale_months (c : Number) (g : Month → Number) :
  Qcsum (revenues ((λ m, mkMonthEntry (S (monthIndex m)) (Some (c * g m)%Qc))
                     <$> allMonths))
  = (c * Qcsum (g <$> allMonths))%Qc.
Proof.
  unfold revenues, allMonths, Qcsum.
  cbn [omap list_omap fmap list_fmap foldr me_revenue]. ring.
Qed.

(** X17: for every year the twelve entries of [getRevenueByYear] add up to
    0.15 times the total amount of the orders that pass the [$match] stage:
    no such order is dropped or counted twice by the grouping. *)
Theorem X17_year_total (y : Z) (db : Db) :
  Qcsum (revenues (getRevenueByYear y db))
  = (commission * Qcsum (Order.totalAmount <$> matchedOrders y db))%Qc.
Proof.
  rewrite getRevenueByYear_matched.
  rewrite (Qcsum_scale_months commission
             (λ m, Qcsum (Order.totalAmount <$> matchedIn y db m))).
  by rewrite (Qcsum_by_month Order.totalAmount (matchedOrders y db)).
Qed.

(** ** Revenue across order operations *)

Lemma Qcsum_Permutation (l l' : list Number) : l ≡ₚ l' → Qcsum l = Qcsum l'.
Proof.
  induction 1 as [|x l l' _ IH|x y l|l l' l'' _ IH1 _ IH2].
  - done.
  - change (x + Qcsum l = x + Qcsum l')%Qc. by rewrite IH.
  - change (y + (x + Qcsum l) = x + (y + Qcsum l))%Qc. ring.
  - by rewrite IH1.
Qed.

Lemma monthTotal_cons y m o l :
  monthTotal y m (o :: l) = (contribution y m o + monthTotal y m l)%Qc.
Proof.
  unfold monthTotal, contribution, keyed. cbn [List.filter].
  destruct (matchCompletedIn y o); cbn [andb List.filter].
  - rewrite (bool_decide_ext
               (monthNumber (Order.createdAt o) = S (monthIndex m))
               (Date.month (Order.createdAt o) = m))
      by apply monthNumber_eq.
    destruct (bool_decide (Date.month (Order.createdAt o) = m)).
    + reflexivity.
    + ring.
  - ring.
Qed.

Lemma monthTotal_Permutation y m l l' :
  l ≡ₚ l' → monthTotal y m l = monthTotal y m l'.
Proof.
  intros Hp. unfold monthTotal, keyed. apply Qcsum_Permutation.
  by apply fmap_Permutation, filter_Permutation, filter_Permutation.
Qed.

Lemma documents_insert {A} (c : gmap N A) (id : N) (x : A) :
  documents (<[id := x]> c) ≡ₚ x :: documents (delete id c).
Proof.
  unfold documents, scan. rewrite <- insert_delete_eq.
  by rewrite map_to_list_insert by apply lookup_delete_eq.
Qed.

Lemma documents_lookup {A} (c : gmap N A) (id : N) (x : A) :
  c !! id = Some x → documents c ≡ₚ x :: documents (delete id c).
Proof.
  intros H. etransitivity; [|apply (documents_insert c id x)].
  by rewrite insert_id.
Qed.

Lemma revenueOf_getRevenueByYear y db m :
  revenueOf (getRevenueByYear y db) m
  = Some (commission * monthTotal y m (documents (orders db)))%Qc.
Proof.
  rewrite getRevenueByYear_matched. unfold revenueOf.
  by rewrite list_lookup_fmap, allMonths_lookup.
Qed.

Lemma revenueOf_getMonthlyRevenue y db m :
  revenueOf (getMonthlyRevenue y db) m
  = Some (roundTo2 (commission * monthTotal y m (documents (orders db)))).
Proof.
  rewrite getMonthlyRevenue_matched. unfold revenueOf.
  by rewrite list_lookup_fmap, allMonths_lookup.
Qed.



Section RevenueAndCreate.
Variable Number_toString : Number → string.
Variable hmacSha512Hex : string → string → string.

(** X19: [createOrder] changes no revenue figure: whatever its outcome, for
    every year both revenue functions return on the resulting store what
    they return on the store before (the new order is Pending). *)
Theorem X19_createOrder_keeps_revenue (req : Request) (now : Date.t)
    (courseId accountId : option N) (db : Db) (y : Z) :
  let db' := snd (createOrder Number_toString hmacSha512Hex req now courseId
                    accountId db) in
  getRevenueByYear y db' = getRevenueByYear y db
  ∧ getMonthlyRevenue y db' = getMonthlyRevenue y db.
Proof.
  intros db'.
  assert (Htot : ∀ m, monthTotal y m (documents (orders db'))
                      = monthTotal y m (documents (orders db))).
  { intros m. subst db'.
    destruct (createOrder _ _ req now courseId accountId db) as [[e|r] db1] eqn:H.
    - destruct courseId as [cid|], accountId as [aid|];
        try (rewrite createOrder_missing_id in H by auto; by injection H as _ <-).
      rewrite createOrder_unfold in H.
      destruct (courses db !! cid) as [course|]; [|by injection H as _ <-].
      destruct (negb (Course.isActive course)); [by injection H as _ <-|].
      destruct (accounts db !! aid); [discriminate|by injection H as _ <-].
    - apply createOrder_success in H
        as (cid & aid & course & acc & -> & -> & Hc & Hact & Ha & Hid & ->).
      simpl.
      rewrite (monthTotal_Permutation _ _ _ _ (documents_insert _ _ _)).
      rewrite delete_id by apply fresh_lookup_None.
      rewrite monthTotal_cons.
      assert (Hnew : contribution y m (newOrder now aid course db) = Q2Qc 0).
      { unfold contribution, matchCompletedIn. simpl.
        by rewrite andb_false_r. }
      rewrite Hnew. ring. }
  rewrite !getRevenueByYear_matched, !getMonthlyRevenue_matched.
  split; apply list_fmap_ext; intros _ m _;
    specialize (Htot m); unfold monthTotal in Htot;
    unfold matchedIn, matchedOrders; by rewrite Htot.
Qed.
End RevenueAndCreate.

(** * The creation date of the payment URL *)

Lemma allPlain_app (s t : string) :
  allPlain (s +:+ t) = allPlain s && allPlain t.
Proof.
  induction s as [|c s IH]; [reflexivity|].
  change (String c s +:+ t) with (String c (s +:+ t)).
  cbn [allPlain]. by rewrite IH, andb_assoc.
Qed.

Lemma pretty_N_char_digit (x : N) : plainChar (pretty_N_char x) = true.
Proof. unfold pretty_N_char. by repeat case_match. Qed.

Lemma pretty_N_go_plain (x : N) (s : string) :
  allPlain s = true → allPlain (pretty_N_go x s) = true.
Proof.
  revert s. induction (N.lt_wf_0 x) as [x _ IH]; intros s Hs.
  destruct (decide (x = 0)%N) as [->|Hx]; [by rewrite pretty_N_go_0|].
  rewrite pretty_N_go_step by lia. apply IH.
  - apply N.div_lt; lia.
  - cbn [allPlain]. by rewrite pretty_N_char_digit.
Qed.

Lemma pretty_N_plain (x : N) : allPlain (pretty x) = true.
Proof.
  unfold pretty, pretty_N. destruct (decide (x = 0)%N); [reflexivity|].
  by apply pretty_N_go_plain.
Qed.

Lemma pretty_Z_plain (x : Z) : allPlain (pretty x) = true.
Proof.
  unfold pretty, pretty_Z. destruct x as [|p|p]; [reflexivity| |].
  - apply (pretty_N_plain (Npos p)).
  - change ("-" +:+ pretty p) with (String "-" (pretty p)). cbn [allPlain].
    apply andb_true_iff. split; [reflexivity|apply (pretty_N_plain (Npos p))].
Qed.

Lemma pad_plain (n : N) : allPlain (pad n) = true.
Proof.
  unfold pad. destruct (_ <? _)%nat.
  - change ("0" +:+ pretty n) with (String "0" (pretty n)). cbn [allPlain].
    by rewrite pretty_N_plain.
  - apply pretty_N_plain.
Qed.

(** A pattern that starts with a letter is not found inside digits: the
    search moves past them. *)
Lemma replaceFirst_skip (p : ascii) (pat rep s rest : string) :
  plainChar p = false → allPlain s = true →
  replaceFirst (String p pat) rep (s +:+ rest)
  = s +:+ replaceFirst (String p pat) rep rest.
Proof.
  intros Hp. induction s as [|c s IH]; intros Hs; [reflexivity|].
  change (String c s +:+ rest) with (String c (s +:+ rest)).
  cbn [allPlain] in Hs. apply andb_true_iff in Hs as [Hc Hs].
  cbn [replaceFirst String.prefix].
  destruct (ascii_dec p c) as [->|_]; [congruence|].
  by rewrite IH.
Qed.

Lemma replaceFirst_here (pat rep rest : string) :
  replaceFirst pat rep (pat +:+ rest) = rep +:+ rest.
Proof.
  assert (Hpre : String.prefix pat (pat +:+ rest) = true).
  { induction pat as [|c pat IH]; [by destruct rest|].
    change (String c pat +:+ rest) with (String c (pat +:+ rest)).
    cbn [String.prefix]. by destruct (ascii_dec c c). }
  assert (Hdrop : dropChars (String.length pat) (pat +:+ rest) = rest).
  { induction pat as [|c pat IH]; [by destruct rest|].
    change (String c pat +:+ rest) with (String c (pat +:+ rest)).
    cbn [String.length dropChars]. apply IH.
    change (String c pat +:+ rest) with (String c (pat +:+ rest)) in Hpre.
    cbn [String.prefix] in Hpre. by destruct (ascii_dec c c). }
  destruct pat as [|c pat]; [by destruct rest|].
  change (String c pat +:+ rest) with (String c (pat +:+ rest)) in *.
  cbn [replaceFirst]. by rewrite Hpre, Hdrop.
Qed.

Lemma pad_length (n : N) : (n < 100)%N → String.length (pad n) = 2%nat.
Proof.
  intros Hn.
  assert (Hall : forallb (λ k, Nat.eqb (String.length (pad (N.of_nat k))) 2)
                   (seq 0 100) = true) by (vm_compute; reflexivity).
  rewrite forallb_forall in Hall. specialize (Hall (N.to_nat n)).
  rewrite N2Nat.id in Hall. apply Nat.eqb_eq, Hall, in_seq. lia.
Qed.

Lemma pretty_year_length (y : Z) :
  1000 ≤ y ≤ 9999 → String.length (pretty y) = 4%nat.
Proof.
  intros Hy. destruct y as [|p|p]; [lia| |lia].
  change (pretty (Z.pos p)) with (pretty (N.pos p)).
  unfold pretty, pretty_N. rewrite decide_False by done.
  assert (Hp : (1000 ≤ N.pos p ≤ 9999)%N) by lia.
  generalize dependent (N.pos p). intros n Hn.
  rewrite pretty_N_go_step by lia.
  rewrite pretty_N_go_step by (apply N.div_str_pos; lia).
  rewrite pretty_N_go_step
    by (rewrite N.Div0.div_div; apply N.div_str_pos; lia).
  rewrite pretty_N_go_step
    by (rewrite !N.Div0.div_div; apply N.div_str_pos; lia).
  rewrite !N.Div0.div_div, N.div_small by lia.
  by rewrite pretty_N_go_0.
Qed.

Lemma string_length_app (s t : string) :
  String.length (s +:+ t) = (String.length s + String.length t)%nat.
Proof.
  induction s as [|c s IH]; [reflexivity|].
  change (String c s +:+ t) with (String c (s +:+ t)). simpl. by rewrite IH.
Qed.

Lemma string_app_assoc (s t u : string) : (s +:+ t) +:+ u = s +:+ (t +:+ u).
Proof.
  induction s as [|c s IH]; [reflexivity|].
  change ((String c s +:+ t) +:+ u) with (String c ((s +:+ t) +:+ u)).
  change (String c s +:+ (t +:+ u)) with (String c (s +:+ (t +:+ u))).
  by rewrite IH.
Qed.

(** X20: for every date, [dateFormat] with the VNPay format yields the
    year in decimal followed by month, day, hours, minutes and seconds, each
    padded to two digits: the six replacements never hit the digits written
    by an earlier one.  For a year of four digits and fields below 100 the
    result has exactly 14 characters, digits all. *)
Theorem X20_dateFormat_digits (d : Date.t) :
  let formatted := dateFormat d "yyyymmddHHMMss" in
  formatted
    = pretty (Date.year d)
      +:+ pad (N.of_nat (monthIndex (Date.month d) + 1))
      +:+ pad (Npos (Date.date d))
      +:+ pad (Date.hours d)
      +:+ pad (Date.minutes d)
      +:+ pad (Date.seconds d)
  ∧ allPlain formatted = true
  ∧ (1000 ≤ Date.year d ≤ 9999 → (Npos (Date.date d) < 100)%N →
     (Date.hours d < 100)%N → (Date.minutes d < 100)%N → (Date.seconds d < 100)%N →
     String.length formatted = 14%nat).
Proof.
  intros formatted.
  set (Y := pretty (Date.year d)).
  set (M := pad (N.of_nat (monthIndex (Date.month d) + 1))).
  set (D := pad (Npos (Date.date d))).
  set (h := pad (Date.hours d)).
  set (mi := pad (Date.minutes d)).
  set (s := pad (Date.seconds d)).
  assert (HY : allPlain Y = true) by apply pretty_Z_plain.
  assert (HM : allPlain M = true) by apply pad_plain.
  assert (HD : allPlain D = true) by apply pad_plain.
  assert (Hh : allPlain h = true) by apply pad_plain.
  assert (Hmi : allPlain mi = true) by apply pad_plain.
  assert (Hs : allPlain s = true) by apply pad_plain.
  assert (Heq : formatted = Y +:+ M +:+ D +:+ h +:+ mi +:+ s).
  { unfold formatted, dateFormat. fold Y M D h mi s.
    change "yyyymmddHHMMss" with ("yyyy" +:+ "mmddHHMMss").
    rewrite replaceFirst_here.
    rewrite (replaceFirst_skip "m" "m" M Y "mmddHHMMss") by done.
    change "mmddHHMMss" with ("mm" +:+ "ddHHMMss").
    rewrite replaceFirst_here.
    rewrite <- string_app_assoc.
    rewrite (replaceFirst_skip "d" "d" D (Y +:+ M) "ddHHMMss")
      by (by rewrite ?allPlain_app, ?HY, ?HM).
    change "ddHHMMss" with ("dd" +:+ "HHMMss").
    rewrite replaceFirst_here.
    rewrite <- string_app_assoc.
    rewrite (replaceFirst_skip "H" "H" h ((Y +:+ M) +:+ D) "HHMMss")
      by (by rewrite ?allPlain_app, ?HY, ?HM, ?HD).
    change "HHMMss" with ("HH" +:+ "MMss").
    rewrite replaceFirst_here.
    rewrite <- string_app_assoc.
    rewrite (replaceFirst_skip "M" "M" mi (((Y +:+ M) +:+ D) +:+ h) "MMss")
      by (by rewrite ?allPlain_app, ?HY, ?HM, ?HD, ?Hh).
    change "MMss" with ("MM" +:+ "ss").
    rewrite replaceFirst_here.
    rewrite <- string_app_assoc.
    rewrite (replaceFirst_skip "s" "s" s ((((Y +:+ M) +:+ D) +:+ h) +:+ mi) "ss")
      by (by rewrite ?allPlain_app, ?HY, ?HM, ?HD, ?Hh, ?Hmi).
    change "ss" with ("ss" +:+ "").
    rewrite replaceFirst_here.
    rewrite !string_app_assoc.
    by replace (s +:+ "") with s by (clear; induction s as [|c s IH]; [done|];
      change (String c s +:+ "") with (String c (s +:+ "")); by rewrite <- IH). }
  split_and!.
  - exact Heq.
  - by rewrite Heq, !allPlain_app, HY, HM, HD, Hh, Hmi, Hs.
  - intros Hy Hd Hhh Hmm Hss. rewrite Heq, !string_length_app.
    unfold Y, M, D, h, mi, s.
    rewrite pretty_year_length by done. rewrite !pad_length; try done.
    pose proof (monthIndex_lt (Date.month d)). lia.
Qed.

(** * Sorting and serializing any parameter object *)

Global Instance String_le_total : Total String_le.
Proof. intros a b. unfold String_le. apply String.leb_total. Qed.

Lemma objSet_new {V} (o : list (string * V)) (key : string) (v : V) :
  key ∉ o.*1 → objSet o key v = o ++ [(key, v)].
Proof.
  induction o as [|[k w] o IH]; [reflexivity|].
  rewrite fmap_cons. intros [Hk Ho]%not_elem_of_cons. simpl in Hk.
  cbn [objSet]. rewrite (proj2 (String.eqb_neq k key)) by congruence.
  by rewrite IH.
Qed.

Lemma objGet_elem {V} (o : list (string * V)) (key : string) (v : V) :
  NoDup o.*1 → (key, v) ∈ o → objGet o key = Some v.
Proof.
  unfold objGet. induction o as [|[k w] o IH]; [by intros _ ?%not_elem_of_nil|].
  rewrite fmap_cons. intros [Hk Hnd]%NoDup_cons Hin. simpl.
  apply elem_of_cons in Hin as [[= <- <-]|Hin].
  - by rewrite String.eqb_refl.
  - destruct (String.eqb k key) eqn:E; [|by apply IH].
    apply String.eqb_eq in E as ->. destruct Hk.
    apply list_elem_of_fmap. by exists (key, v).
Qed.

Section AnyParams.
Variable params : list (string * ParamValue).
Hypothesis Hkeys : NoDup (objKeys params).
Hypothesis Hinsertion : Forall (λ k, insertionKey k = true) (objKeys params).

Let valueOf (key : string) : string * ParamValue :=
  (key, default PUndefined (objGet params key)).

Lemma sortedParams_map :
  sortedParams params = valueOf <$> merge_sort String_le (objKeys params).
Proof.
  unfold sortedParams.
  assert (Hnd : NoDup (merge_sort String_le (objKeys params)))
    by (by rewrite merge_sort_Permutation).
  assert (Hgen : ∀ ks acc, NoDup ks → (∀ k, k ∈ ks → k ∉ acc.*1) →
    foldl (λ acc key, objSet acc key (default PUndefined (objGet params key)))
      acc ks = acc ++ (valueOf <$> ks)).
  { induction ks as [|k ks IH]; intros acc Hks Hdisj.
    - by rewrite app_nil_r.
    - apply NoDup_cons in Hks as [Hk Hks]. cbn [foldl].
      rewrite objSet_new by (apply Hdisj; left).
      rewrite IH; [by rewrite <- app_assoc|done|].
      intros k' Hk'. rewrite fmap_app. cbn [fmap list_fmap fst].
      intros [Hin|Hin%list_elem_of_singleton]%elem_of_app.
      + by apply (Hdisj k'); [right|].
      + by subst k'. }
  rewrite Hgen; [done|done|]. intros k _. apply not_elem_of_nil.
Qed.

Lemma valueOf_params : valueOf <$> objKeys params = params.
Proof.
  unfold objKeys. rewrite <- list_fmap_compose.
  rewrite <- (list_fmap_id params) at 2. apply list_fmap_ext.
  intros i [k v] Hi. unfold valueOf; simpl.
  rewrite (objGet_elem params k v Hkeys); [done|].
  by apply list_elem_of_lookup_2 in Hi.
Qed.

End AnyParams.


(** ** Separators of the query string *)

Lemma countChar_app (c : ascii) (s t : string) :
  countChar c (s +:+ t) = (countChar c s + countChar c t)%nat.
Proof.
  induction s as [|c' s IH]; [reflexivity|].
  change (String c' s +:+ t) with (String c' (s +:+ t)).
  cbn [countChar]. rewrite IH. lia.
Qed.

Lemma hexDigit_not_separator (n : N) :
  Ascii.eqb (hexDigit true n) "&" = false ∧ Ascii.eqb (hexDigit true n) "=" = false.
Proof.
  unfold hexDigit. generalize (N.to_nat n). intros k.
  do 16 (destruct k as [|k]; [by split|]). by split.
Qed.

Lemma isUnreserved_not_separator (c : ascii) :
  isUnreserved c = true → Ascii.eqb c "&" = false ∧ Ascii.eqb c "=" = false.
Proof.
  intros H. split; apply Ascii.eqb_neq; intros ->; by vm_compute in H.
Qed.

(** URL-encoded text contains neither [&] nor [=]. *)
Lemma urlencode_no_separator (s : string) :
  countChar "&" (urlencode s) = 0%nat ∧ countChar "=" (urlencode s) = 0%nat.
Proof.
  induction s as [|c s [IH1 IH2]]; [by split|]. cbn [urlencode].
  destruct (isUnreserved c) eqn:Hu.
  - destruct (isUnreserved_not_separator c Hu) as [H1 H2].
    cbn [countChar]. by rewrite H1, H2, IH1, IH2.
  - destruct (Ascii.eqb c " ").
    + cbn [countChar]. by rewrite IH1, IH2.
    + cbn [hexN countChar].
      destruct (hexDigit_not_separator (N_of_ascii c mod 16)) as [H1 H2].
      destruct (hexDigit_not_separator (N_of_ascii c / 16 mod 16)) as [H3 H4].
      rewrite H1, H2, H3, H4, IH1, IH2. by split.
Qed.

Lemma countChar_joinWith (c : ascii) (l : list string) :
  countChar c (joinWith "&" l)
  = (sum_list (countChar c <$> l)
     + (if Ascii.eqb "&" c then length l - 1 else 0))%nat.
Proof.
  destruct l as [|x l]; [by destruct (Ascii.eqb "&" c)|].
  unfold joinWith, sum_list.
  cbn [length fmap list_fmap sum_list_with].
  replace (S (length l) - 1)%nat with (length l) by lia.
  revert x. induction l as [|y l IH]; intros x.
  - cbn [foldl length fmap list_fmap sum_list_with].
    destruct (Ascii.eqb "&" c); unfold id; lia.
  - cbn [foldl length fmap list_fmap sum_list_with]. rewrite IH.
    rewrite !countChar_app. cbn [countChar].
    destruct (Ascii.eqb "&" c); unfold id; lia.
Qed.

Section Separators.
Variable Number_toString : Number → string.

(** X22: whatever the course name, the client address and the way numbers
    are printed, the query string [createOrder] signs contains exactly 11
    [&] and 12 [=]: the separators of its twelve parameters and nothing
    else, so no value can add or cut a parameter.  The same holds for any
    parameter object: one [=] per parameter and one [&] between two. *)
Theorem X22_query_string_separators (req : Request) (now : Date.t)
    (totalAmount : Number) (orderId : N) (courseName : string) :
  let q := queryString Number_toString
             (paymentParams req now totalAmount orderId courseName) in
  countChar "&" q = 11%nat ∧ countChar "=" q = 12%nat
  ∧ ∀ o : list (string * ParamValue),
      countChar "=" (URLSearchParams_toString Number_toString o) = length o
      ∧ countChar "&" (URLSearchParams_toString Number_toString o)
        = (length o - 1)%nat.
Proof.
  assert (Hany : ∀ o : list (string * ParamValue),
    countChar "=" (URLSearchParams_toString Number_toString o) = length o
    ∧ countChar "&" (URLSearchParams_toString Number_toString o)
      = (length o - 1)%nat).
  { intros o. unfold URLSearchParams_toString. rewrite !countChar_joinWith.
    rewrite length_fmap. cbn [Ascii.eqb Bool.eqb].
    assert (Heq : sum_list (countChar "=" <$>
               ((λ kv : string * ParamValue,
                   urlencode kv.1 +:+ "=" +:+
                   urlencode (ParamValue_toString Number_toString kv.2)) <$> o))
             = length o).
    { induction o as [|kv o IH]; [done|].
      unfold sum_list in *. cbn [fmap list_fmap sum_list_with length].
      rewrite IH. unfold id. rewrite !countChar_app.
      rewrite (proj2 (urlencode_no_separator _)),
        (proj2 (urlencode_no_separator _)).
      change (countChar "=" "=") with 1%nat. lia. }
    assert (Hamp : sum_list (countChar "&" <$>
               ((λ kv : string * ParamValue,
                   urlencode kv.1 +:+ "=" +:+
                   urlencode (ParamValue_toString Number_toString kv.2)) <$> o))
             = 0%nat).
    { clear Heq. induction o as [|kv o IH]; [done|].
      unfold sum_list in *. cbn [fmap list_fmap sum_list_with].
      rewrite IH. unfold id. rewrite !countChar_app.
      rewrite (proj1 (urlencode_no_separator _)),
        (proj1 (urlencode_no_separator _)).
      change (countChar "&" "=") with 0%nat. lia. }
    rewrite Heq, Hamp. lia. }
  intros q. subst q. unfold queryString.
  rewrite sortedParams_paymentParams.
  destruct (Hany
    [ ("vnp_Amount", PNum (totalAmount * Q2Qc 100));
      ("vnp_Command", PStr "pay");
      ("vnp_CreateDate", PStr (dateFormat now "yyyymmddHHMMss"));
      ("vnp_CurrCode", PStr "VND");
      ("vnp_IpAddr",
         PStr (match ip req with
               | Some a => if String.eqb a "" then "127.0.0.1" else a
               | None => "127.0.0.1"
               end));
      ("vnp_Locale", PStr "vn");
      ("vnp_OrderInfo", PStr ("Payment for course: " +:+ courseName));
      ("vnp_OrderType", PStr "250000");
      ("vnp_ReturnUrl",
         PStr ("http://localhost:3000?orderId=" +:+ ObjectId_toString orderId));
      ("vnp_TmnCode", PStr vnp_TmnCode);
      ("vnp_TxnRef", PStr (ObjectId_toString orderId));
      ("vnp_Version", PStr "2.1.0") ]) as [H1 H2].
  split_and!; [exact H2|exact H1|exact Hany].
Qed.
End Separators.

(** * The feedback service *)

Global Instance newerFeedbackFirst_total : Total newerFeedbackFirst.
Proof.
  intros a b. unfold newerFeedbackFirst, Date.gte.
  rewrite (Date_compare_antisym (Feedback.createdAt a.2) (Feedback.createdAt b.2)).
  destruct (Date.compare (Feedback.createdAt a.2) (Feedback.createdAt b.2));
    simpl; auto.
Qed.

Lemma truthyNumber_Some x r :
  truthyNumber x = Some r ↔ x = Some r ∧ r ≠ Q2Qc 0.
Proof.
  destruct x as [r'|]; simpl; [|by split; [|intros [? _]]].
  destruct (bool_decide_reflect (r' = Q2Qc 0)) as [E|E].
  - split; [done|]. by intros [[= ->] ?].
  - split; [by intros [= ->]|]. by intros [[= ->] _].
Qed.

Lemma truthyString_Some x s :
  truthyString x = Some s ↔ x = Some s ∧ s ≠ "".
Proof.
  destruct x as [s'|]; simpl; [|by split; [|intros [? _]]].
  destruct (String.eqb_spec s' "") as [E|E].
  - split; [done|]. by intros [[= ->] ?].
  - split; [by intros [= ->]|]. by intros [[= ->] _].
Qed.

Lemma validateFeedback_nil r :
  validateFeedback r = [] ↔ (Q2Qc 1 ≤ r)%Qc ∧ (r ≤ Q2Qc 5)%Qc.
Proof.
  unfold validateFeedback.
  destruct (bool_decide_reflect (r < Q2Qc 1)%Qc) as [H1|H1].
  - split; [done|]. intros [H _]. by apply Qcle_not_lt in H.
  - apply Qcnot_lt_le in H1.
    destruct (bool_decide_reflect (Q2Qc 5 < r)%Qc) as [H5|H5].
    + split; [done|]. intros [_ H]. by apply Qcle_not_lt in H.
    + apply Qcnot_lt_le in H5. done.
Qed.

Lemma in_range_nonzero r : (Q2Qc 1 ≤ r)%Qc → r ≠ Q2Qc 0.
Proof. intros H ->. by apply Qcle_not_lt in H. Qed.

Lemma elem_of_Feedback_findByCourse fs c id f :
  (id, f) ∈ Feedback_findByCourse fs c
  ↔ fs !! id = Some f ∧ Feedback.courseId f = c.
Proof.
  unfold Feedback_findByCourse, scan. rewrite merge_sort_Permutation.
  rewrite list_elem_of_In, filter_In, <- list_elem_of_In.
  rewrite elem_of_map_to_list. simpl. by rewrite bool_decide_eq_true.
Qed.

Lemma filter_NoDup_fst {A} (g : N * A → bool) (l : list (N * A)) :
  NoDup l.*1 → NoDup (List.filter g l).*1.
Proof.
  induction l as [|x l IH]; [done|]. rewrite fmap_cons.
  intros [Hx Hl]%NoDup_cons. simpl.
  destruct (g x); [|by apply IH].
  rewrite fmap_cons. apply NoDup_cons. split; [|by apply IH].
  intros Hin. apply Hx. apply list_elem_of_fmap in Hin as [y [-> Hy]].
  apply list_elem_of_fmap. exists y. split; [done|].
  apply list_elem_of_In, filter_In in Hy as [Hy _]. by apply list_elem_of_In.
Qed.

Lemma Feedback_findByCourse_insert fs c id f :
  fs !! id = None →
  Feedback_findByCourse (<[id := f]> fs) c
  ≡ₚ (if bool_decide (Feedback.courseId f = c) then [(id, f)] else [])
     ++ Feedback_findByCourse fs c.
Proof.
  intros Hid. unfold Feedback_findByCourse, scan.
  rewrite !merge_sort_Permutation.
  rewrite (filter_Permutation _ _ _ (map_to_list_insert fs id f Hid)).
  simpl. by destruct (bool_decide _).
Qed.

Section FeedbackService.
Variable ValidationError_message : list (string * string) → string.

Local Abbreviation leave := (createFeedback ValidationError_message).

Lemma createFeedback_Return now courseId accountId rating comment fs id f fs' :
  leave now courseId accountId rating comment fs = (Return (id, f), fs') →
  ∃ c a r text,
    courseId = Some c ∧ accountId = Some a ∧ rating = Some r
    ∧ comment = Some text ∧ text ≠ "" ∧ (Q2Qc 1 ≤ r)%Qc ∧ (r ≤ Q2Qc 5)%Qc
    ∧ id = fresh (dom fs) ∧ f = Feedback.mk c a r text now now
    ∧ fs' = <[id := f]> fs.
Proof.
  unfold createFeedback. intros H.
  destruct courseId as [c|]; [|done]. destruct accountId as [a|]; [|done].
  destruct (truthyNumber rating) as [r|] eqn:Hr; [|done].
  destruct (truthyString comment) as [text|] eqn:Ht; [|done].
  apply truthyNumber_Some in Hr as [-> Hr0].
  apply truthyString_Some in Ht as [-> Ht0].
  destruct (validateFeedback r) eqn:Hv; [|done].
  apply validateFeedback_nil in Hv as [H1 H5].
  injection H as <- <- <-. exists c, a, r, text. by split_and!.
Qed.

(** X23: [createFeedback] succeeds exactly when course id and account id
    are given, the comment is not empty and the rating lies between 1 and
    5.  A success adds one document under an unused id, holding the four
    fields as given and the time of the call, and changes no other; every
    failure is a 400 that leaves the collection as it was.  A rating of 0
    is answered as a missing field, not as a rating below the minimum. *)
Theorem X23_createFeedback_outcome (now : Date.t) (courseId accountId : option N)
    (rating : option Number) (comment : option string) (fs : Feedbacks) :
  let res := leave now courseId accountId rating comment fs in
  ((∃ id f, fst res = Return (id, f))
   ↔ ∃ c a r text,
       courseId = Some c ∧ accountId = Some a ∧ rating = Some r
       ∧ comment = Some text ∧ text ≠ ""
       ∧ (Q2Qc 1 ≤ r)%Qc ∧ (r ≤ Q2Qc 5)%Qc)
  ∧ (∀ id f, fst res = Return (id, f) →
       fs !! id = None ∧ snd res = <[id := f]> fs
       ∧ Some (Feedback.courseId f) = courseId
       ∧ Some (Feedback.accountId f) = accountId
       ∧ Some (Feedback.rating f) = rating
       ∧ Some (Feedback.comment f) = comment
       ∧ Feedback.createdAt f = now ∧ Feedback.updatedAt f = now)
  ∧ (∀ e, fst res = Throw e → statusCode e = 400 ∧ snd res = fs)
  ∧ (rating = Some (Q2Qc 0) →
     res = (Throw (BadRequest "All fields are required"), fs)).
Proof.
  intros res. split_and!.
  - split.
    + intros (id & f & H). destruct res as [o fs'] eqn:E. simpl in H. subst o.
      apply createFeedback_Return in E
        as (c & a & r & text & -> & -> & -> & -> & ? & ? & ? & _).
      by exists c, a, r, text.
    + intros (c & a & r & text & -> & -> & -> & -> & Ht & H1 & H5).
      unfold res, createFeedback.
      rewrite (proj2 (truthyNumber_Some (Some r) r))
        by (split; [done|by apply in_range_nonzero]).
      rewrite (proj2 (truthyString_Some (Some text) text)) by done.
      rewrite (proj2 (validateFeedback_nil r)) by done.
      by eexists _, _.
  - intros id f H. destruct res as [o fs'] eqn:E. simpl in H. subst o.
    apply createFeedback_Return in E
      as (c & a & r & text & -> & -> & -> & -> & ? & ? & ? & -> & -> & ->).
    split_and!; try done.
    apply not_elem_of_dom, is_fresh.
  - intros e. unfold res, createFeedback.
    destruct courseId; [|by intros [= <-]].
    destruct accountId; [|by intros [= <-]].
    destruct (truthyNumber rating); [|by intros [= <-]].
    destruct (truthyString comment); [|by intros [= <-]].
    destruct (validateFeedback _); [done|]. by intros [= <-].
  - intros ->. unfold res, createFeedback.
    by destruct courseId, accountId.
Qed.

(** X25: a feedback that was accepted is in the list of its course from
    then on, with the rating and the comment as given: the list after the
    call is the list before it with the new feedback added.  This holds
    also when no course has the id, as the service never looks the course
    up: the feedback is then listed with a null course.  The list of any
    other course keeps its entries. *)
Theorem X25_created_feedback_is_listed (now : Date.t)
    (courseId accountId : option N) (rating : option Number)
    (comment : option string) (db : Db) (fs fs' : Feedbacks) (id : N)
    (f : Feedback.t) :
  leave now courseId accountId rating comment fs = (Return (id, f), fs') →
  ∃ c before after v,
    courseId = Some c
    ∧ getFeedbackByCourse courseId db fs = Return before
    ∧ getFeedbackByCourse courseId db fs' = Return after
    ∧ after ≡ₚ v :: before
    ∧ fv_id v = id
    ∧ Some (fv_rating v) = rating ∧ Some (fv_comment v) = comment
    ∧ fv_createdAt v = now
    ∧ (fv_courseId v = None ↔ courses db !! c = None)
    ∧ ∀ c' l, c' ≠ c →
        getFeedbackByCourse (Some c') db fs = Return l →
        ∃ l', getFeedbackByCourse (Some c') db fs' = Return l' ∧ l' ≡ₚ l.
Proof.
  intros H.
  apply createFeedback_Return in H
    as (c & a & r & text & -> & -> & -> & -> & ? & ? & ? & -> & -> & ->).
  set (id := fresh (dom fs)). set (f := Feedback.mk c a r text now now).
  assert (Hid : fs !! id = None) by apply not_elem_of_dom, is_fresh.
  exists c, (feedbackView db <$> Feedback_findByCourse fs c),
    (feedbackView db <$> Feedback_findByCourse (<[id := f]> fs) c),
    (feedbackView db (id, f)).
  split_and!; try done.
  - rewrite (Feedback_findByCourse_insert fs c id f Hid). simpl.
    by rewrite bool_decide_eq_true_2.
  - simpl. by destruct (courses db !! c).
  - intros c' l Hne [= <-]. eexists. split; [reflexivity|].
    rewrite (Feedback_findByCourse_insert fs c' id f Hid). simpl.
    by rewrite bool_decide_eq_false_2.
Qed.
End FeedbackService.

(** X24: [getFeedbackByCourse] fails with BadRequest without a course id.
    With one it lists the feedbacks left for that course and no other,
    each once, newest first, with the stored rating, comment and
    timestamps; the account is shown when it exists, and of the course no
    more than its id. *)
Theorem X24_getFeedbackByCourse_lists_course (courseId : option N) (db : Db)
    (fs : Feedbacks) :
  (courseId = None →
   getFeedbackByCourse courseId db fs = Throw (BadRequest "Course ID is required"))
  ∧ (∀ c, courseId = Some c →
     ∃ data,
       getFeedbackByCourse courseId db fs = Return data
       ∧ NoDup (fv_id <$> data)
       ∧ (∀ id, id ∈ fv_id <$> data
                ↔ ∃ f, fs !! id = Some f ∧ Feedback.courseId f = c)
       ∧ Sorted feedbackNewerFirst data
       ∧ ∀ v, v ∈ data →
           ∃ f, fs !! fv_id v = Some f
                ∧ fv_rating v = Feedback.rating f
                ∧ fv_comment v = Feedback.comment f
                ∧ fv_createdAt v = Feedback.createdAt f
                ∧ fv_updatedAt v = Feedback.updatedAt f
                ∧ fa_id <$> fv_accountId v
                  = ((λ _, Feedback.accountId f)
                       <$> accounts db !! Feedback.accountId f)
                ∧ fv_courseId v = ((λ _, mkFeedbackCourse c) <$> courses db !! c)).
Proof.
  split; [by intros ->|]. intros c ->. eexists. split; [reflexivity|].
  split_and!.
  - rewrite <- list_fmap_compose.
    replace (fv_id ∘ feedbackView db) with (@fst N Feedback.t) by done.
    unfold Feedback_findByCourse. rewrite merge_sort_Permutation.
    apply filter_NoDup_fst, NoDup_fst_map_to_list.
  - intros id. rewrite <- list_fmap_compose.
    replace (fv_id ∘ feedbackView db) with (@fst N Feedback.t) by done.
    rewrite list_elem_of_fmap. split.
    + intros [[id' f] [-> Hin]]. exists f.
      by apply elem_of_Feedback_findByCourse.
    + intros [f Hf]. exists (id, f). split; [done|].
      by apply elem_of_Feedback_findByCourse.
  - apply Sorted_fmap with (R1 := newerFeedbackFirst).
    + by intros [id1 f1] [id2 f2].
    + apply Sorted_merge_sort, _.
  - intros v [[id f] [-> Hin]]%list_elem_of_fmap.
    apply elem_of_Feedback_findByCourse in Hin as [Hf Hc].
    exists f. simpl. split_and!; try done.
    + by destruct (accounts db !! Feedback.accountId f).
    + rewrite Hc. by destruct (courses db !! c).
Qed.

Lemma X25_created_feedback_is_listed_witness :
  ∃ id f fs',
    createFeedback firstMessage mar5_2025 (Some 3%N) (Some 7%N)
      (Some (Q2Qc 5)) (Some "Clear and well paced") ∅ = (Return (id, f), fs')
    ∧ ∃ c before after v,
        Some 3%N = Some c
        ∧ getFeedbackByCourse (Some 3%N) db_shop ∅ = Return before
        ∧ getFeedbackByCourse (Some 3%N) db_shop fs' = Return after
        ∧ after ≡ₚ v :: before
        ∧ fv_id v = id
        ∧ Some (fv_rating v) = Some (Q2Qc 5)
        ∧ Some (fv_comment v) = Some "Clear and well paced"
        ∧ fv_createdAt v = mar5_2025
        ∧ (fv_courseId v = None ↔ courses db_shop !! c = None)
        ∧ ∀ c' l, c' ≠ c →
            getFeedbackByCourse (Some c') db_shop ∅ = Return l →
            ∃ l', getFeedbackByCourse (Some c') db_shop fs' = Return l' ∧ l' ≡ₚ l.
Proof.
  eexists _, _, _. split; [vm_compute; reflexivity|].
  eapply (X25_created_feedback_is_listed firstMessage mar5_2025 (Some 3%N)
            (Some 7%N) (Some (Q2Qc 5)) (Some "Clear and well paced") db_shop ∅).
  vm_compute; reflexivity.
Defined.

Example feedback_samples :
  fst (createFeedback firstMessage mar5_2025 (Some 1%N) (Some 7%N)
         (Some (Q2Qc 6)) (Some "Good") ∅)
    = Throw (BadRequest "Feedback validation failed: rating: Rating must be at most 5!")
  ∧ fst (createFeedback firstMessage mar5_2025 (Some 1%N) (Some 7%N)
           (Some (Q2Qc 0)) (Some "Good") ∅)
    = Throw (BadRequest "All fields are required")
  ∧ fst (createFeedback firstMessage mar5_2025 (Some 1%N) (Some 7%N)
           (Some (Q2Qc (-1))) (Some "Good") ∅)
    = Throw (BadRequest "Feedback validation failed: rating: Rating must be at least 1!").
Proof. split_and!; vm_compute; reflexivity. Qed.

(** * Creating a course *)

Lemma nonEmptyString_Some v s :
  nonEmptyString v = Some s ↔ v = JString s ∧ s ≠ "".
Proof.
  destruct v as [| | |x|s'|]; simpl; try (by split; [|intros [? _]]).
  destruct (String.eqb_spec s' "") as [E|E].
  - split; [done|]. by intros [[= ->] ?].
  - split; [by intros [= ->]|]. by intros [[= ->] _].
Qed.

Lemma nonNegativeNumber_Some v x :
  nonNegativeNumber v = Some x ↔ v = JNumber x ∧ (Q2Qc 0 ≤ x)%Qc.
Proof.
  destruct v as [| | |x'|s'|]; simpl; try (by split; [|intros [? _]]).
  destruct (bool_decide_reflect (x' < Q2Qc 0)%Qc) as [E|E].
  - split; [done|]. intros [[= ->] H]. by apply Qcle_not_lt in H.
  - apply Qcnot_lt_le in E. split; [by intros [= ->]|]. by intros [[= ->] _].
Qed.

Lemma Certification_findOneValid_is_Some certs u :
  is_Some (Certification_findOneValid certs u)
  ↔ ∃ id c, certs !! id = Some c
            ∧ Certification.createBy c = u
            ∧ Certification.isChecked c = true
            ∧ Certification.isCanTeach c = true.
Proof.
  unfold Certification_findOneValid, scan, validCertificationOf. split.
  - intros [[id c] H]. apply find_some in H as [Hin Hv].
    apply list_elem_of_In, elem_of_map_to_list in Hin.
    apply andb_true_iff in Hv as [[Hu%bool_decide_eq_true Hc]%andb_true_iff Ht].
    by exists id, c.
  - intros (id & c & Hc & Hu & Hch & Ht).
    match goal with |- is_Some ?t => destruct t as [p|] eqn:F end; [by eexists|].
    apply find_none with (x := (id, c)) in F.
    + simpl in F. by rewrite Hu, Hch, Ht, bool_decide_eq_true_2 in F.
    + by apply list_elem_of_In, elem_of_map_to_list.
Qed.

(** The course a successful call stores. *)
Lemma createCourse_ok now n d i p u certs db :
  n ≠ "" → d ≠ "" → String.prefix "http" i = true → (Q2Qc 0 ≤ p)%Qc →
  mayCreateCourse db certs u →
  createCourse now (JString n) (JString d) (JString i) (JNumber p) (Some u)
    certs db
  = (Return (mkCourseResponse 201 "Course created successfully"
               (Some (mkCourseData (fresh (dom (courses db))) n d i p u now))),
     set_courses <[fresh (dom (courses db)) := Course.mk n d i p u true now now]>
       db).
Proof.
  intros Hn Hd Hi Hp [(account & Ha & Hact) Hcert].
  apply Certification_findOneValid_is_Some in Hcert as [cert Hcert].
  assert (Hi' : i ≠ "") by (by intros ->).
  unfold createCourse.
  rewrite (proj2 (nonEmptyString_Some (JString n) n)) by done.
  rewrite (proj2 (nonEmptyString_Some (JString d) d)) by done.
  rewrite (proj2 (nonEmptyString_Some (JString i) i)) by done.
  rewrite Hi. cbn [negb].
  rewrite (proj2 (nonNegativeNumber_Some (JNumber p) p)) by done.
  unfold mbind, M_bind, Account_findById. cbv beta iota. rewrite Ha.
  rewrite (bool_decide_eq_true_2 _ Hact). cbn [negb].
  rewrite Hcert. reflexivity.
Qed.

Local Ltac refused H Hst :=
  cbv [mret M_ret negb] in H; injection H as <- <-; simpl in Hst; discriminate Hst.

Lemma createCourse_201 now name description image price userId certs db resp db' :
  createCourse now name description image price userId certs db
    = (Return resp, db') →
  cs_status resp = 201 →
  ∃ n d i p u,
    name = JString n ∧ n ≠ "" ∧ description = JString d ∧ d ≠ ""
    ∧ image = JString i ∧ String.prefix "http" i = true
    ∧ price = JNumber p ∧ (Q2Qc 0 ≤ p)%Qc
    ∧ userId = Some u ∧ mayCreateCourse db certs u.
Proof.
  unfold createCourse. intros H Hst.
  destruct (nonEmptyString name) as [n|] eqn:Hn;
    [|refused H Hst].
  destruct (nonEmptyString description) as [d|] eqn:Hd;
    [|refused H Hst].
  destruct (nonEmptyString image) as [i|] eqn:Hi;
    [|refused H Hst].
  destruct (String.prefix "http" i) eqn:Hp; [|refused H Hst].
  destruct (nonNegativeNumber price) as [p|] eqn:Hpr;
    [|refused H Hst].
  destruct userId as [u|]; [|refused H Hst].
  unfold mbind, M_bind, Account_findById in H.
  cbv beta iota delta [negb] in H.
  destruct (accounts db !! u) as [account|] eqn:Ha;
    [|refused H Hst].
  destruct (bool_decide_reflect (Account.status account = Active)) as [Hact|];
    [|refused H Hst].
  destruct (Certification_findOneValid certs u) as [cert|] eqn:Hc;
    [|refused H Hst].
  apply nonEmptyString_Some in Hn as [-> Hn], Hd as [-> Hd], Hi as [-> Hi].
  apply nonNegativeNumber_Some in Hpr as [-> Hpr].
  assert (Hmay : mayCreateCourse db certs u).
  { split; [by exists account|].
    apply Certification_findOneValid_is_Some. by eexists. }
  by exists n, d, i, p, u.
Qed.

Lemma createCourse_returns now name description image price userId certs db :
  ∃ resp db',
    createCourse now name description image price userId certs db
      = (Return resp, db')
    ∧ (cs_status resp = 201
       ∨ (cs_status resp = 400 ∨ cs_status resp = 403 ∨ cs_status resp = 404)
         ∧ db' = db ∧ cs_data resp = None).
Proof.
  unfold createCourse.
  destruct (nonEmptyString name); [|eexists _, _; split; [done|]; auto].
  destruct (nonEmptyString description); [|eexists _, _; split; [done|]; auto].
  destruct (nonEmptyString image); [|eexists _, _; split; [done|]; auto].
  destruct (String.prefix "http" _); [|eexists _, _; split; [done|]; auto].
  destruct (nonNegativeNumber price); [|eexists _, _; split; [done|]; auto].
  destruct userId as [u|]; [|eexists _, _; split; [done|]; auto].
  unfold mbind, M_bind, Account_findById. cbv beta iota delta [negb].
  destruct (accounts db !! u) as [account|];
    [|eexists _, _; split; [done|]; simpl; auto 6].
  destruct (bool_decide (Account.status account = Active));
    [|eexists _, _; split; [done|]; simpl; auto 6].
  destruct (Certification_findOneValid certs u);
    eexists _, _; (split; [done|]); simpl; auto 6.
Qed.


Section CourseAndOrder.
Variable Number_toString : Number → string.
Variable hmacSha512Hex : string → string → string.

(** X27: a course that was just created can be bought at once.  After a
    201 from [createCourse], [createOrder] for the reported course id by
    any account of the store succeeds: the new order is Pending, belongs to
    the buyer and totals the price given at creation, and its detail refers
    to the new course at that price. *)
Theorem X27_created_course_can_be_ordered (req : Request) (now later : Date.t)
    (name description image : JsValue) (p : Number) (userId : option N)
    (certs : Certifications) (db db1 : Db) (resp : CourseResponse)
    (data : CourseData) (aid : N) :
  createCourse now name description image (JNumber p) userId certs db
    = (Return resp, db1) →
  cs_status resp = 201 →
  cs_data resp = Some data →
  is_Some (accounts db !! aid) →
  ∃ r db2 o detailId d,
    createOrder Number_toString hmacSha512Hex req later (Some (cd_id data))
      (Some aid) db1 = (Return r, db2)
    ∧ orders db !! cr_orderId r = None
    ∧ orders db2 !! cr_orderId r = Some o
    ∧ Order.status o = Pending ∧ Order.account o = aid
    ∧ Order.totalAmount o = p
    ∧ orderdetails db2 !! detailId = Some d
    ∧ OrderDetail.order d = cr_orderId r
    ∧ OrderDetail.course d = cd_id data
    ∧ OrderDetail.price d = p
    ∧ courses db2 = courses db1.
Proof.
  intros H Hst Hdata [acc Hacc].
  destruct (createCourse_201 _ _ _ _ _ _ _ _ _ _ H Hst)
    as (n & d & i & p' & u & -> & Hn & -> & Hd & -> & Hi & [= <-] & Hp & -> & Hmay).
  rewrite (createCourse_ok now n d i p u certs db Hn Hd Hi Hp Hmay) in H.
  injection H as <- <-. simpl in Hdata. injection Hdata as <-. simpl.
  set (cid := fresh (dom (courses db))).
  set (course := Course.mk n d i p u true now now).
  pose proof (createOrder_unfold Number_toString hmacSha512Hex req later cid aid
                (set_courses <[cid := course]> db)) as Ho.
  cbn [courses accounts set_courses] in Ho.
  rewrite lookup_insert_eq, Hacc in Ho. cbn [Course.isActive course negb] in Ho.
  eexists _, _, _, _, _. split; [exact Ho|].
  cbn [cr_orderId dbAfterOrder orders orderdetails courses set_courses].
  rewrite !lookup_insert_eq. split_and!; try done.
  - apply not_elem_of_dom, is_fresh.
  - simpl. apply Qcmult_1_r.
Qed.
End CourseAndOrder.

Lemma X27_created_course_can_be_ordered_witness :
  ∃ resp db1 data,
    createCourse jan1_2025 (JString "Advanced Go") (JString "Concurrency")
      (JString "http://img/go2.png") (JNumber (Q2Qc 200000)) (Some 9%N)
      certs_tutor db_shop = (Return resp, db1)
    ∧ cs_status resp = 201
    ∧ cs_data resp = Some data
    ∧ is_Some (accounts db_shop !! 7%N)
    ∧ ∃ r db2 o detailId d,
        createOrder integerToString lengthDigest req_local mar5_2025
          (Some (cd_id data)) (Some 7%N) db1 = (Return r, db2)
        ∧ orders db_shop !! cr_orderId r = None
        ∧ orders db2 !! cr_orderId r = Some o
        ∧ Order.status o = Pending ∧ Order.account o = 7%N
        ∧ Order.totalAmount o = Q2Qc 200000
        ∧ orderdetails db2 !! detailId = Some d
        ∧ OrderDetail.order d = cr_orderId r
        ∧ OrderDetail.course d = cd_id data
        ∧ OrderDetail.price d = Q2Qc 200000
        ∧ courses db2 = courses db1.
Proof.
  assert (Hacc : is_Some (accounts db_shop !! 7%N)) by (by eexists).
  eexists _, _, _. split; [vm_compute; reflexivity|].
  split; [reflexivity|]. split; [reflexivity|]. split; [exact Hacc|].
  eapply (X27_created_course_can_be_ordered integerToString lengthDigest
            req_local jan1_2025 mar5_2025 (JString "Advanced Go")
            (JString "Concurrency") (JString "http://img/go2.png") (Q2Qc 200000)
            (Some 9%N) certs_tutor db_shop);
    [vm_compute; reflexivity|reflexivity|reflexivity|exact Hacc].
Defined.

Example createCourse_samples :
  cs_status <$> outcomeValue
      (fst (createCourse jan1_2025 (JString "Advanced Go") (JString "Concurrency")
              (JString "http://img/go2.png") (JNumber (Q2Qc 200000)) (Some 7%N)
              certs_tutor db_shop))
    = Some 403
  ∧ cs_status <$> outcomeValue
        (fst (createCourse jan1_2025 (JString "Advanced Go") (JString "Concurrency")
                (JString "ftp://img/go2.png") (JNumber (Q2Qc 200000)) (Some 9%N)
                certs_tutor db_shop))
    = Some 400
  ∧ cs_status <$> outcomeValue
        (fst (createCourse jan1_2025 (JString "Advanced Go") (JString "Concurrency")
                (JString "http://img/go2.png") (JNumber (Q2Qc 200000)) (Some 8%N)
                certs_tutor db_shop))
    = Some 404.
Proof. split_and!; vm_compute; reflexivity. Qed.

(** * Listing the courses *)

Global Instance byMaxExperienceDesc_total : Total byMaxExperienceDesc.
Proof.
  intros a b. unfold byMaxExperienceDesc.
  destruct (Qclt_le_dec (wm_maxExperience a) (wm_maxExperience b)) as [H|H].
  - right. by apply Qclt_le_weak.
  - by left.
Qed.

Lemma Qcmax_ub a b : (a ≤ Qcmax a b)%Qc ∧ (b ≤ Qcmax a b)%Qc.
Proof.
  unfold Qcmax. destruct (bool_decide_reflect (a < b)%Qc) as [H|H].
  - split; [by apply Qclt_le_weak|apply Qcle_refl].
  - split; [apply Qcle_refl|by apply Qcnot_lt_le].
Qed.

Lemma Qcmax_cases a b : Qcmax a b = a ∨ Qcmax a b = b.
Proof. unfold Qcmax. destruct (bool_decide _); auto. Qed.

(** [Math.max] of at least one number is one of them and no smaller than
    any. *)
Lemma Math_max_spec (xs : list Number) :
  xs ≠ [] →
  ∃ m, Math_max xs = Some m ∧ m ∈ xs ∧ ∀ x, x ∈ xs → (x ≤ m)%Qc.
Proof.
  induction xs as [|x xs IH]; [done|]. intros _. cbn [Math_max].
  destruct xs as [|y ys].
  - exists x. split; [done|]. split; [left|].
    intros z ->%list_elem_of_singleton. apply Qcle_refl.
  - destruct IH as (m & -> & Hin & Hub); [done|].
    exists (Qcmax x m). split; [done|]. split.
    + destruct (Qcmax_cases x m) as [->| ->]; [left|by right].
    + intros z [->|Hz]%elem_of_cons; [apply Qcmax_ub|].
      eapply Qcle_trans; [by apply Hub|apply Qcmax_ub].
Qed.

Lemma filter_implied {A} (f g : A → bool) (l : list A) :
  (∀ x, x ∈ l → f x = true → g x = true) →
  List.filter f (List.filter g l) = List.filter f l.
Proof.
  induction l as [|x l IH]; [done|]. intros H. simpl.
  assert (IH' : List.filter f (List.filter g l) = List.filter f l).
  { apply IH. intros y Hy. apply H. by right. }
  destruct (f x) eqn:Hf.
  - rewrite (H x) by (done || left). simpl. by rewrite Hf, IH'.
  - destruct (g x); simpl; [by rewrite Hf|done].
Qed.

Lemma find_by_key {A} (g : N * A → bool) (m : gmap N A) (k : N) :
  (∀ v, m !! k = Some v → g (k, v) = true) →
  List.find (λ p, bool_decide (p.1 = k)) (List.filter g (scan m))
  = (λ v, (k, v)) <$> m !! k.
Proof.
  intros Hg. unfold scan.
  destruct (List.find _ _) as [[k' v]|] eqn:F.
  - apply find_some in F as [Hin Hk]. simpl in Hk.
    apply bool_decide_eq_true in Hk as ->.
    apply filter_In in Hin as [Hin _].
    apply list_elem_of_In, elem_of_map_to_list in Hin. by rewrite Hin.
  - destruct (m !! k) as [v|] eqn:Hk; [|done].
    apply find_none with (x := (k, v)) in F.
    + simpl in F. by rewrite bool_decide_eq_true_2 in F.
    + apply filter_In. split; [|by apply Hg].
      by apply list_elem_of_In, elem_of_map_to_list.
Qed.

Lemma Sorted_fmap_on {A B} (P : A → Prop) (R1 : relation A) (R2 : relation B)
    (f : A → B) (l : list A) :
  (∀ x y, P x → P y → R1 x y → R2 (f x) (f y)) →
  Forall P l → Sorted R1 l → Sorted R2 (f <$> l).
Proof.
  intros HR HP. induction 1 as [|x l Hs IH Hhd]; [constructor|].
  apply Forall_cons in HP as [Hx Hl]. rewrite fmap_cons. constructor.
  - by apply IH.
  - destruct Hhd as [|y l' Hxy]; [constructor|]. rewrite fmap_cons.
    constructor. apply Forall_cons in Hl as [Hy _]. by apply HR.
Qed.

(** What the mapping step computes for a course of the store. *)
Lemma withMaxExperience_course (certs : Certifications) (db : Db) (id : N)
    (course : Course.t) :
  courses db !! id = Some course →
  let creatorIds := (λ c : N * Course.t, Course.createdBy c.2) <$> scan (courses db) in
  withMaxExperience
    (List.filter (λ acc, bool_decide (acc.1 ∈ creatorIds)) (scan (accounts db)))
    (List.filter (λ cert, bool_decide (Certification.createBy cert.2 ∈ creatorIds))
       (scan certs))
    (id, course)
  = mkWithMaxExperience (id, course)
      (maxExperienceOf certs (Course.createdBy course))
      ((λ a, (Course.createdBy course, a))
         <$> accounts db !! Course.createdBy course)
      (certificationsOf certs (Course.createdBy course)).
Proof.
  intros Hc creatorIds.
  assert (Hin : Course.createdBy course ∈ creatorIds).
  { apply list_elem_of_fmap. exists (id, course). split; [done|].
    by apply elem_of_map_to_list. }
  unfold withMaxExperience. cbn [snd fst].
  rewrite filter_implied.
  2:{ intros cert _ ->%bool_decide_eq_true. by apply bool_decide_eq_true_2. }
  rewrite (find_by_key _ (accounts db) (Course.createdBy course)).
  2:{ intros v _. by apply bool_decide_eq_true_2. }
  fold (certificationsOf certs (Course.createdBy course)).
  f_equal. unfold maxExperienceOf.
  destruct (certificationsOf certs (Course.createdBy course)); done.
Qed.

(** X28: [getCoursesWithDetails] answers 200 and lists every course of the
    store exactly once, each with its creator's account (null when there is
    none) and the creator's certifications, ordered by the creator's
    highest certification experience, highest first.  That number is 0 for
    a creator without certification and otherwise the experience of one of
    the creator's certifications, not exceeded by any other of them.  With
    no course the message is [No courses found]. *)
Theorem X28_getCoursesWithDetails_by_experience (certs : Certifications) (db : Db) :
  let resp := getCoursesWithDetails certs db in
  cl_status resp = 200
  ∧ (cl_message resp
     = if bool_decide (courses db = ∅) then "No courses found"
       else "Courses retrieved successfully")
  ∧ NoDup (ci_id ∘ cdt_course <$> cl_courses resp)
  ∧ (∀ id, id ∈ (ci_id ∘ cdt_course <$> cl_courses resp)
           ↔ is_Some (courses db !! id))
  ∧ Sorted (moreExperiencedFirst certs) (cl_courses resp)
  ∧ (∀ e, e ∈ cl_courses resp →
       ∃ course,
         courses db !! ci_id (cdt_course e) = Some course
         ∧ cdt_course e = courseInfo (ci_id (cdt_course e), course)
         ∧ cdt_account e
           = ((λ a, accountInfo (Course.createdBy course, a))
                <$> accounts db !! Course.createdBy course)
         ∧ cdt_certifications e
           = (certificationInfo <$> certificationsOf certs (Course.createdBy course)))
  ∧ (∀ u,
       (certificationsOf certs u = [] → maxExperienceOf certs u = Q2Qc 0)
       ∧ ∀ id c, certs !! id = Some c → Certification.createBy c = u →
           (Certification.experience c ≤ maxExperienceOf certs u)%Qc
           ∧ ∃ id' c', certs !! id' = Some c'
                       ∧ Certification.createBy c' = u
                       ∧ Certification.experience c' = maxExperienceOf certs u).
Proof.
  intros resp.
  set (g := λ p : N * Course.t,
         mkWithMaxExperience p (maxExperienceOf certs (Course.createdBy p.2))
           ((λ a, (Course.createdBy p.2, a))
              <$> accounts db !! Course.createdBy p.2)
           (certificationsOf certs (Course.createdBy p.2))).
  assert (Hresp : cl_courses resp
                  = courseDetails <$> merge_sort byMaxExperienceDesc
                                        (g <$> scan (courses db))).
  { unfold resp, getCoursesWithDetails.
    destruct (bool_decide_reflect (length (scan (courses db)) = 0%nat)) as [E|E].
    - apply nil_length_inv in E. by rewrite E.
    - cbn [cl_courses]. do 2 f_equal. apply list_fmap_ext.
      intros i [id course] Hi. apply (withMaxExperience_course certs db id course).
      apply elem_of_map_to_list. by apply list_elem_of_lookup_2 in Hi. }
  assert (Hperm : cl_courses resp ≡ₚ (courseDetails ∘ g) <$> scan (courses db)).
  { rewrite Hresp, merge_sort_Permutation. by rewrite <- list_fmap_compose. }
  split_and!.
  - unfold resp, getCoursesWithDetails. by destruct (bool_decide _).
  - unfold resp, getCoursesWithDetails, scan.
    destruct (bool_decide_reflect (length (map_to_list (courses db)) = 0%nat))
      as [E|E].
    + apply nil_length_inv, map_to_list_empty_iff in E.
      by rewrite bool_decide_eq_true_2.
    + rewrite bool_decide_eq_false_2; [done|].
      intros E'. by rewrite E', map_to_list_empty in E.
  - rewrite Hperm, <- list_fmap_compose.
    replace (ci_id ∘ cdt_course ∘ (courseDetails ∘ g)) with (@fst N Course.t)
      by done.
    apply NoDup_fst_map_to_list.
  - intros id. rewrite Hperm, <- list_fmap_compose.
    replace (ci_id ∘ cdt_course ∘ (courseDetails ∘ g)) with (@fst N Course.t)
      by done.
    rewrite list_elem_of_fmap. split.
    + intros [[id' course] [-> Hin]]. exists course.
      by apply elem_of_map_to_list in Hin.
    + intros [course Hc]. exists (id, course). split; [done|].
      by apply elem_of_map_to_list.
  - rewrite Hresp.
    apply (Sorted_fmap_on (λ e, ∃ p, e = g p) byMaxExperienceDesc).
    + by intros x y [p ->] [q ->].
    + apply Forall_forall. intros e. rewrite merge_sort_Permutation.
      intros [p [-> _]]%list_elem_of_fmap. by exists p.
    + apply Sorted_merge_sort, _.
  - intros e. rewrite Hperm.
    intros [[id course] [-> Hin]]%list_elem_of_fmap.
    apply elem_of_map_to_list in Hin. exists course. split; [done|].
    split; [done|]. split; [|done].
    simpl. by destruct (accounts db !! Course.createdBy course).
  - intros u. split.
    + unfold maxExperienceOf. by intros ->.
    + intros id c Hc Hu. unfold maxExperienceOf.
      assert (Hin : (id, c) ∈ certificationsOf certs u).
      { unfold certificationsOf. apply list_elem_of_In, filter_In. split.
        - by apply list_elem_of_In, elem_of_map_to_list.
        - by apply bool_decide_eq_true_2. }
      destruct (Math_max_spec
                  ((λ cert, Certification.experience cert.2)
                     <$> certificationsOf certs u)) as (m & -> & Hm & Hub).
      { intros E. apply fmap_nil_inv in E. rewrite E in Hin.
        by apply not_elem_of_nil in Hin. }
      simpl. split.
      * apply Hub. apply list_elem_of_fmap. by exists (id, c).
      * apply list_elem_of_fmap in Hm as [[id' c'] [-> Hin']].
        unfold certificationsOf in Hin'.
        apply list_elem_of_In, filter_In in Hin' as [Hin' Hu'].
        apply list_elem_of_In, elem_of_map_to_list in Hin'.
        apply bool_decide_eq_true in Hu'. by exists id', c'.
Qed.
